(** * pycoQC: the ingestion of the sequencing summary table

    A shallow embedding of [pycoQC.__init__] (src/pycoQC/pycoQC.py, lines
    51-128), the constructor that reads an Albacore sequencing summary,
    recognises its layout (1D, or 2D / 1D^2), filters it and counts the reads
    per run id, and of the methods that compute a table from the result:
    [reads_len_bins] and [reads_qual_bins] (lines 174-196), and
    [channels_activity] (lines 198-256) up to the array that it draws.

    The constructor is a sequence of pandas calls on [self.df].  The pandas
    operations it uses are modelled on a column-major table whose cells are
    Python values; [self], the console and the files are an explicit state
    that each statement threads, and an exception stops the run and leaves the
    state as it was when it was raised.  The methods read the object and
    change nothing: they are functions of the object that return a table or
    the exception.

    Two things that the code leaves to the pandas in use are arguments of the
    model: the sort of [value_counts], of which every version promises the
    descending counts and nothing on the order of equal counts
    ([pandas_sort]), and the default of [observed] in [groupby], which
    decides whether an interval without a read has a row.  A statement that
    holds for every sort, or for both defaults, holds whatever the version. *)

From Stdlib Require Import ZArith String Ascii List Bool Arith Lia Sorted.
From Stdlib Require Import Permutation.
From Stdlib Require Import Floats.SpecFloat DecimalString.
Import ListNotations.

Local Open Scope string_scope.
Local Open Scope nat_scope.

(* ===================================================================== *)
(** ** Cells: the values a parsed table holds *)
(* ===================================================================== *)

(** binary64, the [float64] of numpy and the [float] of Python. *)
Definition prec : Z := 53.
Definition emax : Z := 1024.

Definition float := spec_float.

(** Conversion of an integer to the nearest binary64 (ties to even). *)
Definition float_of_int (z : Z) : float := binary_normalize prec emax z 0 false.

(** The literal [1.8]: 0x1.ccccccccccccdp+0. *)
Definition float_1_8 : float := S754_finite false 8106479329266893 (-52).

(** A cell of a table read by [pd.read_csv]: an [int64], a [float64] (which
    includes NaN, the mark of a missing value) or a string. *)
Inductive cell : Type :=
| CInt (z : Z)
| CFloat (f : float)
| CStr (s : string).

(** [pd.isna] on one value. *)
Definition isna (c : cell) : bool :=
  match c with
  | CFloat S754_nan => true
  | _ => false
  end.

Definition notna (c : cell) : bool := negb (isna c).

(** Exceptions that the constructor can raise. *)
Inductive exn : Type :=
| AssertionError (msg : string)
| TypeError (msg : string)
| KeyError (key : string)
| AttributeError (name : string)
| FileNotFoundError (path : string).

(** [c / n] for a Python integer [n]: true division, in binary64. *)
Definition cell_truediv (c : cell) (n : Z) : exn + cell :=
  match c with
  | CInt z => inr (CFloat (SFdiv prec emax (float_of_int z) (float_of_int n)))
  | CFloat f => inr (CFloat (SFdiv prec emax f (float_of_int n)))
  | CStr _ => inl (TypeError "unsupported operand type(s) for /: 'str' and 'int'")
  end.

(** [c * x] for a Python float [x]. *)
Definition cell_mul (c : cell) (x : float) : exn + cell :=
  match c with
  | CInt z => inr (CFloat (SFmul prec emax (float_of_int z) x))
  | CFloat f => inr (CFloat (SFmul prec emax f x))
  | CStr _ => inl (TypeError "can't multiply sequence by non-int of type 'float'")
  end.

(** [c > n] for a Python integer [n]. *)
Definition cell_gt (c : cell) (n : Z) : exn + bool :=
  match c with
  | CInt z => inr (Z.ltb n z)
  | CFloat f => inr (SFltb (float_of_int n) f)
  | CStr _ => inl (TypeError "'>' not supported between instances of 'str' and 'int'")
  end.

(** [c == s] for a Python string [s]: a number never equals a string. *)
Definition cell_eq_str (c : cell) (s : string) : bool :=
  match c with
  | CStr t => String.eqb t s
  | _ => false
  end.

(** [c == n] for a Python integer [n]. *)
Definition cell_eq_int (c : cell) (n : Z) : bool :=
  match c with
  | CInt z => Z.eqb z n
  | CFloat f => SFeqb f (float_of_int n)
  | CStr _ => false
  end.

(** [a == b] between two cells of one column, as the hash table of
    [value_counts] compares its keys.  A parsed column holds integers, floats
    or strings; an integer column never holds a float. *)
Definition cell_eqb (a b : cell) : bool :=
  match a, b with
  | CInt x, CInt y => Z.eqb x y
  | CFloat x, CFloat y => SFeqb x y
  | CStr x, CStr y => String.eqb x y
  | _, _ => false
  end.

(* ===================================================================== *)
(** ** Series and data frames *)
(* ===================================================================== *)

(** The values of a [pd.Series].  Every series of the constructor is a column
    of [self.df], or computed from one row by row, so the labels are those of
    [self.df] and are not repeated here. *)
Definition Series : Type := list cell.

(** A [pd.DataFrame]: the row labels and the named columns, in order. *)
Record DataFrame : Type := mkDataFrame {
  index : list cell;
  data : list (string * Series)
}.

(** [df.columns] *)
Definition columns (d : DataFrame) : list string := map fst (data d).

(** [len(df)] *)
Definition len (d : DataFrame) : nat := length (index d).

(** Every column has one cell per row. *)
Definition wf (d : DataFrame) : Prop :=
  Forall (fun cs => length (snd cs) = len d) (data d).

(** [colname in df.columns] *)
Definition contains (cols : list string) (colname : string) : bool :=
  existsb (String.eqb colname) cols.

Fixpoint lookup_col (c : string) (l : list (string * Series)) : option Series :=
  match l with
  | [] => None
  | (c', s) :: t => if String.eqb c' c then Some s else lookup_col c t
  end.

(** [df[c]] *)
Definition getitem (d : DataFrame) (c : string) : exn + Series :=
  match lookup_col c (data d) with
  | Some s => inr s
  | None => inl (KeyError c)
  end.

Fixpoint assign_col (c : string) (s : Series) (l : list (string * Series))
  : list (string * Series) :=
  match l with
  | [] => [(c, s)]
  | (c', s') :: t =>
      if String.eqb c' c then (c', s) :: t else (c', s') :: assign_col c s t
  end.

(** [df[c] = s]: replaces the column [c], or appends it. *)
Definition setitem (d : DataFrame) (c : string) (s : Series) : DataFrame :=
  {| index := index d; data := assign_col c s (data d) |}.

(** Selection by a boolean mask: the entries whose flag is [True]. *)
Fixpoint select {A : Type} (mask : list bool) (l : list A) : list A :=
  match mask, l with
  | b :: m, x :: t => if b then x :: select m t else select m t
  | _, _ => []
  end.

(** [df[mask]] *)
Definition loc (d : DataFrame) (mask : list bool) : DataFrame :=
  {| index := select mask (index d);
     data := map (fun cs => (fst cs, select mask (snd cs))) (data d) |}.

Fixpoint zip_and (a b : list bool) : list bool :=
  match a, b with
  | x :: a', y :: b' => (x && y) :: zip_and a' b'
  | _, _ => []
  end.

(** The rows that hold no missing value, in any column. *)
Definition notna_rows (d : DataFrame) : list bool :=
  fold_right (fun cs m => zip_and (map notna (snd cs)) m)
             (repeat true (len d)) (data d).

(** [df.dropna()]: axis 0, how = 'any'. *)
Definition dropna (d : DataFrame) : DataFrame := loc d (notna_rows d).

Fixpoint mapM {A B : Type} (f : A -> exn + B) (l : list A) : exn + list B :=
  match l with
  | [] => inr []
  | x :: t =>
      match f x with
      | inl e => inl e
      | inr y => match mapM f t with
                 | inl e => inl e
                 | inr t' => inr (y :: t')
                 end
      end
  end.

(** [s / n], [s * x], [s > n], [s == runid] on a whole series. *)
Definition series_truediv (s : Series) (n : Z) : exn + Series :=
  mapM (fun c => cell_truediv c n) s.
Definition series_mul (s : Series) (x : float) : exn + Series :=
  mapM (fun c => cell_mul c x) s.
Definition series_gt (s : Series) (n : Z) : exn + list bool :=
  mapM (fun c => cell_gt c n) s.
Definition series_eq (s : Series) (runid : string) : list bool :=
  map (fun c => cell_eq_str c runid) s.

(** [df.reset_index(drop=True)]: the labels become 0, 1, ... *)
Definition reset_index (d : DataFrame) : DataFrame :=
  {| index := map (fun i => CInt (Z.of_nat i)) (seq 0 (len d));
     data := data d |}.

Fixpoint remove_col (c : string) (l : list (string * Series))
  : list (string * Series) :=
  match l with
  | [] => []
  | (c', s) :: t => if String.eqb c' c then t else (c', s) :: remove_col c t
  end.

(** [df.set_index(c)]: the column [c] becomes the row labels and leaves the
    columns.  pandas checks the labels for duplicates only when asked to
    ([verify_integrity], off by default and not passed here).  Without a
    column [c] it raises a [KeyError] that lists the keys it has not found. *)
Definition set_index (d : DataFrame) (c : string) : exn + DataFrame :=
  match lookup_col c (data d) with
  | Some s => inr {| index := s; data := remove_col c (data d) |}
  | None => inl (KeyError ("None of ['" ++ c ++ "'] are in the columns"))
  end.

(* ===================================================================== *)
(** ** [value_counts] *)
(* ===================================================================== *)

(** pandas counts the values in a hash table that hands back its keys in the
    order in which they were first met.  [count_key] is one more occurrence
    of [k]: a key that is new goes to the end of the table. *)
Fixpoint count_key (k : cell) (t : list (cell * nat)) : list (cell * nat) :=
  match t with
  | [] => [(k, 1)]
  | (k', n) :: t' =>
      if cell_eqb k' k then (k', S n) :: t' else (k', n) :: count_key k t'
  end.

(** The occurrences of each value; missing values are not counted
    ([dropna=True]). *)
Definition tally (s : Series) : list (cell * nat) :=
  fold_left (fun t c => if isna c then t else count_key c t) s [].

(** Insertion in a table sorted by descending count, before the first entry
    whose count is not greater. *)
Fixpoint insert_desc (x : cell * nat) (l : list (cell * nat))
  : list (cell * nat) :=
  match l with
  | [] => [x]
  | y :: l' =>
      if Nat.ltb (snd x) (snd y) then y :: insert_desc x l' else x :: y :: l'
  end.

(** A stable sort by descending count: the entries are inserted, last one
    first, each before the entries that it is not smaller than, which leaves
    entries of equal count in the order they had. *)
Definition sort_desc (l : list (cell * nat)) : list (cell * nat) :=
  fold_right insert_desc [] l.

(** Insertion after the entries whose count is not smaller. *)
Fixpoint insert_last (x : cell * nat) (l : list (cell * nat))
  : list (cell * nat) :=
  match l with
  | [] => [x]
  | y :: l' =>
      if Nat.leb (snd x) (snd y) then y :: insert_last x l' else x :: y :: l'
  end.

(** A sort by descending count that is not stable: it turns the entries of
    equal count round. *)
Definition sort_desc_last (l : list (cell * nat)) : list (cell * nat) :=
  fold_right insert_last [] l.

(** [counts.sort_values(ascending=False)] with the sort that pandas uses by
    default.  [value_counts(sort=True)] passes no [kind], and what every
    pandas promises of the default is that the entries come back, each once,
    by descending count.  The order of entries of equal count belongs to the
    sort in use: pandas 3 sorts the counts with a stable sort, the versions
    before it with the quicksort of numpy, which is not stable.  So the sort
    is an argument of the model, with this contract. *)
Record pandas_sort : Type := mkSort {
  sort_values : list (cell * nat) -> list (cell * nat);
  sort_values_perm : forall l, Permutation (sort_values l) l;
  sort_values_desc :
    forall l, StronglySorted (fun p q => snd q <= snd p) (sort_values l)
}.

(** [s.value_counts(sort=True)] *)
Definition value_counts (srt : pandas_sort) (s : Series) : list (cell * nat) :=
  sort_values srt (tally s).

(** An insertion sort, by a test on the counts that sends an entry behind
    another only when its count is not greater, and before it only when its
    count is not smaller, keeps the contract. *)
Ltac insertion_contract ins :=
  let l := fresh "l" in
  let Hcmp := fresh "Hcmp" in
  intros l;
  assert (forall y t, Permutation (ins y t) (y :: t)) as Hperm
    by (intros y t; induction t as [|z t IHt]; cbn -[Nat.ltb Nat.leb];
        [apply Permutation_refl|];
        match goal with
        | |- context [if ?b then _ else _] => destruct b
        end;
        [eapply perm_trans; [apply perm_skip, IHt|apply perm_swap]
        |apply Permutation_refl]);
  assert (forall y t,
            StronglySorted (fun p q => snd q <= snd p) t ->
            StronglySorted (fun p q => snd q <= snd p) (ins y t)) as Hsort
    by (intros y t Ht; induction Ht as [|z t Ht IHt Hz];
        cbn -[Nat.ltb Nat.leb]; [repeat constructor|];
        match goal with
        | |- context [if ?b then _ else _] => destruct b eqn:Hcmp
        end;
        [ constructor; [exact IHt|];
          apply Forall_forall; intros q Hq;
          apply (Permutation_in _ (Hperm y t)) in Hq;
          destruct Hq as [<-|Hq];
          [ first [apply Nat.ltb_lt in Hcmp; lia|apply Nat.leb_le in Hcmp; lia]
          | rewrite Forall_forall in Hz; apply Hz, Hq ]
        | constructor; [constructor; assumption|];
          constructor;
          [ first [apply Nat.ltb_ge in Hcmp; lia|apply Nat.leb_gt in Hcmp; lia]
          | eapply Forall_impl; [|exact Hz]; cbn; intros q Hq;
            first [apply Nat.ltb_ge in Hcmp; lia|apply Nat.leb_gt in Hcmp; lia] ]
        ]);
  induction l as [|x l IH]; cbn [fold_right].

(** The stable sort, which pandas 3 asks for. *)
Definition stable : pandas_sort.
Proof.
  refine {| sort_values := sort_desc |}; unfold sort_desc.
  - insertion_contract insert_desc; [constructor|].
    eapply perm_trans; [apply Hperm|apply perm_skip, IH].
  - insertion_contract insert_desc; [constructor|]. apply Hsort, IH.
Defined.

(** A sort that is not stable. *)
Definition ties_reversed : pandas_sort.
Proof.
  refine {| sort_values := sort_desc_last |}; unfold sort_desc_last.
  - insertion_contract insert_last; [constructor|].
    eapply perm_trans; [apply Hperm|apply perm_skip, IH].
  - insertion_contract insert_last; [constructor|]. apply Hsort, IH.
Defined.

(** [counts.to_frame(name=...)]: the keys label the rows of the one column. *)
Definition to_frame (name : string) (t : list (cell * nat)) : DataFrame :=
  {| index := map fst t;
     data := [(name, map (fun kn => CInt (Z.of_nat (snd kn))) t)] |}.

(* ===================================================================== *)
(** ** The state: the object under construction, the console, the files *)
(* ===================================================================== *)

(** The attributes of a [pycoQC] object; [None] is an attribute that has not
    been set. *)
Record pycoQC : Type := mkSelf {
  verbose : option bool;
  seq_summary_file : option string;
  df : option DataFrame;
  run_type : option string;
  zero_len_reads : option nat;
  runid_counts : option DataFrame;
  total_reads : option nat
}.

(** [fs] gives, for each readable file, the table that
    [pd.read_csv(path, sep="\t")] parses from it; [stdout] is what has been
    printed. *)
Record state : Type := mkState {
  fs : list (string * DataFrame);
  stdout : list string;
  self : pycoQC
}.

(** An object before [__init__] has run. *)
Definition new_object : pycoQC :=
  {| verbose := None; seq_summary_file := None; df := None; run_type := None;
     zero_len_reads := None; runid_counts := None; total_reads := None |}.

(** A statement: it changes the state and either raises or returns. *)
Definition M (A : Type) : Type := state -> state * (exn + A).

Definition ret {A : Type} (a : A) : M A := fun st => (st, inr a).

Definition bind {A B : Type} (m : M A) (k : A -> M B) : M B :=
  fun st =>
    match m st with
    | (st', inr a) => k a st'
    | (st', inl e) => (st', inl e)
    end.

Definition raise {A : Type} (e : exn) : M A := fun st => (st, inl e).

(** A pandas call: it reads its arguments only. *)
Definition lift {A : Type} (r : exn + A) : M A := fun st => (st, r).

Declare Scope stmt_scope.
Delimit Scope stmt_scope with stmt.
Notation "x <- m ;; k" := (bind m (fun x => k))
  (at level 61, m at next level, right associativity) : stmt_scope.
Notation "m ;; k" := (bind m (fun _ => k))
  (at level 61, right associativity) : stmt_scope.
Local Open Scope stmt_scope.

(** [if b: m] *)
Definition when (b : bool) (m : M unit) : M unit := if b then m else ret tt.

Definition update_self (f : pycoQC -> pycoQC) : M unit :=
  fun st => ({| fs := fs st; stdout := stdout st; self := f (self st) |}, inr tt).

Definition setattr_verbose (v : bool) : M unit :=
  update_self (fun o =>
    {| verbose := Some v; seq_summary_file := seq_summary_file o; df := df o;
       run_type := run_type o; zero_len_reads := zero_len_reads o;
       runid_counts := runid_counts o; total_reads := total_reads o |}).

Definition setattr_seq_summary_file (p : string) : M unit :=
  update_self (fun o =>
    {| verbose := verbose o; seq_summary_file := Some p; df := df o;
       run_type := run_type o; zero_len_reads := zero_len_reads o;
       runid_counts := runid_counts o; total_reads := total_reads o |}).

Definition setattr_df (d : DataFrame) : M unit :=
  update_self (fun o =>
    {| verbose := verbose o; seq_summary_file := seq_summary_file o; df := Some d;
       run_type := run_type o; zero_len_reads := zero_len_reads o;
       runid_counts := runid_counts o; total_reads := total_reads o |}).

Definition setattr_run_type (t : string) : M unit :=
  update_self (fun o =>
    {| verbose := verbose o; seq_summary_file := seq_summary_file o; df := df o;
       run_type := Some t; zero_len_reads := zero_len_reads o;
       runid_counts := runid_counts o; total_reads := total_reads o |}).

Definition setattr_zero_len_reads (n : nat) : M unit :=
  update_self (fun o =>
    {| verbose := verbose o; seq_summary_file := seq_summary_file o; df := df o;
       run_type := run_type o; zero_len_reads := Some n;
       runid_counts := runid_counts o; total_reads := total_reads o |}).

Definition setattr_runid_counts (t : DataFrame) : M unit :=
  update_self (fun o =>
    {| verbose := verbose o; seq_summary_file := seq_summary_file o; df := df o;
       run_type := run_type o; zero_len_reads := zero_len_reads o;
       runid_counts := Some t; total_reads := total_reads o |}).

Definition setattr_total_reads (n : nat) : M unit :=
  update_self (fun o =>
    {| verbose := verbose o; seq_summary_file := seq_summary_file o; df := df o;
       run_type := run_type o; zero_len_reads := zero_len_reads o;
       runid_counts := runid_counts o; total_reads := Some n |}).

(** Reading an attribute that is not set raises [AttributeError]. *)
Definition getattr {A : Type} (name : string) (field : pycoQC -> option A) : M A :=
  fun st =>
    match field (self st) with
    | Some a => (st, inr a)
    | None => (st, inl (AttributeError name))
    end.

(** Modelled from the spec: [print] of [pycoQC_fun], which the sources at hand
    do not include.  The spec gives ingestion no effect besides its results,
    so [print] only writes its message to the console ([bold] is a matter of
    style). *)
Definition print (msg : string) : M unit :=
  fun st => ({| fs := fs st; stdout := stdout st ++ [msg]; self := self st |}, inr tt).

Fixpoint lookup_file (path : string) (l : list (string * DataFrame))
  : option DataFrame :=
  match l with
  | [] => None
  | (p, d) :: t => if String.eqb p path then Some d else lookup_file path t
  end.

(** [pd.read_csv(path, sep="\t")] *)
Definition read_csv (path : string) : M DataFrame :=
  fun st =>
    match lookup_file path (fs st) with
    | Some d => (st, inr d)
    | None => (st, inl (FileNotFoundError path))
    end.

(** ["{}".format(n)] for a count. *)
Definition str (n : nat) : string := NilZero.string_of_uint (Nat.to_uint n).

Definition tab : string := String (ascii_of_nat 9) "".

(** The truth value of the argument [runid]: [None] and the empty string are
    false. *)
Definition truthy (runid : option string) : bool :=
  match runid with
  | None => false
  | Some s => negb (String.eqb s "")
  end.

(* ===================================================================== *)
(** ** [pycoQC.__init__] *)
(* ===================================================================== *)

Definition cols_1D : list string :=
  ["run_id"; "channel"; "start_time"; "duration"; "num_events";
   "sequence_length_template"; "mean_qscore_template"].

Definition cols_2D : list string :=
  ["run_id"; "channel"; "start_time"; "sequence_length_2d"; "mean_qscore_2d"].

(** [for colname in cols: assert colname in df.columns]: the column at which
    the assertion fails, if it does. *)
Fixpoint assert_columns (cols : list string) (d : DataFrame) : option string :=
  match cols with
  | [] => None
  | colname :: rest =>
      if contains (columns d) colname then assert_columns rest d
      else Some colname
  end.

(** Lines 66-71: import the summary file in a dataframe. *)
Definition import_data (file : string) (verbose : bool) : M unit :=
  when verbose (print "Importing data") ;;
  setattr_seq_summary_file file ;;
  d <- read_csv file ;;
  setattr_df d ;;
  d <- getattr "df" df ;;
  setattr_df (dropna d) ;;
  d <- getattr "df" df ;;
  when verbose (print (tab ++ str (len d) ++ " reads found in initial file")).

(** Lines 84-99: the handler of the failed 1D check. *)
Definition try_2D : M unit :=
  d <- getattr "df" df ;;
  match assert_columns cols_2D d with
  | Some colname =>
      raise (AssertionError
        ("Column " ++ colname ++ " not found in the provided sequence_summary file"))
  | None =>
      d <- getattr "df" df ;;
      s <- lift (getitem d "sequence_length_2d") ;;
      q <- lift (series_truediv s 450) ;;
      setattr_df (setitem d "duration" q) ;;
      d <- getattr "df" df ;;
      s <- lift (getitem d "sequence_length_2d") ;;
      p <- lift (series_mul s float_1_8) ;;
      setattr_df (setitem d "num_events" p) ;;
      d <- getattr "df" df ;;
      s <- lift (getitem d "sequence_length_2d") ;;
      setattr_df (setitem d "sequence_length_template" s) ;;
      d <- getattr "df" df ;;
      s <- lift (getitem d "mean_qscore_2d") ;;
      setattr_df (setitem d "mean_qscore_template" s) ;;
      setattr_run_type "2D"
  end.

(** Lines 73-101: verify the presence of the columns required. *)
Definition check_fields (verbose : bool) : M unit :=
  when verbose (print "Checking fields in dataframe") ;;
  d <- getattr "df" df ;;
  match assert_columns cols_1D d with
  | None => setattr_run_type "1D"
  | Some colname =>
      print ("Column " ++ colname
             ++ " not found in the provided sequence_summary file, "
             ++ "trying 2D or 1D^2 column formats...") ;;
      try_2D
  end ;;
  t <- getattr "run_type" run_type ;;
  when verbose (print (tab ++ "All valid for run type " ++ t)).

(** Lines 103-109: filter out zero length if required. *)
Definition filter_zero_length (filter_zero_len verbose : bool) : M unit :=
  when filter_zero_len (
    when verbose (print "Filter out zero length reads") ;;
    d <- getattr "df" df ;;
    let l := len d in
    s <- lift (getitem d "sequence_length_template") ;;
    mask <- lift (series_gt s 0) ;;
    setattr_df (loc d mask) ;;
    d <- getattr "df" df ;;
    setattr_zero_len_reads (l - len d) ;;
    n <- getattr "zero_len_reads" zero_len_reads ;;
    when verbose (print (tab ++ str n ++ " reads discarded"))).

(** Lines 111-116: select runid if required. *)
Definition select_runid (runid : option string) (verbose : bool) : M unit :=
  match runid with
  | Some r =>
      when (truthy runid) (
        when verbose (print ("Selecting reads with Run_ID " ++ r)) ;;
        d <- getattr "df" df ;;
        let l := len d in
        s <- lift (getitem d "run_id") ;;
        setattr_df (loc d (series_eq s r)) ;;
        d <- getattr "df" df ;;
        when verbose (print (tab ++ str (l - len d) ++ " reads discarded")))
  | None => ret tt
  end.

(** Lines 118-121: reads per runid. *)
Definition count_runid (srt : pandas_sort) (verbose : bool) : M unit :=
  when verbose (print "Counting reads per runid") ;;
  d <- getattr "df" df ;;
  s <- lift (getitem d "run_id") ;;
  setattr_runid_counts (to_frame "Counts" (value_counts srt s)) ;;
  t <- getattr "runid_counts" runid_counts ;;
  when verbose (print (tab ++ "Found " ++ str (len t) ++ " runid")).

(** Lines 123-128: final data cleanup. *)
Definition final_cleanup (verbose : bool) : M unit :=
  when verbose (print "Final data cleanup") ;;
  d <- getattr "df" df ;;
  setattr_df (reset_index d) ;;
  d <- getattr "df" df ;;
  d' <- lift (set_index d "read_id") ;;
  setattr_df d' ;;
  d <- getattr "df" df ;;
  setattr_total_reads (len d) ;;
  n <- getattr "total_reads" total_reads ;;
  when verbose (print (tab ++ str n ++ " Total valid reads found")).

(** Lines 64-101: everything before the filters. *)
Definition load (file : string) (verbose : bool) : M unit :=
  setattr_verbose verbose ;;
  import_data file verbose ;;
  check_fields verbose.

(** [pycoQC.__init__(self, seq_summary_file, runid, filter_zero_len, verbose)],
    with the sort [srt] of the pandas in use. *)
Definition __init__ (srt : pandas_sort) (file : string) (runid : option string)
    (filter_zero_len verbose : bool) : M unit :=
  load file verbose ;;
  filter_zero_length filter_zero_len verbose ;;
  select_runid runid verbose ;;
  count_runid srt verbose ;;
  final_cleanup verbose.

(** [pycoQC(seq_summary_file, runid, filter_zero_len, verbose)]: [__init__] on
    a new object; the caller gets the object, or the exception. *)
Definition construct (srt : pandas_sort) (file : string)
    (runid : option string) (filter_zero_len verbose : bool)
    (fs0 : list (string * DataFrame)) (out : list string)
  : list (string * DataFrame) * list string * (exn + pycoQC) :=
  match __init__ srt file runid filter_zero_len verbose
             {| fs := fs0; stdout := out; self := new_object |} with
  | (st, inr _) => (fs st, stdout st, inr (self st))
  | (st, inl e) => (fs st, stdout st, inl e)
  end.

(* ===================================================================== *)
(** ** The table after each block of the constructor *)
(* ===================================================================== *)

(** Lines 90-97, on the table alone: the two estimated columns and the two
    renamed ones. *)
Definition estimate_2D (d : DataFrame) : exn + DataFrame :=
  match getitem d "sequence_length_2d" with
  | inl e => inl e
  | inr s =>
      match series_truediv s 450 with
      | inl e => inl e
      | inr q =>
          match series_mul s float_1_8 with
          | inl e => inl e
          | inr p =>
              match getitem d "mean_qscore_2d" with
              | inl e => inl e
              | inr m =>
                  inr (setitem (setitem (setitem (setitem d
                         "duration" q) "num_events" p)
                         "sequence_length_template" s)
                         "mean_qscore_template" m)
              end
          end
      end
  end.

(** Lines 75-99, on the table alone: the table and the run type that the
    check of the columns leaves, or the exception it raises. *)
Definition after_check (d : DataFrame) : exn + (DataFrame * string) :=
  match assert_columns cols_1D d with
  | None => inr (d, "1D")
  | Some _ =>
      match assert_columns cols_2D d with
      | Some colname =>
          inl (AssertionError
            ("Column " ++ colname ++ " not found in the provided sequence_summary file"))
      | None =>
          match estimate_2D d with
          | inl e => inl e
          | inr d' => inr (d', "2D")
          end
      end
  end.

(** Line 107, on the table alone. *)
Definition after_filter_zero (filter_zero_len : bool) (d : DataFrame)
  : exn + DataFrame :=
  if filter_zero_len then
    match getitem d "sequence_length_template" with
    | inl e => inl e
    | inr s =>
        match series_gt s 0 with
        | inl e => inl e
        | inr mask => inr (loc d mask)
        end
    end
  else inr d.

(** Line 115, on the table alone. *)
Definition after_select (runid : option string) (d : DataFrame)
  : exn + DataFrame :=
  match runid with
  | Some r =>
      if truthy runid then
        match getitem d "run_id" with
        | inl e => inl e
        | inr s => inr (loc d (series_eq s r))
        end
      else inr d
  | None => inr d
  end.

(** The number of [false] flags of a mask: the rows that it removes. *)
Definition removed (mask : list bool) : nat :=
  length (filter negb mask).

(** Two masks in a row as one mask on the first table. *)
Fixpoint mask_then (m1 m2 : list bool) : list bool :=
  match m1 with
  | [] => []
  | true :: m1' =>
      match m2 with
      | b :: m2' => b :: mask_then m1' m2'
      | [] => false :: mask_then m1' []
      end
  | false :: m1' => false :: mask_then m1' m2
  end.

(** The message of the failed assertion of line 85 names the column [c]. *)
Definition names (msg c : string) : Prop :=
  msg = "Column " ++ c ++ " not found in the provided sequence_summary file".

(** The position of the first cell of [s] equal to [k]; the length of [s]
    when there is none. *)
Fixpoint first_index (k : cell) (s : Series) : nat :=
  match s with
  | [] => 0
  | x :: s' => if cell_eqb k x then 0 else S (first_index k s')
  end.

(** [c] is the first column among [cols] that the table lacks. *)
Definition first_missing (cols : list string) (d : DataFrame) (c : string)
  : Prop :=
  exists before after,
    cols = (before ++ c :: after)%list /\
    incl before (columns d) /\ ~ In c (columns d).

(** The number of cells of [s] equal to [k]. *)
Definition occurrences (k : cell) (s : Series) : nat :=
  length (filter (cell_eqb k) s).

(** [t] counts the values of [s]: each entry holds the number of cells
    equal to its key, at least one; every cell that is not missing has its
    entry; the keys come in the order of their first occurrence in [s]. *)
Definition counts_of (s : Series) (t : list (cell * nat)) : Prop :=
  (forall k n, In (k, n) t -> n = occurrences k s /\ 0 < n) /\
  (forall c, In c s -> isna c = false ->
     exists k n, In (k, n) t /\ cell_eqb k c = true) /\
  ForallOrdPairs
    (fun p q => first_index (fst p) s < first_index (fst q) s) t.

(** The order of the table of counts of [s]: by descending count, and by
    first occurrence in [s] among equal counts. *)
Definition counts_order (s : Series) (p q : cell * nat) : Prop :=
  snd q < snd p \/
  (snd q = snd p /\ first_index (fst p) s < first_index (fst q) s).

(** A cell that holds a number. *)
Definition is_number (c : cell) : Prop :=
  match c with
  | CStr _ => False
  | _ => True
  end.


(** A statement that shows nothing on the console, whether it returns or
    raises. *)
Definition silent {A : Type} (m : M A) : Prop :=
  forall st, stdout (fst (m st)) = stdout st.

(* ===================================================================== *)
(** ** Sample tables *)
(* ===================================================================== *)

Definition num (z : Z) : cell := CFloat (float_of_int z).

(** Three reads of two runs in the 1D layout; read B has length zero. *)
Definition summary_1D : DataFrame :=
  {| index := [CInt 0; CInt 1; CInt 2];
     data := [("read_id", [CStr "A"; CStr "B"; CStr "C"]);
              ("run_id", [CStr "r1"; CStr "r1"; CStr "r2"]);
              ("channel", [CInt 5; CInt 5; CInt 10]);
              ("start_time", [num 0; num 1; num 2]);
              ("duration", [num 1; num 1; num 1]);
              ("num_events", [CInt 180; CInt 0; CInt 360]);
              ("sequence_length_template", [CInt 100; CInt 0; CInt 200]);
              ("mean_qscore_template", [num 9; num 8; num 10])] |}.

(** Two reads in the 2D layout; the second has no start time. *)
Definition summary_2D : DataFrame :=
  {| index := [CInt 0; CInt 1];
     data := [("read_id", [CStr "A"; CStr "B"]);
              ("run_id", [CStr "r1"; CStr "r1"]);
              ("channel", [CInt 5; CInt 5]);
              ("start_time", [num 0; CFloat S754_nan]);
              ("sequence_length_2d", [CInt 900; CInt 0]);
              ("mean_qscore_2d", [num 9; num 8])] |}.

(** Two reads that carry the same read id. *)
Definition summary_dup : DataFrame :=
  {| index := [CInt 0; CInt 1];
     data := [("read_id", [CStr "A"; CStr "A"]);
              ("run_id", [CStr "r1"; CStr "r1"]);
              ("channel", [CInt 5; CInt 6]);
              ("start_time", [num 0; num 1]);
              ("duration", [num 1; num 1]);
              ("num_events", [CInt 180; CInt 90]);
              ("sequence_length_template", [CInt 100; CInt 50]);
              ("mean_qscore_template", [num 9; num 8])] |}.

(** A table of neither layout: it has the three columns that the layouts
    share and nothing else. *)
Definition summary_other : DataFrame :=
  {| index := [CInt 0];
     data := [("read_id", [CStr "A"]);
              ("run_id", [CStr "r1"]);
              ("channel", [CInt 5]);
              ("start_time", [num 0])] |}.

(** Three reads, one of length zero from another run than the one asked
    for, one of positive length from that other run. *)
Definition summary_mixed : DataFrame :=
  {| index := [CInt 0; CInt 1; CInt 2];
     data := [("read_id", [CStr "A"; CStr "B"; CStr "C"]);
              ("run_id", [CStr "r1"; CStr "r2"; CStr "r2"]);
              ("channel", [CInt 5; CInt 5; CInt 10]);
              ("start_time", [num 0; num 1; num 2]);
              ("duration", [num 1; num 1; num 1]);
              ("num_events", [CInt 180; CInt 0; CInt 360]);
              ("sequence_length_template", [CInt 100; CInt 0; CInt 200]);
              ("mean_qscore_template", [num 9; num 8; num 10])] |}.

(** Two reads in the 2D layout; the length of the second is not a number,
    and the column is parsed as text. *)
Definition summary_2D_str : DataFrame :=
  {| index := [CInt 0; CInt 1];
     data := [("read_id", [CStr "A"; CStr "B"]);
              ("run_id", [CStr "r1"; CStr "r1"]);
              ("channel", [CInt 5; CInt 5]);
              ("start_time", [num 0; num 1]);
              ("sequence_length_2d", [CStr "900"; CStr "long"]);
              ("mean_qscore_2d", [num 9; num 8])] |}.

(** Four reads of three runs in the 1D layout: runs "r1" and "r2" have one
    read each, run "r3" has two. *)
Definition summary_runs : DataFrame :=
  {| index := [CInt 0; CInt 1; CInt 2; CInt 3];
     data := [("read_id", [CStr "A"; CStr "B"; CStr "C"; CStr "D"]);
              ("run_id", [CStr "r1"; CStr "r2"; CStr "r3"; CStr "r3"]);
              ("channel", [CInt 5; CInt 5; CInt 10; CInt 11]);
              ("start_time", [num 0; num 1; num 2; num 3]);
              ("duration", [num 1; num 1; num 1; num 1]);
              ("num_events", [CInt 180; CInt 90; CInt 360; CInt 18]);
              ("sequence_length_template",
               [CInt 100; CInt 50; CInt 200; CInt 10]);
              ("mean_qscore_template", [num 9; num 8; num 10; num 7])] |}.

(** One read of run "r1", of length zero, and one read of run "r2". *)
Definition summary_zero_r1 : DataFrame :=
  {| index := [CInt 0; CInt 1];
     data := [("read_id", [CStr "A"; CStr "B"]);
              ("run_id", [CStr "r1"; CStr "r2"]);
              ("channel", [CInt 5; CInt 6]);
              ("start_time", [num 0; num 1]);
              ("duration", [num 1; num 1]);
              ("num_events", [CInt 0; CInt 90]);
              ("sequence_length_template", [CInt 0; CInt 50]);
              ("mean_qscore_template", [num 9; num 8])] |}.

(** A table of the 1D layout but for [run_id], a column that the two layouts
    share. *)
Definition summary_no_run_id : DataFrame :=
  {| index := index summary_1D; data := remove_col "run_id" (data summary_1D) |}.

Definition disk : list (string * DataFrame) :=
  [("summary_1D.txt", summary_1D); ("summary_2D.txt", summary_2D);
   ("summary_dup.txt", summary_dup); ("summary_other.txt", summary_other);
   ("summary_mixed.txt", summary_mixed)].

(** A new object, a silent console and the sample files. *)
Definition start : state := {| fs := disk; stdout := []; self := new_object |}.

(** A new object, a silent console and one file, "table.txt", that holds
    the table [d]. *)
Definition start_with (d : DataFrame) : state :=
  {| fs := [("table.txt", d)]; stdout := []; self := new_object |}.

(** The table [summary_1D] without its read ids. *)
Definition summary_no_id : DataFrame :=
  {| index := index summary_1D; data := remove_col "read_id" (data summary_1D) |}.

(* ===================================================================== *)
(** ** The reads per interval: [reads_len_bins] and [reads_qual_bins] *)
(* ===================================================================== *)

(** What a method raises: an exception of the kinds that the constructor
    raises, a [ValueError] of pandas or numpy (its message is not modelled),
    or the [UnboundLocalError] of a local variable that is read before it is
    assigned. *)
Inductive error : Type :=
| Raised (e : exn)
| ValueError
| UnboundLocalError (name : string).

(** [self.<name>] in a method: the methods read the object and leave it, the
    console and the files as they are. *)
Definition attribute {A : Type} (name : string) (field : pycoQC -> option A)
    (o : pycoQC) : error + A :=
  match field o with
  | Some a => inr a
  | None => inl (Raised (AttributeError name))
  end.

(** [d[c]] in a method. *)
Definition column (d : DataFrame) (c : string) : error + Series :=
  match getitem d c with
  | inl e => inl (Raised e)
  | inr s => inr s
  end.

(** [b < x] for an edge [b] of the bins, a Python integer, and a cell [x]:
    between integers as such, with a float in binary64, to which numpy
    brings the edges. *)
Definition edge_lt (b : Z) (x : cell) : exn + bool :=
  match x with
  | CInt z => inr (Z.ltb b z)
  | CFloat f => inr (SFltb (float_of_int b) f)
  | CStr _ =>
      inl (TypeError "'<' not supported between instances of 'int' and 'str'")
  end.

(** [(np.diff(bins) < 0).any()] is false. *)
Fixpoint monotonic (bins : list Z) : bool :=
  match bins with
  | [] => true
  | a :: t =>
      match t with
      | [] => true
      | b :: _ => Z.leb a b
      end && monotonic t
  end.

(** [len(algos.unique(bins)) < len(bins)] is false. *)
Definition unique_edges (bins : list Z) : bool :=
  length (nodup Z.eq_dec bins) =? length bins.

(** The scan of [bins.searchsorted(x, side='left')] for a value that is not
    missing: the number of edges before the first one that is not below [x].
    On edges in ascending order that is where the binary search of numpy
    ends. *)
Fixpoint insertion_point (bins : list Z) (x : cell) : exn + nat :=
  match bins with
  | [] => inr 0
  | b :: t =>
      match edge_lt b x with
      | inl e => inl e
      | inr false => inr 0
      | inr true =>
          match insertion_point t x with
          | inl e => inl e
          | inr i => inr (S i)
          end
      end
  end.

(** [bins.searchsorted(x, side='left')] for one value: numpy orders NaN
    after every number. *)
Definition searchsorted (bins : list Z) (x : cell) : exn + nat :=
  if isna x then inr (length bins) else insertion_point bins x.

(** The code of the category of [x]: [ids - 1], and no category where
    [isna(x) | (ids == len(bins)) | (ids == 0)]. *)
Definition bin_code (bins : list Z) (x : cell) : exn + option nat :=
  match searchsorted bins x with
  | inl e => inl e
  | inr id =>
      inr (if isna x || (id =? length bins) || (id =? 0) then None
           else Some (id - 1))
  end.

(** The categories of [pd.cut(x, bins)]: the intervals [(a, b]] between
    consecutive edges ([IntervalIndex.from_breaks]). *)
Fixpoint breaks (bins : list Z) : list (Z * Z) :=
  match bins with
  | [] => []
  | a :: t =>
      match t with
      | [] => []
      | b :: _ => (a, b) :: breaks t
      end
  end.

(** [pd.cut(s, bins)]: the codes of the categories of the values of [s].
    pandas refuses edges that decrease, and edges that repeat unless there
    are two of them. *)
Definition cut (s : Series) (bins : list Z) : error + list (option nat) :=
  if negb (monotonic bins) then inl ValueError
  else if negb (unique_edges bins) && negb (length bins =? 2) then
    inl ValueError
  else
    match mapM (bin_code bins) s with
    | inl e => inl (Raised e)
    | inr codes => inr codes
    end.

Definition code_is (i : nat) (c : option nat) : bool :=
  match c with
  | Some j => j =? i
  | None => false
  end.

(** [s.groupby(codes).count()] at the category [i]: the values of the group
    that are not missing. *)
Definition group_count (s : Series) (codes : list (option nat)) (i : nat)
  : nat :=
  length (filter (fun xc => notna (fst xc) && code_is i (snd xc))
                 (combine s codes)).

(** The frame that the two methods return: the name of its index, its index
    (an interval [(a, b]] per row) and its column [Count]. *)
Record BinsFrame : Type := mkBinsFrame {
  index_name : string;
  ranges : list (Z * Z);
  Count : list nat
}.

(** The rows of [s.groupby(codes).count()]: a row per category, in the
    order of the categories.  The code passes no [observed] to [groupby]:
    with the default of pandas before version 3 ([observed=False]) every
    category has its row, with the default since ([observed=True]) only the
    categories that a value falls in.  [observed] is that default. *)
Definition group_rows (observed : bool) (s : Series) (bins : list Z)
    (codes : list (option nat)) : list ((Z * Z) * nat) :=
  let rows :=
    combine (breaks bins)
            (map (group_count s codes) (seq 0 (length (breaks bins)))) in
  if observed then filter (fun rc => 0 <? snd rc) rows else rows.

(** [s.groupby(pd.cut(s, bins)).count().to_frame(name="Count")] with the
    name of the index set. *)
Definition count_per_range (observed : bool) (name : string) (s : Series)
    (bins : list Z) : error + BinsFrame :=
  match cut s bins with
  | inl e => inl e
  | inr codes =>
      inr {| index_name := name;
             ranges := map fst (group_rows observed s bins codes);
             Count := map snd (group_rows observed s bins codes) |}
  end.

(** Lines 174-184: [reads_len_bins(self, bins)], with the default [observed]
    of the pandas in use. *)
Definition reads_len_bins (observed : bool) (o : pycoQC) (bins : list Z)
  : error + BinsFrame :=
  match attribute "df" df o with
  | inl e => inl e
  | inr d =>
      match column d "sequence_length_template" with
      | inl e => inl e
      | inr s => count_per_range observed "Sequence lenght ranges" s bins
      end
  end.

(** Lines 186-196: [reads_qual_bins(self, bins)], with the default
    [observed] of the pandas in use. *)
Definition reads_qual_bins (observed : bool) (o : pycoQC) (bins : list Z)
  : error + BinsFrame :=
  match attribute "df" df o with
  | inl e => inl e
  | inr d =>
      match column d "mean_qscore_template" with
      | inl e => inl e
      | inr s => count_per_range observed "Sequence quality ranges" s bins
      end
  end.

(** The default of [bins] in [reads_len_bins]. *)
Definition len_bins : list Z :=
  [-1; 0; 25; 50; 100; 500; 1000; 5000; 10000; 100000; 10000000]%Z.

(** The default of [bins] in [reads_qual_bins]. *)
Definition qual_bins : list Z :=
  [-1; 0; 2; 4; 6; 8; 10; 12; 14; 16; 18; 20; 40]%Z.

(** [a < x <= b]: [x] is in the interval [(a, b]]. *)
Definition in_range (a b : Z) (x : cell) : bool :=
  match edge_lt a x, edge_lt b x with
  | inr true, inr false => notna x
  | _, _ => false
  end.

(** The rows by the intervals themselves: an interval [(a, b]] between
    consecutive edges with the number of values of [s] in it; with
    [observed], only the intervals that hold a value. *)
Definition range_rows (observed : bool) (s : Series) (bins : list Z)
  : list ((Z * Z) * nat) :=
  let rows :=
    map (fun r => (r, length (filter (in_range (fst r) (snd r)) s)))
        (breaks bins) in
  if observed then filter (fun rc => 0 <? snd rc) rows else rows.

(** The edge [a] is below the edge [b], as integers and in binary64. *)
Definition edge_below (a b : Z) : Prop :=
  (a < b)%Z /\ SFltb (float_of_int a) (float_of_int b) = true.

(** Edges in strictly ascending order. *)
Definition ascending (bins : list Z) : Prop := Sorted edge_below bins.

(** An object whose table is [d]. *)
Definition object_of (d : DataFrame) : pycoQC :=
  {| verbose := Some false; seq_summary_file := None; df := Some d;
     run_type := None; zero_len_reads := None; runid_counts := None;
     total_reads := None |}.

(* ===================================================================== *)
(** ** The reads per channel: [channels_activity] *)
(* ===================================================================== *)

(** A series with its labels, here the channels: a label and a value per
    row. *)
Definition Labelled : Type := list (cell * cell).

(** [chan.value_counts(sort=False)]: a row per channel that has a read, with
    the number of its reads. *)
Definition counts_per_channel (chan : Series) : Labelled :=
  map (fun kn => (fst kn, CInt (Z.of_nat (snd kn)))) (tally chan).

(** The sum of two [int64] wraps around. *)
Definition wrap64 (z : Z) : Z := ((z + 2 ^ 63) mod 2 ^ 64 - 2 ^ 63)%Z.

Definition is_float (c : cell) : bool :=
  match c with
  | CFloat _ => true
  | _ => false
  end.

Definition is_str (c : cell) : bool :=
  match c with
  | CStr _ => true
  | _ => false
  end.

Definition to_float (c : cell) : float :=
  match c with
  | CInt z => float_of_int z
  | CFloat f => f
  | CStr _ => S754_nan
  end.

(** [np.sum] over the values of one group, in the order of the rows: in
    [int64] for a column of integers, in binary64 for a column of floats,
    whose missing values are skipped.  The floats are added here from left
    to right; pandas adds them with a compensated sum, whose last bits can
    differ (on 1e16, 1, 1 for one), so that the statements on the sums are
    made on columns of integers, where the sum is exact up to the
    wrap-around. *)
Definition np_sum (as_float : bool) (g : Series) : cell :=
  if as_float then
    CFloat (fold_left
              (fun acc x =>
                 if isna x then acc else SFadd prec emax acc (to_float x))
              g (S754_zero false))
  else
    CInt (fold_left
            (fun acc x =>
               match x with
               | CInt z => wrap64 (acc + z)
               | _ => acc
               end)
            g 0%Z).

(** [d.groupby("channel").aggregate(np.sum)[c]]: a row per channel that has
    a read, with the sum of the column [c] over its reads.  The sum leaves
    out the columns that are not numbers, which then are not found in its
    result; what pandas makes of such a column, and of a table without rows,
    has changed with its versions, and the statements on the sums are made
    on columns of integers.  [groupby] sorts the channels; the order is not
    modelled, since all that [channels_activity] does with the rows is to
    sort them again. *)
Definition sums_per_channel (d : DataFrame) (c : string) : error + Labelled :=
  match column d "channel" with
  | inl e => inl e
  | inr chan =>
      match lookup_col c (data d) with
      | None => inl (Raised (KeyError c))
      | Some col =>
          if existsb is_str col then inl (Raised (KeyError c))
          else
            inr (map (fun k =>
                        (k, np_sum (existsb is_float col)
                                   (select (map (cell_eqb k) chan) col)))
                     (map fst (tally chan)))
      end
  end.

(** [range(a, b)] *)
Definition range (a b : Z) : list Z :=
  map (fun k => (a + Z.of_nat k)%Z) (seq 0 (Z.to_nat (b - a))).

(** [i in s.index] *)
Definition has_label (s : Labelled) (i : Z) : bool :=
  existsb (fun kv => cell_eq_int (fst kv) i) s.

(** The label that [s.loc[i] = 0] adds: a float in an index of floats. *)
Definition new_label (s : Labelled) (i : Z) : cell :=
  match s with
  | [] => CInt i
  | _ :: _ =>
      if forallb (fun kv => is_float (fst kv)) s then CFloat (float_of_int i)
      else CInt i
  end.

(** The value that [s.loc[i] = 0] adds: a float among floats. *)
Definition zero_like (s : Labelled) : cell :=
  if existsb (fun kv => is_float (snd kv)) s then CFloat (float_of_int 0)
  else CInt 0.

(** Lines 241-244: fill the missing values. *)
Definition fill_missing (s : Labelled) : Labelled :=
  fold_left
    (fun s i =>
       if has_label s i then s else (s ++ [(new_label s i, zero_like s)])%list)
    (range 1 512) s.

(** [a < b] between two labels. *)
Definition label_lt (a b : cell) : exn + bool :=
  match a, b with
  | CInt x, CInt y => inr (Z.ltb x y)
  | CFloat x, CFloat y => inr (SFltb x y)
  | CInt x, CFloat y => inr (SFltb (float_of_int x) y)
  | CFloat x, CInt y => inr (SFltb x (float_of_int y))
  | CStr x, CStr y => inr (String.ltb x y)
  | _, _ =>
      inl (TypeError "'<' not supported between instances of 'int' and 'str'")
  end.

(** Insertion of a row after the rows of smaller label. *)
Fixpoint insert_label (x : cell * cell) (l : Labelled) : exn + Labelled :=
  match l with
  | [] => inr [x]
  | y :: l' =>
      match label_lt (fst y) (fst x) with
      | inl e => inl e
      | inr false => inr (x :: y :: l')
      | inr true =>
          match insert_label x l' with
          | inl e => inl e
          | inr r => inr (y :: r)
          end
      end
  end.

(** [s.sort_index(inplace=True)]: the rows by ascending label.  Labels that
    cannot be compared, a string and a number, make the sort fail. *)
Fixpoint sort_index (s : Labelled) : exn + Labelled :=
  match s with
  | [] => inr []
  | x :: t =>
      match sort_index t with
      | inl e => inl e
      | inr r => insert_label x r
      end
  end.

(** [v.reshape(rows, cols)]: numpy refuses an array of another size. *)
Definition reshape (rows cols : nat) (v : Series) : error + list (list cell) :=
  if length v =? rows * cols then
    inr (map (fun r => firstn cols (skipn (r * cols) v)) (seq 0 rows))
  else inl ValueError.

(** What [channels_activity] draws: the array that it hands to
    [sns.heatmap] and the title that it sets.  The drawing itself is not
    modelled. *)
Record Heatmap : Type := mkHeatmap {
  title : string;
  grid : list (list cell)
}.

(** The local variables [s] and [title], which are assigned together. *)
Definition Locals : Type := option (Labelled * string).

(** [if level == name: s = rhs; title = t] *)
Definition assign_if (level name : string) (rhs : error + Labelled)
    (t : string) (locals : Locals) : error + Locals :=
  if String.eqb level name then
    match rhs with
    | inl e => inl e
    | inr s => inr (Some (s, t))
    end
  else inr locals.

(** [self.df['channel'].value_counts(sort=False)] *)
Definition reads_per_channel (o : pycoQC) : error + Labelled :=
  match attribute "df" df o with
  | inl e => inl e
  | inr d =>
      match column d "channel" with
      | inl e => inl e
      | inr chan => inr (counts_per_channel chan)
      end
  end.

(** [self.df.groupby("channel").aggregate(np.sum)[c]] *)
Definition sum_per_channel (o : pycoQC) (c : string) : error + Labelled :=
  match attribute "df" df o with
  | inl e => inl e
  | inr d => sums_per_channel d c
  end.

(** Lines 198-256: [channels_activity(self, level)], up to the drawing. *)
Definition channels_activity (o : pycoQC) (level : string)
  : error + Heatmap :=
  match assign_if level "reads" (reads_per_channel o)
                  "Reads per channels" None with
  | inl e => inl e
  | inr l1 =>
  match assign_if level "bases"
                  (sum_per_channel o "sequence_length_template")
                  "Bases per channels" l1 with
  | inl e => inl e
  | inr l2 =>
  match assign_if level "events" (sum_per_channel o "num_events")
                  "Events per channels" l2 with
  | inl e => inl e
  | inr None => inl (UnboundLocalError "s")
  | inr (Some (s, t)) =>
      match sort_index (fill_missing s) with
      | inl e => inl (Raised e)
      | inr sorted =>
          match reshape 16 32 (map snd sorted) with
          | inl e => inl e
          | inr a => inr {| title := t; grid := a |}
          end
      end
  end end end.

(** A cell that holds an integer. *)
Definition is_int (c : cell) : Prop :=
  match c with
  | CInt _ => True
  | _ => False
  end.

(** The integer that a cell holds. *)
Definition int_value (c : cell) : Z :=
  match c with
  | CInt z => z
  | _ => 0%Z
  end.

(** The sum of the integers of a series. *)
Definition total (g : Series) : Z := fold_right Z.add 0%Z (map int_value g).

(** The channel [z] is not one of [range(1, 512)]. *)
Definition beyond (z : Z) : Prop := (z < 1 \/ 511 < z)%Z.

(** A table of [n] reads of the 1D layout, one per channel from 1 to [n]. *)
Definition one_read_each (n : nat) : DataFrame :=
  {| index := map (fun k => CInt (Z.of_nat k)) (seq 1 n);
     data :=
       [("run_id", repeat (CStr "r1") n);
        ("channel", map (fun k => CInt (Z.of_nat k)) (seq 1 n));
        ("start_time", repeat (CInt 0) n);
        ("duration", repeat (CInt 1) n);
        ("num_events", repeat (CInt 18) n);
        ("sequence_length_template", repeat (CInt 10) n);
        ("mean_qscore_template", repeat (CFloat (float_of_int 9)) n)] |}.

(* ===================================================================== *)
(** ** Running the constructor *)
(* ===================================================================== *)

Local Open Scope list_scope.

(** *** Columns *)

Lemma lookup_col_assign c c' s l :
  lookup_col c' (assign_col c s l) =
  if String.eqb c c' then Some s else lookup_col c' l.
Proof.
  induction l as [|[c1 s1] t IH]; cbn [assign_col lookup_col].
  - reflexivity.
  - destruct (String.eqb_spec c1 c) as [->|Hc1]; cbn [lookup_col].
    + destruct (String.eqb c c'); reflexivity.
    + destruct (String.eqb_spec c1 c') as [->|Hc1'].
      * destruct (String.eqb_spec c c') as [->|_]; [contradiction|reflexivity].
      * exact IH.
Qed.

Lemma getitem_setitem d c s c' :
  getitem (setitem d c s) c' = if String.eqb c c' then inr s else getitem d c'.
Proof.
  unfold getitem, setitem; cbn [data]. rewrite lookup_col_assign.
  destruct (String.eqb c c'); reflexivity.
Qed.

(** Symbolic execution of a block: unfold the statements, then follow every
    test on the way. *)
Ltac unfold_stmt :=
  unfold import_data, check_fields, try_2D, filter_zero_length,
    select_runid, count_runid, final_cleanup, setattr_verbose,
    setattr_seq_summary_file, setattr_df, setattr_run_type,
    setattr_zero_len_reads, setattr_runid_counts, setattr_total_reads,
    when, bind, ret, lift, raise, print, getattr, update_self, read_csv in *;
  cbn [fs stdout self verbose seq_summary_file df run_type zero_len_reads
       runid_counts total_reads fst snd] in *.

Ltac tidy :=
  rewrite ?getitem_setitem in *;
  cbn [fs stdout self verbose seq_summary_file df run_type zero_len_reads
       runid_counts total_reads fst snd String.eqb Ascii.eqb Bool.eqb] in *.

Ltac innermost_match x :=
  lazymatch x with
  | context [match ?y with _ => _ end] => innermost_match y
  | _ => destruct x eqn:?
  end.

Ltac follow_hyp H :=
  repeat (tidy;
          lazymatch type of H with
          | context [match ?x with _ => _ end] => innermost_match x
          end;
          try discriminate H);
  tidy.

Ltac follow_goal :=
  repeat (tidy;
          lazymatch goal with
          | |- context [match ?x with _ => _ end] => innermost_match x
          end);
  tidy.

Ltac splits := repeat match goal with |- _ /\ _ => split end.

Ltac run_known :=
  repeat (tidy;
          match goal with
          | H : ?x = _ |- context [match ?x with _ => _ end] => rewrite H
          end);
  tidy.

Ltac close_run :=
  repeat match goal with
         | H : (_, _) = (_, _) |- _ => injection H as <-
         | H : inr _ = inr _ |- _ => injection H as ->
         | H : Some _ = Some _ |- _ => injection H as ->
         end;
  cbn [fs stdout self verbose seq_summary_file df run_type zero_len_reads
       runid_counts total_reads fst snd];
  repeat match goal with |- exists _, _ => eexists end;
  repeat match goal with |- _ /\ _ => split end;
  try eassumption; try reflexivity;
  repeat match goal with
         | H : ?x = _ |- context [?x] => rewrite H
         end;
  try reflexivity.


Lemma bind_returns {A B : Type} (m : M A) (k : A -> M B) st st' b :
  bind m k st = (st', inr b) ->
  exists a st1, m st = (st1, inr a) /\ k a st1 = (st', inr b).
Proof.
  unfold bind. destruct (m st) as [st1 [e|a]]; [discriminate|].
  intros H. exists a, st1. split; [reflexivity|exact H].
Qed.

Lemma load_returns file v st st1 :
  load file v st = (st1, inr tt) ->
  exists raw d1 rt,
    lookup_file file (fs st) = Some raw /\
    after_check (dropna raw) = inr (d1, rt) /\
    df (self st1) = Some d1 /\
    run_type (self st1) = Some rt /\
    zero_len_reads (self st1) = zero_len_reads (self st) /\
    fs st1 = fs st.
Proof.
  intros H. unfold load in H. unfold after_check, estimate_2D.
  destruct v; unfold_stmt; follow_hyp H.
  all: close_run.
Qed.

Lemma filter_zero_length_returns filter_zero_len v st st' d :
  filter_zero_length filter_zero_len v st = (st', inr tt) ->
  df (self st) = Some d ->
  exists d',
    after_filter_zero filter_zero_len d = inr d' /\
    df (self st') = Some d' /\
    zero_len_reads (self st') =
      (if filter_zero_len then Some (len d - len d')
       else zero_len_reads (self st)) /\
    run_type (self st') = run_type (self st) /\
    fs st' = fs st.
Proof.
  intros H Hd. unfold after_filter_zero.
  destruct filter_zero_len, v; unfold_stmt; try rewrite Hd in H; follow_hyp H.
  all: close_run.
Qed.

Lemma select_runid_returns runid v st st' d :
  select_runid runid v st = (st', inr tt) ->
  df (self st) = Some d ->
  exists d',
    after_select runid d = inr d' /\
    df (self st') = Some d' /\
    zero_len_reads (self st') = zero_len_reads (self st) /\
    run_type (self st') = run_type (self st) /\
    fs st' = fs st.
Proof.
  intros H Hd. unfold after_select.
  destruct runid as [r|], v; unfold select_runid in H;
    try destruct (truthy (Some r));
    unfold_stmt; try rewrite Hd in H; follow_hyp H.
  all: close_run.
Qed.

Lemma count_runid_returns {srt : pandas_sort} v st st' d :
  count_runid srt v st = (st', inr tt) ->
  df (self st) = Some d ->
  exists s,
    getitem d "run_id" = inr s /\
    runid_counts (self st') = Some (to_frame "Counts" (value_counts srt s)) /\
    df (self st') = Some d /\
    zero_len_reads (self st') = zero_len_reads (self st) /\
    run_type (self st') = run_type (self st) /\
    fs st' = fs st.
Proof.
  intros H Hd.
  destruct v; unfold_stmt; try rewrite Hd in H; follow_hyp H.
  all: close_run.
Qed.

Lemma final_cleanup_returns v st st' d :
  final_cleanup v st = (st', inr tt) ->
  df (self st) = Some d ->
  exists ix,
    lookup_col "read_id" (data d) = Some ix /\
    df (self st') =
      Some {| index := ix; data := remove_col "read_id" (data d) |} /\
    total_reads (self st') = Some (length ix) /\
    runid_counts (self st') = runid_counts (self st) /\
    zero_len_reads (self st') = zero_len_reads (self st) /\
    run_type (self st') = run_type (self st) /\
    fs st' = fs st.
Proof.
  intros H Hd.
  destruct v; unfold_stmt; try rewrite Hd in H;
    unfold set_index, reset_index in H; cbn [data] in H; follow_hyp H.
  all: close_run.
Qed.

(** What a run of the constructor that returns has done. *)
Lemma init_returns {srt : pandas_sort} file runid filter_zero_len v st st' :
  __init__ srt file runid filter_zero_len v st = (st', inr tt) ->
  exists raw d1 rt d2 d3 s ix,
    lookup_file file (fs st) = Some raw /\
    after_check (dropna raw) = inr (d1, rt) /\
    after_filter_zero filter_zero_len d1 = inr d2 /\
    after_select runid d2 = inr d3 /\
    getitem d3 "run_id" = inr s /\
    lookup_col "read_id" (data d3) = Some ix /\
    df (self st') =
      Some {| index := ix; data := remove_col "read_id" (data d3) |} /\
    run_type (self st') = Some rt /\
    zero_len_reads (self st') =
      (if filter_zero_len then Some (len d1 - len d2)
       else zero_len_reads (self st)) /\
    runid_counts (self st') = Some (to_frame "Counts" (value_counts srt s)) /\
    total_reads (self st') = Some (length ix) /\
    fs st' = fs st.
Proof.
  unfold __init__. intros H.
  apply bind_returns in H as ([] & st1 & H1 & H).
  apply bind_returns in H as ([] & st2 & H2 & H).
  apply bind_returns in H as ([] & st3 & H3 & H).
  apply bind_returns in H as ([] & st4 & H4 & H5).
  apply load_returns in H1 as (raw & d1 & rt & Hraw & Hc & Hd1 & Hrt1 & Hz1 & Hf1).
  apply (filter_zero_length_returns _ _ _ _ d1) in H2
    as (d2 & Hfz & Hd2 & Hz2 & Hrt2 & Hf2); [|exact Hd1].
  apply (select_runid_returns _ _ _ _ d2) in H3
    as (d3 & Hsel & Hd3 & Hz3 & Hrt3 & Hf3); [|exact Hd2].
  apply (count_runid_returns _ _ _ d3) in H4
    as (s & Hs & Hrc & Hd4 & Hz4 & Hrt4 & Hf4); [|exact Hd3].
  apply (final_cleanup_returns _ _ _ d3) in H5
    as (ix & Hix & Hd5 & Htot & Hrc5 & Hz5 & Hrt5 & Hf5); [|exact Hd4].
  exists raw, d1, rt, d2, d3, s, ix.
  repeat split; try assumption; try congruence.
  rewrite Hz5, Hz4, Hz3, Hz2. destruct filter_zero_len; congruence.
Qed.

(** The blocks that follow the check of the columns never touch [run_type],
    however they end. *)
Lemma filters_keep_run_type {srt : pandas_sort} runid filter_zero_len v st :
  run_type (self (fst ((filter_zero_length filter_zero_len v ;;
                        select_runid runid v ;;
                        count_runid srt v ;;
                        final_cleanup v) st))) = run_type (self st).
Proof.
  destruct filter_zero_len, v, runid as [r|]; unfold select_runid;
    try destruct (truthy (Some r));
    unfold_stmt; unfold set_index, reset_index; follow_goal; reflexivity.
Qed.

(** The check of the columns, run forwards. *)
Lemma load_runs file v st raw :
  lookup_file file (fs st) = Some raw ->
  exists st1,
    load file v st = (st1, match after_check (dropna raw) with
                           | inl e => inl e
                           | inr _ => inr tt
                           end) /\
    fs st1 = fs st /\
    match after_check (dropna raw) with
    | inl _ => run_type (self st1) = run_type (self st)
    | inr (d1, rt) => df (self st1) = Some d1 /\ run_type (self st1) = Some rt
    end /\
    (forall c, assert_columns cols_1D (dropna raw) = Some c ->
       In ("Column " ++ c ++ " not found in the provided sequence_summary file, "
           ++ "trying 2D or 1D^2 column formats...")%string (stdout st1)).
Proof.
  intros Hraw. unfold load, after_check, estimate_2D.
  destruct (assert_columns cols_1D (dropna raw)) as [c1|] eqn:H1;
    [destruct (assert_columns cols_2D (dropna raw)) as [c2|] eqn:H2;
     [|destruct (getitem (dropna raw) "sequence_length_2d") as [e|s] eqn:Hs;
       [|destruct (series_truediv s 450) as [e|q] eqn:Hq;
         [|destruct (series_mul s float_1_8) as [e|p] eqn:Hp;
           [|destruct (getitem (dropna raw) "mean_qscore_2d") as [e|m] eqn:Hm]]]]|].
  all: destruct v; unfold_stmt; rewrite Hraw; run_known.
  all: eexists; repeat split; try reflexivity; try discriminate.
  all: intros c Hc; injection Hc as <-; cbn [stdout];
    rewrite ?in_app_iff; cbn [In]; auto 10.
Qed.

(* ===================================================================== *)
(** ** Masks, columns and tables *)
(* ===================================================================== *)

Section Select.
Context {A : Type}.
Implicit Types (l : list A) (m : list bool).

Lemma select_nil_r m : select m (@nil A) = [].
Proof. destruct m as [|[] m]; reflexivity. Qed.

Lemma select_length_le m l : length (select m l) <= length l.
Proof.
  revert l; induction m as [|b m IH]; intros [|x l]; cbn; try lia.
  specialize (IH l). destruct b; cbn; lia.
Qed.

Lemma select_removed m l :
  length m = length l -> length (select m l) + removed m = length l.
Proof.
  unfold removed. revert l; induction m as [|b m IH]; intros [|x l] H;
    cbn in *; try lia.
  injection H as H. specialize (IH l H). destruct b; cbn; lia.
Qed.

Lemma select_length_eq {B : Type} m l (l' : list B) :
  length l = length l' -> length (select m l) = length (select m l').
Proof.
  revert l l'; induction m as [|b m IH]; intros [|x l] [|y l'] H;
    cbn in *; try lia.
  injection H as H. specialize (IH l l' H). destruct b; cbn; lia.
Qed.

Lemma select_all n l : length l <= n -> select (repeat true n) l = l.
Proof.
  revert l; induction n as [|n IH]; intros [|x l] H; cbn in *;
    try reflexivity; try lia.
  f_equal. apply IH. lia.
Qed.

Lemma select_select m1 m2 l :
  select m2 (select m1 l) = select (mask_then m1 m2) l.
Proof.
  revert m2 l; induction m1 as [|b m1 IH]; intros m2 l.
  - cbn. destruct l; [apply select_nil_r|]. destruct m2 as [|[] ?]; reflexivity.
  - destruct l as [|x l].
    + cbn. rewrite select_nil_r.
      destruct b; [destruct m2|]; reflexivity.
    + destruct b; cbn.
      * destruct m2 as [|b2 m2]; cbn.
        -- rewrite <- IH. destruct (select m1 l); reflexivity.
        -- rewrite IH. reflexivity.
      * apply IH.
Qed.

Lemma Forall_select (P : A -> Prop) m l :
  Forall P l -> Forall P (select m l).
Proof.
  intros H; revert m; induction H as [|x l Hx _ IH]; intros [|b m]; cbn;
    try constructor.
  destruct b; [constructor; [exact Hx|]|]; apply IH.
Qed.

Lemma select_zip_and (P : A -> Prop) m1 m2 l :
  Forall P (select m2 l) -> Forall P (select (zip_and m1 m2) l).
Proof.
  revert m2 l; induction m1 as [|b1 m1 IH]; intros [|b2 m2] [|x l]; cbn;
    try constructor.
  destruct b1, b2; cbn; intros H; try (apply IH; assumption).
  - inversion H; subst. constructor; [assumption|]. apply IH; assumption.
  - inversion H; subst. apply IH; assumption.
Qed.

Lemma select_test (f : A -> bool) m l :
  Forall (fun x => f x = true) (select (zip_and (map f l) m) l).
Proof.
  revert m; induction l as [|x l IH]; intros [|b m]; cbn; try constructor.
  destruct (f x) eqn:Hx, b; cbn; try apply IH.
  constructor; [exact Hx|apply IH].
Qed.
End Select.

Lemma select_map {A B : Type} (f : A -> B) m l :
  select m (map f l) = map f (select m l).
Proof.
  revert l; induction m as [|b m IH]; intros [|x l]; cbn; try reflexivity.
  rewrite IH. destruct b; reflexivity.
Qed.

Lemma mapM_length {A B : Type} (f : A -> exn + B) l l' :
  mapM f l = inr l' -> length l' = length l.
Proof.
  revert l'; induction l as [|x l IH]; cbn; intros l' H.
  - injection H as <-. reflexivity.
  - destruct (f x); [discriminate|]. destruct (mapM f l); [discriminate|].
    injection H as <-. cbn. f_equal. apply IH. reflexivity.
Qed.

Lemma mapM_select {A B : Type} (f : A -> exn + B) m l l' :
  mapM f l = inr l' -> mapM f (select m l) = inr (select m l').
Proof.
  revert m l'; induction l as [|x l IH]; cbn; intros m l' H.
  - injection H as <-. rewrite !select_nil_r. reflexivity.
  - destruct (f x) as [|y] eqn:Hx; [discriminate|].
    destruct (mapM f l) as [|t]; [discriminate|].
    injection H as <-. destruct m as [|[] m]; cbn; try reflexivity.
    + rewrite Hx, (IH m t eq_refl). reflexivity.
    + apply IH. reflexivity.
Qed.

Lemma mapM_Forall2 {A B : Type} (f : A -> exn + B) l l' :
  mapM f l = inr l' -> Forall2 (fun x y => f x = inr y) l l'.
Proof.
  revert l'; induction l as [|x l IH]; cbn; intros l' H.
  - injection H as <-. constructor.
  - destruct (f x) as [|y] eqn:Hx; [discriminate|].
    destruct (mapM f l) as [|t]; [discriminate|].
    injection H as <-. constructor; [exact Hx|]. apply IH. reflexivity.
Qed.

Lemma mapM_total {A B : Type} (f : A -> exn + B) (P : A -> Prop) l :
  (forall x, P x -> exists y, f x = inr y) ->
  Forall P l -> exists l', mapM f l = inr l'.
Proof.
  intros Hf H; induction H as [|x l Hx _ [t IH]]; cbn.
  - eexists; reflexivity.
  - destruct (Hf x Hx) as [y ->]. rewrite IH. eexists; reflexivity.
Qed.

(** The rows kept by a test are those on which it holds. *)
Lemma mapM_select_true {A : Type} (f : A -> exn + bool) l m :
  mapM f l = inr m -> Forall (fun x => f x = inr true) (select m l).
Proof.
  revert m; induction l as [|x l IH]; cbn; intros m H.
  - injection H as <-. constructor.
  - destruct (f x) as [|b] eqn:Hx; [discriminate|].
    destruct (mapM f l) as [|t]; [discriminate|].
    injection H as <-. cbn. destruct b.
    + constructor; [exact Hx|]. apply IH; reflexivity.
    + apply IH; reflexivity.
Qed.

Lemma removed_select m1 m2 :
  removed (select m1 m2) =
  length (filter (fun ab => fst ab && negb (snd ab)) (combine m1 m2)).
Proof.
  unfold removed. revert m2; induction m1 as [|a m1 IH]; intros [|b m2];
    cbn; try reflexivity.
  destruct a, b; cbn; rewrite IH; reflexivity.
Qed.

Lemma lookup_col_In c l :
  In c (map fst l) -> exists s, lookup_col c l = Some s.
Proof.
  induction l as [|[c1 s1] t IH]; cbn; [tauto|].
  intros [->|H].
  - rewrite String.eqb_refl. eexists; reflexivity.
  - destruct (String.eqb c1 c); [eexists; reflexivity|apply IH, H].
Qed.

Lemma lookup_col_Some c l s : lookup_col c l = Some s -> In (c, s) l.
Proof.
  induction l as [|[c1 s1] t IH]; cbn; [discriminate|].
  destruct (String.eqb_spec c1 c) as [->|_].
  - intros H; injection H as ->. left; reflexivity.
  - intros H; right; apply IH, H.
Qed.

Lemma lookup_col_select c m l :
  lookup_col c (map (fun cs => (fst cs, select m (snd cs))) l) =
  option_map (select m) (lookup_col c l).
Proof.
  induction l as [|[c1 s1] t IH]; cbn; [reflexivity|].
  destruct (String.eqb c1 c); [reflexivity|exact IH].
Qed.

Lemma lookup_col_remove c c' l :
  c <> c' -> lookup_col c (remove_col c' l) = lookup_col c l.
Proof.
  intros Hc; induction l as [|[c1 s1] t IH]; cbn; [reflexivity|].
  destruct (String.eqb_spec c1 c') as [->|_].
  - destruct (String.eqb_spec c' c) as [->|_]; [contradiction|reflexivity].
  - cbn. destruct (String.eqb c1 c); [reflexivity|exact IH].
Qed.

Lemma getitem_loc d m c :
  getitem (loc d m) c =
  match getitem d c with inl e => inl e | inr s => inr (select m s) end.
Proof.
  unfold getitem, loc; cbn [data]. rewrite lookup_col_select.
  destruct (lookup_col c (data d)); reflexivity.
Qed.

Lemma loc_loc d m1 m2 : loc (loc d m1) m2 = loc d (mask_then m1 m2).
Proof.
  unfold loc; cbn [index data]. rewrite select_select, map_map. f_equal.
  apply map_ext; intros [c s]; cbn. rewrite select_select. reflexivity.
Qed.

Lemma loc_all d : wf d -> loc d (repeat true (len d)) = d.
Proof.
  destruct d as [ix cols]; unfold wf, loc, len; cbn [index data].
  intros H. rewrite select_all by lia. f_equal.
  induction H as [|[c s] t Hs _ IH]; cbn; [reflexivity|].
  cbn in Hs. rewrite select_all by lia. rewrite IH. reflexivity.
Qed.

Lemma wf_loc d m : wf d -> wf (loc d m).
Proof.
  unfold wf, loc, len; cbn [index data]. intros H.
  rewrite Forall_map. eapply Forall_impl; [|exact H].
  intros [c s]; cbn. apply select_length_eq.
Qed.

Lemma wf_setitem d c s : wf d -> length s = len d -> wf (setitem d c s).
Proof.
  unfold wf, setitem, len; cbn [index data]. intros H Hs.
  induction H as [|[c1 s1] t H1 Ht IH]; cbn.
  - constructor; [exact Hs|constructor].
  - destruct (String.eqb c1 c); constructor; assumption.
Qed.

Lemma wf_getitem d c s : wf d -> getitem d c = inr s -> length s = len d.
Proof.
  unfold wf, getitem. intros H Hs.
  destruct (lookup_col c (data d)) as [s'|] eqn:Hl; [|discriminate].
  injection Hs as ->. apply lookup_col_Some in Hl.
  rewrite Forall_forall in H. apply (H _ Hl).
Qed.

Lemma len_loc d m : length m = len d -> len (loc d m) + removed m = len d.
Proof. unfold len, loc; cbn [index]. apply select_removed. Qed.

Lemma columns_loc d m : columns (loc d m) = columns d.
Proof.
  unfold columns, loc; cbn [data]. rewrite map_map. reflexivity.
Qed.

(** No missing value is left in any column by [dropna]. *)
Lemma dropna_notna d c s :
  getitem (dropna d) c = inr s -> Forall (fun x => isna x = false) s.
Proof.
  unfold dropna. rewrite getitem_loc. unfold getitem.
  destruct (lookup_col c (data d)) as [s0|] eqn:Hl; [|discriminate].
  intros H; injection H as <-. apply lookup_col_Some in Hl.
  unfold notna_rows. induction (data d) as [|[c1 s1] t IH]; [destruct Hl|].
  cbn [fold_right snd]. destruct Hl as [Hl|Hl].
  - injection Hl as -> ->.
    eapply Forall_impl; [|apply (select_test notna)].
    intros x; unfold notna; destruct (isna x); [discriminate|reflexivity].
  - apply select_zip_and, IH, Hl.
Qed.

(** *** The check of the columns *)

Lemma contains_In cols c : contains cols c = true <-> In c cols.
Proof.
  unfold contains. rewrite existsb_exists. split.
  - intros (x & Hx & Heq). apply String.eqb_eq in Heq. subst; exact Hx.
  - intros H. exists c. split; [exact H|apply String.eqb_refl].
Qed.

Lemma assert_columns_None cols d :
  assert_columns cols d = None <-> incl cols (columns d).
Proof.
  induction cols as [|c cols IH]; cbn.
  - split; [intros _ x []|reflexivity].
  - destruct (contains (columns d) c) eqn:Hc.
    + apply contains_In in Hc. rewrite IH. split.
      * intros H x [<-|Hx]; [exact Hc|apply H, Hx].
      * intros H x Hx. apply H. right; exact Hx.
    + split; [discriminate|]. intros H.
      assert (In c (columns d)) as Hin by (apply H; left; reflexivity).
      apply contains_In in Hin. congruence.
Qed.

Lemma assert_columns_Some cols d c :
  assert_columns cols d = Some c <-> first_missing cols d c.
Proof.
  unfold first_missing. induction cols as [|c0 cols IH]; cbn.
  - split; [discriminate|]. intros ([|? ?] & after & H & _); discriminate.
  - destruct (contains (columns d) c0) eqn:Hc.
    + apply contains_In in Hc. rewrite IH. split.
      * intros (before & after & -> & Hb & Hn).
        exists (c0 :: before), after. repeat split; [|exact Hn].
        intros x [<-|Hx]; [exact Hc|apply Hb, Hx].
      * intros ([|b before] & after & H & Hb & Hn); injection H as -> ->.
        -- contradiction.
        -- exists before, after. repeat split; [|exact Hn].
           intros x Hx. apply Hb. right; exact Hx.
    + assert (~ In c0 (columns d)) as Hn0
        by (rewrite <- contains_In; congruence).
      split.
      * intros H; injection H as <-. exists [], cols.
        repeat split; [intros x []|exact Hn0].
      * intros ([|b before] & after & H & Hb & Hn); injection H as -> ->.
        -- reflexivity.
        -- exfalso. apply Hn0, Hb. left; reflexivity.
Qed.

Lemma assert_columns_missing cols d :
  ~ incl cols (columns d) -> exists c, assert_columns cols d = Some c.
Proof.
  rewrite <- assert_columns_None.
  destruct (assert_columns cols d) as [c|]; [eexists; reflexivity|congruence].
Qed.

Lemma columns_dropna d : columns (dropna d) = columns d.
Proof. apply columns_loc. Qed.

Lemma assert_columns_dropna cols d :
  assert_columns cols (dropna d) = assert_columns cols d.
Proof.
  induction cols as [|c cols IH]; cbn [assert_columns]; [reflexivity|].
  rewrite columns_dropna, IH. reflexivity.
Qed.

Lemma getitem_In d c : In c (columns d) -> exists s, getitem d c = inr s.
Proof.
  unfold getitem, columns. intros H.
  destruct (lookup_col_In _ _ H) as [s ->]. eexists; reflexivity.
Qed.

(** What a passed check has left. *)
Lemma after_check_inv d d1 rt :
  after_check d = inr (d1, rt) ->
  (assert_columns cols_1D d = None /\ rt = "1D"%string /\ d1 = d) \/
  (assert_columns cols_1D d <> None /\ assert_columns cols_2D d = None /\
   rt = "2D"%string /\
   exists s q p m,
     getitem d "sequence_length_2d" = inr s /\
     series_truediv s 450 = inr q /\
     series_mul s float_1_8 = inr p /\
     getitem d "mean_qscore_2d" = inr m /\
     d1 = setitem (setitem (setitem (setitem d
            "duration" q) "num_events" p)
            "sequence_length_template" s)
            "mean_qscore_template" m).
Proof.
  unfold after_check, estimate_2D.
  destruct (assert_columns cols_1D d) as [c1|].
  - destruct (assert_columns cols_2D d); [discriminate|].
    destruct (getitem d "sequence_length_2d") as [|s] eqn:Hs; [discriminate|].
    destruct (series_truediv s 450) as [|q] eqn:Hq; [discriminate|].
    destruct (series_mul s float_1_8) as [|p] eqn:Hp; [discriminate|].
    destruct (getitem d "mean_qscore_2d") as [|m] eqn:Hm; [discriminate|].
    intros H; injection H as <- <-. right.
    split; [discriminate|]. split; [reflexivity|]. split; [reflexivity|].
    exists s, q, p, m. repeat split; assumption.
  - intros H; injection H as <- <-. left. repeat split; reflexivity.
Qed.

Lemma after_check_index d d1 rt :
  after_check d = inr (d1, rt) -> index d1 = index d.
Proof.
  intros H. apply after_check_inv in H
    as [(_ & _ & ->)|(_ & _ & _ & s & q & p & m & _ & _ & _ & _ & ->)];
    reflexivity.
Qed.

Lemma after_check_wf d d1 rt :
  after_check d = inr (d1, rt) -> wf d -> wf d1.
Proof.
  intros H Hwf. apply after_check_inv in H
    as [(_ & _ & ->)|(_ & _ & _ & s & q & p & m & Hs & Hq & Hp & Hm & ->)];
    [exact Hwf|].
  pose proof (wf_getitem _ _ _ Hwf Hs) as Ls.
  pose proof (wf_getitem _ _ _ Hwf Hm) as Lm.
  apply mapM_length in Hq, Hp.
  repeat apply wf_setitem; try assumption; unfold len in *; cbn [index setitem];
    congruence.
Qed.

(** The check changes no column but the four that it estimates or renames. *)
Lemma after_check_getitem d d1 rt c :
  after_check d = inr (d1, rt) ->
  c <> "duration"%string -> c <> "num_events"%string ->
  c <> "sequence_length_template"%string ->
  c <> "mean_qscore_template"%string ->
  getitem d1 c = getitem d c.
Proof.
  intros H H1 H2 H3 H4. apply after_check_inv in H
    as [(_ & _ & ->)|(_ & _ & _ & s & q & p & m & _ & _ & _ & _ & ->)];
    [reflexivity|].
  rewrite !getitem_setitem.
  repeat match goal with
         | |- context [String.eqb ?a c] =>
             destruct (String.eqb_spec a c); [congruence|]
         end.
  reflexivity.
Qed.

(** What the filters have left: rows of the table they were given. *)
Lemma after_filter_zero_inv filter_zero_len d d' :
  after_filter_zero filter_zero_len d = inr d' -> wf d ->
  exists mask,
    length mask = len d /\ d' = loc d mask /\
    (filter_zero_len = true ->
       exists s, getitem d "sequence_length_template" = inr s /\
                 series_gt s 0 = inr mask) /\
    (filter_zero_len = false -> d' = d).
Proof.
  unfold after_filter_zero. intros H Hwf. destruct filter_zero_len.
  - destruct (getitem d "sequence_length_template") as [|s] eqn:Hs;
      [discriminate|].
    destruct (series_gt s 0) as [|mask] eqn:Hm; [discriminate|].
    injection H as <-. exists mask. repeat split.
    + apply mapM_length in Hm. rewrite Hm. apply (wf_getitem _ _ _ Hwf Hs).
    + intros _. exists s. split; [reflexivity|exact Hm].
    + discriminate.
  - injection H as <-. exists (repeat true (len d)). repeat split.
    + apply repeat_length.
    + symmetry; apply loc_all, Hwf.
    + discriminate.
Qed.

Lemma after_select_inv runid d d' :
  after_select runid d = inr d' -> wf d ->
  exists mask,
    length mask = len d /\ d' = loc d mask /\
    (truthy runid = true ->
       exists r s, runid = Some r /\ getitem d "run_id" = inr s /\
                   mask = series_eq s r) /\
    (truthy runid = false -> d' = d).
Proof.
  unfold after_select. intros H Hwf.
  assert (exists mask, length mask = len d /\ d = loc d mask /\
            (truthy runid = false -> d = d)) as Hid.
  { exists (repeat true (len d)). repeat split.
    - apply repeat_length.
    - symmetry; apply loc_all, Hwf. }
  destruct runid as [r|].
  - destruct (truthy (Some r)) eqn:Ht.
    + destruct (getitem d "run_id") as [|s] eqn:Hs; [discriminate|].
      injection H as <-. exists (series_eq s r). repeat split.
      * unfold series_eq. rewrite length_map. apply (wf_getitem _ _ _ Hwf Hs).
      * intros _. exists r, s. repeat split.
      * discriminate.
    + injection H as <-. destruct Hid as (mask & H1 & H2 & H3).
      exists mask. repeat split; try assumption. discriminate.
  - injection H as <-. destruct Hid as (mask & H1 & H2 & H3).
    exists mask. repeat split; try assumption. discriminate.
Qed.

(** A run that returns, on a well-formed table: the table of the object is
    made of the rows of the checked table that pass the two masks, with the
    read ids as labels. *)
Lemma init_returns_rows {srt : pandas_sort} file runid filter_zero_len v st st' raw :
  __init__ srt file runid filter_zero_len v st = (st', inr tt) ->
  lookup_file file (fs st) = Some raw -> wf raw ->
  exists d1 rt m1 m2 s ix,
    after_check (dropna raw) = inr (d1, rt) /\ wf d1 /\
    length m1 = len d1 /\
    (filter_zero_len = true ->
       exists sl, getitem d1 "sequence_length_template" = inr sl /\
                  series_gt sl 0 = inr m1) /\
    (filter_zero_len = false -> loc d1 m1 = d1) /\
    length m2 = len (loc d1 m1) /\
    (truthy runid = true ->
       exists r sr, runid = Some r /\
                    getitem (loc d1 m1) "run_id" = inr sr /\
                    m2 = series_eq sr r) /\
    (truthy runid = false -> loc (loc d1 m1) m2 = loc d1 m1) /\
    getitem (loc (loc d1 m1) m2) "run_id" = inr s /\
    getitem (loc (loc d1 m1) m2) "read_id" = inr ix /\
    length ix = len (loc (loc d1 m1) m2) /\
    df (self st') =
      Some {| index := ix;
              data := remove_col "read_id" (data (loc (loc d1 m1) m2)) |} /\
    run_type (self st') = Some rt /\
    zero_len_reads (self st') =
      (if filter_zero_len then Some (removed m1)
       else zero_len_reads (self st)) /\
    runid_counts (self st') = Some (to_frame "Counts" (value_counts srt s)) /\
    total_reads (self st') = Some (len (loc (loc d1 m1) m2)).
Proof.
  intros H Hraw Hwf.
  apply init_returns in H
    as (raw' & d1 & rt & d2 & d3 & s & ix & Hraw' & Hc & Hfz & Hsel & Hs & Hix
        & Hdf & Hrt & Hz & Hrc & Htot & _).
  rewrite Hraw in Hraw'. injection Hraw' as <-.
  assert (wf d1) as Hwf1.
  { apply (after_check_wf _ _ _ Hc). apply wf_loc, Hwf. }
  destruct (after_filter_zero_inv _ _ _ Hfz Hwf1) as (m1 & L1 & -> & Hon1 & Hoff1).
  assert (wf (loc d1 m1)) as Hwf2 by (apply wf_loc, Hwf1).
  destruct (after_select_inv _ _ _ Hsel Hwf2) as (m2 & L2 & -> & Hon2 & Hoff2).
  assert (getitem (loc (loc d1 m1) m2) "read_id" = inr ix) as Hix'.
  { unfold getitem. rewrite Hix. reflexivity. }
  assert (length ix = len (loc (loc d1 m1) m2)) as Lix.
  { apply (wf_getitem _ "read_id"); [apply wf_loc, Hwf2|exact Hix']. }
  exists d1, rt, m1, m2, s, ix.
  splits; try assumption.
  - rewrite Hz. destruct filter_zero_len; [|reflexivity].
    f_equal. pose proof (len_loc d1 m1 L1). lia.
  - rewrite Htot, Lix. reflexivity.
Qed.

Lemma init_unfold {srt : pandas_sort} file runid filter_zero_len v st :
  __init__ srt file runid filter_zero_len v st =
  match load file v st with
  | (st1, inr _) =>
      (filter_zero_length filter_zero_len v ;;
       select_runid runid v ;;
       count_runid srt v ;;
       final_cleanup v) st1
  | (st1, inl e) => (st1, inl e)
  end.
Proof. reflexivity. Qed.

(** The run type that the check has set is the one the constructor leaves,
    whether it returns or raises later. *)
Lemma init_run_type {srt : pandas_sort} file runid filter_zero_len v st raw d1 rt :
  lookup_file file (fs st) = Some raw ->
  after_check (dropna raw) = inr (d1, rt) ->
  run_type (self (fst (__init__ srt file runid filter_zero_len v st))) = Some rt.
Proof.
  intros Hraw Hc. destruct (load_runs file v st raw Hraw) as (st1 & Hl & _ & Hp & _).
  rewrite Hc in Hl, Hp. rewrite init_unfold, Hl, filters_keep_run_type.
  apply Hp.
Qed.

Lemma getitem_labelled ix d c :
  c <> "read_id"%string ->
  getitem {| index := ix; data := remove_col "read_id" (data d) |} c =
  getitem d c.
Proof.
  intros Hc. unfold getitem; cbn [data].
  rewrite lookup_col_remove by exact Hc. reflexivity.
Qed.

Lemma number_truediv n c : is_number c -> exists y, cell_truediv c n = inr y.
Proof. destruct c; cbn; [eexists; reflexivity..|tauto]. Qed.

Lemma number_mul x c : is_number c -> exists y, cell_mul c x = inr y.
Proof. destruct c; cbn; [eexists; reflexivity..|tauto]. Qed.

(** A table of the 2D layout whose lengths are numbers passes the check. *)
Lemma after_check_2D raw :
  ~ incl cols_1D (columns raw) ->
  incl cols_2D (columns raw) ->
  (forall s, getitem raw "sequence_length_2d" = inr s -> Forall is_number s) ->
  exists d1, after_check (dropna raw) = inr (d1, "2D"%string).
Proof.
  intros H1 H2 Hnum. unfold after_check, estimate_2D.
  destruct (assert_columns_missing _ _ H1) as [c1 Hc1].
  rewrite !assert_columns_dropna, Hc1.
  rewrite (proj2 (assert_columns_None cols_2D raw) H2).
  assert (In "sequence_length_2d"%string (columns raw)) as Hin1
    by (apply H2; cbn; tauto).
  assert (In "mean_qscore_2d"%string (columns raw)) as Hin2
    by (apply H2; cbn; tauto).
  destruct (getitem_In _ _ Hin1) as [s Hs].
  destruct (getitem_In _ _ Hin2) as [m Hm].
  unfold dropna. rewrite !getitem_loc, Hs, Hm.
  pose proof (Forall_select is_number (notna_rows raw) s (Hnum s Hs)) as Hsel.
  destruct (mapM_total (fun c => cell_truediv c 450) is_number _
              (number_truediv 450) Hsel) as [q Hq].
  destruct (mapM_total (fun c => cell_mul c float_1_8) is_number _
              (number_mul float_1_8) Hsel) as [p Hp].
  unfold series_truediv, series_mul. rewrite Hq, Hp.
  eexists; reflexivity.
Qed.

(** *** Cells and counts *)

Lemma float_of_int_0 : float_of_int 0 = S754_zero false.
Proof. reflexivity. Qed.

(** A cell that is greater than zero is not zero, and a zero cell is not
    greater than zero. *)
Lemma cell_gt_not_zero c : cell_gt c 0 = inr true -> cell_eq_int c 0 = false.
Proof.
  destruct c as [z|f|s]; cbn [cell_gt cell_eq_int]; [| |discriminate].
  - intros H; injection H as H. apply Z.ltb_lt in H. apply Z.eqb_neq. lia.
  - rewrite float_of_int_0. intros H; injection H as H.
    destruct f as [[]|[]| |[] m e]; cbn in *; congruence.
Qed.

Lemma cell_zero_not_gt c b :
  cell_gt c 0 = inr b -> cell_eq_int c 0 = true -> b = false.
Proof.
  intros Hb Hz. destruct b; [|reflexivity].
  apply cell_gt_not_zero in Hb. congruence.
Qed.

Lemma cell_eq_str_true c x : cell_eq_str c x = true -> c = CStr x.
Proof.
  destruct c as [z|f|s]; cbn; try discriminate.
  intros H. apply String.eqb_eq in H. congruence.
Qed.

Lemma series_eq_select s x :
  Forall (fun c => c = CStr x) (select (series_eq s x) s).
Proof.
  induction s as [|c s IH]; cbn; [constructor|].
  destruct (cell_eq_str c x) eqn:Hc; [|exact IH].
  constructor; [apply cell_eq_str_true, Hc|exact IH].
Qed.

Lemma zip_and_length a b :
  length a = length b -> length (zip_and a b) = length b.
Proof.
  revert b; induction a as [|x a IH]; intros [|y b]; cbn; try lia.
  intros H. f_equal. apply IH. lia.
Qed.

Lemma notna_rows_length d : wf d -> length (notna_rows d) = len d.
Proof.
  unfold wf, notna_rows. intros H.
  induction H as [|[c s] t Hs _ IH]; cbn [fold_right snd].
  - apply repeat_length.
  - cbn in Hs. rewrite zip_and_length; [exact IH|].
    rewrite length_map. congruence.
Qed.

(** The counts of a column that holds one value only. *)
Lemma tally_constant x s n :
  Forall (fun c => c = CStr x) s ->
  fold_left (fun t c => if isna c then t else count_key c t) s [(CStr x, n)]
  = [(CStr x, n + length s)].
Proof.
  intros H; revert n; induction H as [|c s -> _ IH]; intros n; cbn.
  - f_equal. f_equal. lia.
  - rewrite String.eqb_refl, IH. f_equal. f_equal. lia.
Qed.

Lemma value_counts_constant {srt : pandas_sort} x s :
  Forall (fun c => c = CStr x) s ->
  value_counts srt s =
  match s with [] => [] | _ :: _ => [(CStr x, length s)] end.
Proof.
  intros H. unfold value_counts.
  pose proof (Permutation_sym (sort_values_perm srt (tally s))) as P.
  unfold tally in *. destruct H as [|c s -> H]; cbn in *.
  - apply Permutation_nil, P.
  - rewrite (tally_constant x s 1 H) in *.
    apply Permutation_length_1_inv, P.
Qed.

(** *** Statements that depend on the files and the arguments only *)












(* ===================================================================== *)
(** ** The counts of [value_counts] *)
(* ===================================================================== *)

(** *** Equality of cells *)

Lemma SFeqb_finite s m e s' m' e' :
  SFeqb (S754_finite s m e) (S754_finite s' m' e') = true <->
  s = s' /\ m = m' /\ e = e'.
Proof.
  unfold SFeqb, SFcompare.
  change (PosDef.Pos.compare_cont Eq m m') with (Pos.compare m m').
  destruct s, s'; destruct (Z.compare_spec e e') as [He|He|He];
    destruct (Pos.compare_spec m m') as [Hm|Hm|Hm]; cbn;
    split; try discriminate; try (intros (? & ? & ?); subst; lia);
    intros _; subst; repeat split.
Qed.

Lemma SFeqb_sym x y : SFeqb x y = true -> SFeqb y x = true.
Proof.
  destruct x as [a|a| |s m e], y as [b|b| |s' m' e'];
    try (rewrite !SFeqb_finite; intuition congruence);
    repeat match goal with b : bool |- _ => destruct b end; cbn; congruence.
Qed.

Lemma SFeqb_trans x y z :
  SFeqb x y = true -> SFeqb y z = true -> SFeqb x z = true.
Proof.
  destruct x as [a|a| |s m e], y as [b|b| |s' m' e'], z as [c|c| |s2 m2 e2];
    try (rewrite !SFeqb_finite; intuition congruence);
    repeat match goal with b : bool |- _ => destruct b end; cbn; congruence.
Qed.

Lemma SFeqb_refl x : x <> S754_nan -> SFeqb x x = true.
Proof.
  destruct x as [a|a| |s m e]; try destruct a; cbn; try congruence.
  intros _. apply SFeqb_finite. repeat split.
Qed.

Lemma cell_eqb_sym a b : cell_eqb a b = true -> cell_eqb b a = true.
Proof.
  destruct a, b; cbn; try discriminate.
  - rewrite !Z.eqb_eq. congruence.
  - apply SFeqb_sym.
  - rewrite !String.eqb_eq. congruence.
Qed.

Lemma cell_eqb_trans a b c :
  cell_eqb a b = true -> cell_eqb b c = true -> cell_eqb a c = true.
Proof.
  destruct a, b, c; cbn; try discriminate.
  - rewrite !Z.eqb_eq. congruence.
  - apply SFeqb_trans.
  - rewrite !String.eqb_eq. congruence.
Qed.

Lemma cell_eqb_refl a : isna a = false -> cell_eqb a a = true.
Proof.
  destruct a as [z|f|s]; cbn.
  - intros _. apply Z.eqb_refl.
  - intros H. apply SFeqb_refl. intros ->. discriminate.
  - intros _. apply String.eqb_refl.
Qed.

(** A missing value equals nothing, itself included. *)
Lemma cell_eqb_na a b : isna b = true -> cell_eqb a b = false.
Proof.
  destruct b as [z|[]|s]; try discriminate. intros _.
  destruct a as [z|[[]|[]| |[] m e]|s]; reflexivity.
Qed.

Lemma cell_eqb_notna a b : cell_eqb a b = true -> isna b = false.
Proof.
  intros H. destruct (isna b) eqn:Hb; [|reflexivity].
  rewrite (cell_eqb_na a b Hb) in H. discriminate.
Qed.

(** Equal keys compare alike with every cell. *)
Lemma cell_eqb_congr a b x :
  cell_eqb a b = true -> cell_eqb a x = cell_eqb b x.
Proof.
  intros H. destruct (cell_eqb a x) eqn:Ha, (cell_eqb b x) eqn:Hb;
    try reflexivity.
  - rewrite (cell_eqb_trans b a x (cell_eqb_sym _ _ H) Ha) in Hb. discriminate.
  - rewrite (cell_eqb_trans a b x H Hb) in Ha. discriminate.
Qed.

(** *** Occurrences and first positions *)

Lemma occurrences_app k s t :
  occurrences k (s ++ t) = occurrences k s + occurrences k t.
Proof. unfold occurrences. rewrite filter_app, length_app. reflexivity. Qed.

Lemma occurrences_one k c :
  occurrences k [c] = if cell_eqb k c then 1 else 0.
Proof. unfold occurrences; cbn. destruct (cell_eqb k c); reflexivity. Qed.

Lemma occurrences_zero k s :
  occurrences k s = 0 <-> Forall (fun x => cell_eqb k x = false) s.
Proof.
  unfold occurrences. induction s as [|x s IH]; cbn.
  - split; [constructor|reflexivity].
  - destruct (cell_eqb k x) eqn:Hx; cbn.
    + split; [discriminate|]. intros H; inversion H; congruence.
    + rewrite IH. split; [intros H; constructor; assumption|].
      intros H; inversion H; assumption.
Qed.

Lemma occurrences_congr a b s :
  cell_eqb a b = true -> occurrences a s = occurrences b s.
Proof.
  intros H. unfold occurrences. f_equal. apply filter_ext.
  intros x. apply cell_eqb_congr, H.
Qed.

Lemma first_index_congr a b s :
  cell_eqb a b = true -> first_index a s = first_index b s.
Proof.
  intros H. induction s as [|x s IH]; cbn; [reflexivity|].
  rewrite (cell_eqb_congr a b x H), IH. reflexivity.
Qed.

Lemma first_index_present k s :
  0 < occurrences k s -> first_index k s < length s.
Proof.
  unfold occurrences. induction s as [|x s IH]; cbn; [lia|].
  destruct (cell_eqb k x); cbn; [lia|]. intros H. specialize (IH H). lia.
Qed.

Lemma first_index_app_present k s t :
  0 < occurrences k s -> first_index k (s ++ t) = first_index k s.
Proof.
  unfold occurrences. induction s as [|x s IH]; cbn; [lia|].
  destruct (cell_eqb k x); cbn; [reflexivity|]. intros H. rewrite IH by exact H.
  reflexivity.
Qed.

Lemma first_index_app_absent k s t :
  occurrences k s = 0 -> first_index k (s ++ t) = length s + first_index k t.
Proof.
  unfold occurrences. induction s as [|x s IH]; cbn; [reflexivity|].
  destruct (cell_eqb k x); cbn; [discriminate|]. intros H. rewrite IH by exact H.
  reflexivity.
Qed.

(** *** Ordered pairs *)

Lemma FOP_impl_In {A : Type} (R R' : A -> A -> Prop) l :
  (forall a b, In a l -> In b l -> R a b -> R' a b) ->
  ForallOrdPairs R l -> ForallOrdPairs R' l.
Proof.
  intros Himp H. induction H as [|a l Ha _ IH]; constructor.
  - rewrite Forall_forall in *. intros b Hb.
    apply Himp; [left; reflexivity|right; exact Hb|apply Ha, Hb].
  - apply IH. intros x y Hx Hy. apply Himp; right; assumption.
Qed.

Lemma FOP_snoc {A : Type} (R : A -> A -> Prop) l x :
  ForallOrdPairs R l -> Forall (fun a => R a x) l ->
  ForallOrdPairs R (l ++ [x]).
Proof.
  intros H Hx. induction H as [|a l Ha _ IH]; cbn.
  - constructor; constructor.
  - inversion Hx; subst. constructor.
    + apply Forall_app. split; [exact Ha|]. constructor; [assumption|constructor].
    + apply IH. assumption.
Qed.

Lemma FOP_map_fst {A B : Type} (R : A * B -> A * B -> Prop)
    (f : A * B -> A * B) l :
  (forall p q, R p q -> R (f p) (f q)) ->
  ForallOrdPairs R l -> ForallOrdPairs R (map f l).
Proof.
  intros Hf H. induction H as [|a l Ha _ IH]; cbn; constructor.
  - rewrite Forall_map. eapply Forall_impl; [|exact Ha]. intros q. apply Hf.
  - exact IH.
Qed.

(** *** The table of counts *)

Lemma count_key_map c t :
  ForallOrdPairs
    (fun p q => cell_eqb (fst p) c = true -> cell_eqb (fst q) c = false) t ->
  count_key c t =
  map (fun p => (fst p, if cell_eqb (fst p) c then S (snd p) else snd p)) t
  ++ (if existsb (fun p => cell_eqb (fst p) c) t then [] else [(c, 1)]).
Proof.
  intros H. induction H as [|[k n] t Hk _ IH]; cbn [count_key map existsb fst snd app].
  - reflexivity.
  - destruct (cell_eqb k c) eqn:Hkc; cbn [orb].
    + rewrite app_nil_r. f_equal. clear IH.
      induction Hk as [|[k' n'] t' Hk' _ IHt]; cbn [map fst snd];
        [reflexivity|].
      cbn [fst] in Hk'. rewrite (Hk' Hkc), <- IHt. reflexivity.
    + rewrite IH. reflexivity.
Qed.

Lemma tally_snoc s c :
  tally (s ++ [c]) = if isna c then tally s else count_key c (tally s).
Proof. unfold tally. rewrite fold_left_app. reflexivity. Qed.

Lemma counts_of_step s t c :
  counts_of s t ->
  counts_of (s ++ [c]) (if isna c then t else count_key c t).
Proof.
  intros (H1 & H2 & H3).
  assert (forall k n, In (k, n) t -> 0 < occurrences k s) as P1.
  { intros k n Hin. destruct (H1 k n Hin) as [<- Hpos]. exact Hpos. }
  assert (ForallOrdPairs
            (fun p q => first_index (fst p) (s ++ [c])
                        < first_index (fst q) (s ++ [c])) t) as H3'.
  { eapply FOP_impl_In; [|exact H3]. intros [a na] [b nb] Ha Hb; cbn [fst].
    rewrite !first_index_app_present; [tauto| |].
    - apply (P1 _ _ Hb).
    - apply (P1 _ _ Ha). }
  unfold counts_of. destruct (isna c) eqn:Hc.
  - (* a missing value is not counted *)
    splits.
    + intros k n Hin. destruct (H1 k n Hin) as [-> Hpos]. split; [|exact Hpos].
      rewrite occurrences_app, occurrences_one, (cell_eqb_na k c Hc). lia.
    + intros x Hx Hnx. apply in_app_or in Hx as [Hx|[<-|[]]].
      * apply H2; assumption.
      * congruence.
    + exact H3'.
  - (* one more occurrence of [c] *)
    pose proof (cell_eqb_refl c Hc) as Hcc.
    assert (ForallOrdPairs
              (fun p q => cell_eqb (fst p) c = true ->
                          cell_eqb (fst q) c = false) t) as D.
    { eapply FOP_impl_In; [|exact H3]. intros [a na] [b nb] _ _; cbn [fst].
      intros Hlt Ha. destruct (cell_eqb b c) eqn:Hb; [|reflexivity].
      rewrite (first_index_congr a b) in Hlt; [lia|].
      apply (cell_eqb_trans a c b Ha), cell_eqb_sym, Hb. }
    rewrite (count_key_map c t D).
    set (f := fun p : cell * nat =>
                (fst p, if cell_eqb (fst p) c then S (snd p) else snd p)).
    assert (forall k n, In (k, n) (map f t) ->
              n = occurrences k (s ++ [c]) /\ 0 < n) as M1.
    { intros k n Hin. apply in_map_iff in Hin as ([k0 n0] & E & Hin).
      unfold f in E; cbn [fst snd] in E. injection E as <- <-.
      destruct (H1 k0 n0 Hin) as [-> Hpos].
      rewrite occurrences_app, occurrences_one.
      destruct (cell_eqb k0 c); lia. }
    assert (forall x, In x s -> isna x = false ->
              exists k n, In (k, n) (map f t) /\ cell_eqb k x = true) as M2.
    { intros x Hx Hnx. destruct (H2 x Hx Hnx) as (k & n & Hin & Hk).
      exists k. eexists. split; [|exact Hk].
      apply in_map_iff. exists (k, n). split; [reflexivity|exact Hin]. }
    assert (ForallOrdPairs
              (fun p q => first_index (fst p) (s ++ [c])
                          < first_index (fst q) (s ++ [c])) (map f t)) as M3.
    { apply FOP_map_fst; [|exact H3']. intros p q. exact (fun H => H). }
    destruct (existsb (fun p => cell_eqb (fst p) c) t) eqn:He.
    + rewrite app_nil_r. splits; [exact M1| |exact M3].
      intros x Hx Hnx. apply in_app_or in Hx as [Hx|[<-|[]]].
      * apply M2; assumption.
      * apply existsb_exists in He as ([k n] & Hin & Hk). cbn [fst] in Hk.
        exists k. eexists. split; [|exact Hk].
        apply in_map_iff. exists (k, n). split; [reflexivity|exact Hin].
    + assert (forall p, In p t -> cell_eqb (fst p) c = false) as Hnone.
      { intros p Hp. destruct (cell_eqb (fst p) c) eqn:E; [|reflexivity].
        assert (existsb (fun p => cell_eqb (fst p) c) t = true)
          by (apply existsb_exists; exists p; split; assumption).
        congruence. }
      assert (occurrences c s = 0) as Hzero.
      { apply occurrences_zero, Forall_forall. intros x Hx.
        destruct (cell_eqb c x) eqn:E; [|reflexivity].
        destruct (H2 x Hx (cell_eqb_notna _ _ E)) as (k & n & Hin & Hk).
        rewrite <- (Hnone _ Hin). cbn [fst]. symmetry.
        apply (cell_eqb_trans k x c Hk), cell_eqb_sym, E. }
      splits.
      * intros k n Hin. apply in_app_or in Hin as [Hin|[E|[]]].
        -- apply M1, Hin.
        -- injection E as <- <-.
           rewrite occurrences_app, occurrences_one, Hzero, Hcc. lia.
      * intros x Hx Hnx. apply in_app_or in Hx as [Hx|[<-|[]]].
        -- destruct (M2 x Hx Hnx) as (k & n & Hin & Hk).
           exists k, n. split; [apply in_or_app; left; exact Hin|exact Hk].
        -- exists c, 1. split; [apply in_or_app; right; left; reflexivity|].
           exact Hcc.
      * apply FOP_snoc; [exact M3|]. apply Forall_forall.
        intros [k n] Hin. cbn [fst]. destruct (M1 k n Hin) as [-> Hpos].
        rewrite occurrences_app, occurrences_one in Hpos.
        apply in_map_iff in Hin as ([k0 n0] & E & Hin).
        unfold f in E; cbn [fst snd] in E. injection E as <- _.
        pose proof (Hnone _ Hin) as Hk. cbn [fst] in Hk. rewrite Hk in Hpos.
        rewrite first_index_app_present by lia.
        rewrite (first_index_app_absent c s [c] Hzero). cbn [first_index].
        rewrite Hcc. pose proof (first_index_present k0 s). lia.
Qed.

Lemma tally_counts s : counts_of s (tally s).
Proof.
  induction s as [|c s IH] using rev_ind.
  - unfold counts_of. splits; [intros k n []|intros c []|constructor].
  - rewrite tally_snoc. apply counts_of_step, IH.
Qed.

(** *** The sort *)

Lemma insert_desc_In x y l : In y (insert_desc x l) <-> y = x \/ In y l.
Proof.
  induction l as [|z l IH]; cbn [insert_desc In].
  - split; [intros [<-|[]]; left; reflexivity|intros [->|[]]; left; reflexivity].
  - destruct (snd x <? snd z); cbn [In]; rewrite ?IH; split.
    + intros [<-|[->|H]]; auto.
    + intros [->|[<-|H]]; auto.
    + intros [<-|[<-|H]]; auto.
    + intros [->|[<-|H]]; auto.
Qed.

Lemma sort_desc_In y l : In y (sort_desc l) <-> In y l.
Proof.
  unfold sort_desc. induction l as [|x l IH]; cbn [fold_right In]; [tauto|].
  rewrite insert_desc_In, IH. split; intros [->|H]; auto.
Qed.

Lemma counts_order_le s p q : counts_order s p q -> snd q <= snd p.
Proof. unfold counts_order. lia. Qed.

Lemma insert_desc_order s x l :
  ForallOrdPairs (counts_order s) l ->
  Forall (fun y => first_index (fst x) s < first_index (fst y) s) l ->
  ForallOrdPairs (counts_order s) (insert_desc x l).
Proof.
  intros H Hx. induction H as [|y l Hy Hl IH]; cbn [insert_desc].
  - constructor; constructor.
  - inversion Hx as [|? ? Hxy Hxl]; subst.
    destruct (Nat.ltb_spec (snd x) (snd y)) as [Hlt|Hge].
    + constructor; [|apply IH, Hxl].
      apply Forall_forall. intros z Hz. apply insert_desc_In in Hz as [->|Hz].
      * left. exact Hlt.
      * rewrite Forall_forall in Hy. apply Hy, Hz.
    + constructor; [|constructor; assumption].
      apply Forall_forall. intros z Hz.
      assert (snd z <= snd y) as Hzy.
      { destruct Hz as [<-|Hz]; [lia|].
        rewrite Forall_forall in Hy. apply (counts_order_le s), Hy, Hz. }
      assert (first_index (fst x) s < first_index (fst z) s) as Hxz.
      { destruct Hz as [<-|Hz]; [exact Hxy|].
        rewrite Forall_forall in Hxl. apply Hxl, Hz. }
      unfold counts_order. lia.
Qed.

Lemma sort_desc_order s l :
  ForallOrdPairs
    (fun p q => first_index (fst p) s < first_index (fst q) s) l ->
  ForallOrdPairs (counts_order s) (sort_desc l).
Proof.
  unfold sort_desc. intros H. induction H as [|x l Hx _ IH]; cbn [fold_right].
  - constructor.
  - apply insert_desc_order; [exact IH|].
    apply Forall_forall. intros y Hy.
    apply (proj1 (sort_desc_In y l)) in Hy.
    rewrite Forall_forall in Hx. apply Hx, Hy.
Qed.

Lemma FOP_perm {A : Type} (R : A -> A -> Prop) l l' :
  (forall a b, R a b -> R b a) ->
  Permutation l l' -> ForallOrdPairs R l -> ForallOrdPairs R l'.
Proof.
  intros Hsym P. induction P as [|x l l' P IH|x y l|l l' l'' _ IH1 _ IH2];
    intros H.
  - exact H.
  - inversion H as [|? ? Hx Hl]; subst. constructor; [|apply IH, Hl].
    rewrite Forall_forall in *. intros z Hz.
    apply Hx, (Permutation_in _ (Permutation_sym P)), Hz.
  - inversion H as [|? ? Hy Hxl]; subst.
    inversion Hxl as [|? ? Hx Hl]; subst.
    inversion Hy as [|? ? Hyx Hyl]; subst.
    constructor; [constructor; [apply Hsym, Hyx|exact Hx]|].
    constructor; assumption.
  - apply IH2, IH1, H.
Qed.

(** No value has two entries. *)
Lemma tally_keys s :
  ForallOrdPairs (fun p q => cell_eqb (fst p) (fst q) = false) (tally s).
Proof.
  destruct (tally_counts s) as (_ & _ & H3).
  eapply FOP_impl_In; [|exact H3]. intros a b _ _ Hlt. cbv beta in Hlt.
  destruct (cell_eqb (fst a) (fst b)) eqn:E; [|reflexivity].
  rewrite (first_index_congr _ _ s E) in Hlt. lia.
Qed.

(** [value_counts], whatever the sort: the groups, their counts, and the
    order of the counts. *)
Lemma value_counts_spec {srt : pandas_sort} s :
  (forall k n, In (k, n) (value_counts srt s) -> n = occurrences k s /\ 0 < n) /\
  (forall c, In c s -> isna c = false ->
     exists k n, In (k, n) (value_counts srt s) /\ cell_eqb k c = true) /\
  ForallOrdPairs (fun p q => cell_eqb (fst p) (fst q) = false)
    (value_counts srt s) /\
  StronglySorted (fun p q => snd q <= snd p) (value_counts srt s).
Proof.
  destruct (tally_counts s) as (H1 & H2 & _). unfold value_counts.
  pose proof (sort_values_perm srt (tally s)) as P.
  splits.
  - intros k n Hin. apply H1, (Permutation_in _ P), Hin.
  - intros c Hc Hn. destruct (H2 c Hc Hn) as (k & n & Hin & Hk).
    exists k, n. split; [|exact Hk].
    apply (Permutation_in _ (Permutation_sym P)), Hin.
  - apply (FOP_perm _ (tally s)); [|apply Permutation_sym, P|apply tally_keys].
    intros a b E. destruct (cell_eqb (fst b) (fst a)) eqn:E'; [|reflexivity].
    apply cell_eqb_sym in E'. congruence.
  - apply sort_values_desc.
Qed.

(** [value_counts] with a stable sort: the entries of equal count come in
    the order in which their values are first met. *)
Lemma value_counts_stable s :
  ForallOrdPairs (counts_order s) (value_counts stable s).
Proof.
  destruct (tally_counts s) as (_ & _ & H3). apply sort_desc_order, H3.
Qed.


(* ===================================================================== *)
(** ** When the constructor returns *)
(* ===================================================================== *)

(** The constructor returns as soon as the table passes the check and the
    filters and has its read ids. *)
Lemma init_runs {srt : pandas_sort} file runid filter_zero_len v st raw d1 rt d2 d3 s ix :
  lookup_file file (fs st) = Some raw ->
  after_check (dropna raw) = inr (d1, rt) ->
  after_filter_zero filter_zero_len d1 = inr d2 ->
  after_select runid d2 = inr d3 ->
  getitem d3 "run_id" = inr s ->
  lookup_col "read_id" (data d3) = Some ix ->
  exists st', __init__ srt file runid filter_zero_len v st = (st', inr tt).
Proof.
  intros Hraw Hc Hfz Hsel Hs Hix.
  destruct (load_runs file v st raw Hraw) as (st1 & Hl & _ & Hp & _).
  rewrite Hc in Hl, Hp. destruct Hp as [Hd1 _].
  rewrite init_unfold, Hl.
  unfold after_filter_zero in Hfz. unfold after_select in Hsel.
  destruct filter_zero_len, v, runid as [r|]; unfold select_runid;
    try destruct (truthy (Some r));
    unfold_stmt; unfold set_index, reset_index; rewrite ?Hd1.
  all: follow_hyp Hfz; injection Hfz as <-.
  all: follow_hyp Hsel; injection Hsel as <-.
  all: run_known; cbn [data]; run_known.
  all: eexists; reflexivity.
Qed.

Lemma number_gt n c : is_number c -> exists b, cell_gt c n = inr b.
Proof. destruct c; cbn; [eexists; reflexivity..|tauto]. Qed.

Lemma columns_setitem d c s x :
  In x (columns d) -> In x (columns (setitem d c s)).
Proof.
  unfold columns, setitem; cbn [data].
  induction (data d) as [|[c1 s1] t IH]; cbn; [tauto|].
  destruct (String.eqb c1 c); cbn; tauto.
Qed.

Lemma after_check_columns d d1 rt x :
  after_check d = inr (d1, rt) -> In x (columns d) -> In x (columns d1).
Proof.
  intros H Hx. apply after_check_inv in H
    as [(_ & _ & ->)|(_ & _ & _ & s & q & p & m & _ & _ & _ & _ & ->)];
    [exact Hx|].
  repeat apply columns_setitem. exact Hx.
Qed.

(** The table that passes the check has the columns that the rest of the
    constructor reads, and its lengths are those of the source. *)
Lemma after_check_lengths d d1 rt :
  after_check d = inr (d1, rt) ->
  exists c s,
    (c = "sequence_length_template" \/ c = "sequence_length_2d")%string /\
    getitem d c = inr s /\
    getitem d1 "sequence_length_template" = inr s /\
    In "run_id"%string (columns d1).
Proof.
  intros H. pose proof H as H'. apply after_check_inv in H
    as [(H1 & _ & ->)|(_ & H2 & _ & s & q & p & m & Hs & _ & _ & _ & ->)].
  - apply assert_columns_None in H1.
    destruct (getitem_In d "sequence_length_template") as [s Hs];
      [apply H1; cbn; tauto|].
    exists "sequence_length_template"%string, s.
    splits; [left; reflexivity|exact Hs|exact Hs|apply H1; cbn; tauto].
  - apply assert_columns_None in H2.
    exists "sequence_length_2d"%string, s.
    splits; [right; reflexivity|exact Hs| |].
    + rewrite !getitem_setitem. reflexivity.
    + apply (after_check_columns _ _ _ _ H'), H2. cbn; tauto.
Qed.

(** The constructor returns on every table of one of the two layouts that
    has its read ids and whose lengths are numbers. *)
Lemma init_total {srt : pandas_sort} file runid filter_zero_len v st raw :
  lookup_file file (fs st) = Some raw ->
  incl cols_1D (columns raw) \/ incl cols_2D (columns raw) ->
  In "read_id"%string (columns raw) ->
  (forall c s,
     (c = "sequence_length_template" \/ c = "sequence_length_2d")%string ->
     getitem raw c = inr s -> Forall is_number s) ->
  exists st', __init__ srt file runid filter_zero_len v st = (st', inr tt).
Proof.
  intros Hraw Hcols Hrid Hnum.
  assert (exists d1 rt, after_check (dropna raw) = inr (d1, rt)) as (d1 & rt & Hc).
  { destruct (assert_columns cols_1D raw) as [c1|] eqn:H1.
    - destruct Hcols as [H|H2];
        [apply assert_columns_None in H; congruence|].
      destruct (after_check_2D raw) as [d1 Hd1].
      + intros H. apply assert_columns_None in H. congruence.
      + exact H2.
      + intros s. apply Hnum. right; reflexivity.
      + exists d1. eexists. exact Hd1.
    - unfold after_check. rewrite assert_columns_dropna, H1.
      do 2 eexists; reflexivity. }
  destruct (after_check_lengths _ _ _ Hc) as (c & s & Hcs & Hs & Hs1 & Hrun).
  assert (Forall is_number s) as Hs_num.
  { unfold dropna in Hs. rewrite getitem_loc in Hs.
    destruct (getitem raw c) as [|s0] eqn:Hs0; [discriminate|].
    injection Hs as <-. apply Forall_select, (Hnum c s0 Hcs Hs0). }
  destruct (mapM_total (fun x => cell_gt x 0) is_number s (number_gt 0) Hs_num)
    as [mask Hmask].
  assert (exists d2, after_filter_zero filter_zero_len d1 = inr d2
                     /\ columns d2 = columns d1) as (d2 & Hfz & Hc2).
  { unfold after_filter_zero, series_gt. destruct filter_zero_len.
    - rewrite Hs1, Hmask. eexists. split; [reflexivity|apply columns_loc].
    - eexists. split; reflexivity. }
  assert (exists d3, after_select runid d2 = inr d3
                     /\ columns d3 = columns d2) as (d3 & Hsel & Hc3).
  { unfold after_select. destruct runid as [r|].
    - destruct (truthy (Some r)).
      + destruct (getitem_In d2 "run_id") as [sr ->]; [congruence|].
        eexists. split; [reflexivity|apply columns_loc].
      + eexists. split; reflexivity.
    - eexists. split; reflexivity. }
  destruct (getitem_In d3 "run_id") as [sr Hsr]; [congruence|].
  destruct (lookup_col_In "read_id" (data d3)) as [ix Hix].
  { fold (columns d3). rewrite Hc3, Hc2.
    apply (after_check_columns _ _ _ _ Hc). rewrite columns_dropna. exact Hrid. }
  apply (init_runs _ _ _ _ _ _ _ _ _ _ _ _ Hraw Hc Hfz Hsel Hsr Hix).
Qed.

(** A mask that removes nothing keeps every row. *)
Lemma removed_none m : removed m = 0 -> m = repeat true (length m).
Proof.
  unfold removed. induction m as [|[|] m IH]; cbn; intros H;
    [reflexivity| |discriminate H].
  f_equal. apply IH, H.
Qed.

Lemma filter_off_mask d m :
  length m = len d -> loc d m = d -> m = repeat true (len d).
Proof.
  intros L E. pose proof (len_loc d m L) as H. rewrite E in H.
  rewrite <- L. apply removed_none. lia.
Qed.

(** The rows that [s == x] keeps are as many as the cells of [s] equal to
    the string [x]. *)
Lemma select_series_eq_length s x :
  length (select (series_eq s x) s) = occurrences (CStr x) s.
Proof.
  unfold series_eq, occurrences. induction s as [|c s IH]; [reflexivity|].
  assert (cell_eqb (CStr x) c = cell_eq_str c x) as E.
  { destruct c; cbn; try reflexivity. apply String.eqb_sym. }
  cbn [map select filter]. rewrite E.
  destruct (cell_eq_str c x); cbn [length]; rewrite IH; reflexivity.
Qed.

(** The read ids, and the run ids, of the table that enters the filters are
    those of the complete rows of the file. *)
Lemma checked_column raw d1 rt c :
  after_check (dropna raw) = inr (d1, rt) ->
  c <> "duration"%string -> c <> "num_events"%string ->
  c <> "sequence_length_template"%string ->
  c <> "mean_qscore_template"%string ->
  getitem d1 c = match getitem raw c with
                 | inl e => inl e
                 | inr s => inr (select (notna_rows raw) s)
                 end.
Proof.
  intros Hc H1 H2 H3 H4.
  rewrite (after_check_getitem _ _ _ c Hc H1 H2 H3 H4).
  unfold dropna. apply getitem_loc.
Qed.

Lemma Forall2_select {A B : Type} (R : A -> B -> Prop) m l l' :
  Forall2 R l l' -> Forall2 R (select m l) (select m l').
Proof.
  intros H. revert m. induction H as [|x y l l' Hxy _ IH]; intros m.
  - destruct m as [|[|] m]; constructor.
  - destruct m as [|[|] m]; cbn [select]; [constructor| |apply IH].
    constructor; [exact Hxy|apply IH].
Qed.

(* ===================================================================== *)
(** ** The claims *)
(* ===================================================================== *)

(** C1, as the spec states it, fails: a table can have the five columns of
    the 2D layout and a length that is not a number.  The division of
    line 90 then raises [TypeError], and no run type is set. *)
Lemma C1_counterexample :
  ~ incl cols_1D (columns summary_2D_str) /\
  incl cols_2D (columns summary_2D_str) /\
  (exists msg,
     snd (__init__ stable "table.txt" None false false
            (start_with summary_2D_str)) = inl (TypeError msg)) /\
  run_type (self (fst (__init__ stable "table.txt" None false false
                         (start_with summary_2D_str)))) = None /\
  run_type (self (fst (__init__ stable "table.txt" None false false
                         (start_with summary_2D_str)))) <> Some "2D".
Proof.
  splits.
  - intros H. apply assert_columns_None in H. vm_compute in H. discriminate H.
  - apply assert_columns_None. reflexivity.
  - eexists. vm_compute. reflexivity.
  - vm_compute. reflexivity.
  - vm_compute. discriminate.
Qed.

(** C1 (as amended). Schema detection is ordered.  On a table that has all
    seven columns of the 1D layout the constructor sets [run_type] to "1D"
    (whatever else the table has, the columns of the 2D layout included),
    the check leaves the table as [dropna] made it, and every column of the
    table of the object is made of rows of the same column of the source:
    nothing is estimated.  On a table that lacks one of those columns and
    has the five of the 2D layout, with numbers as lengths, it sets
    [run_type] to "2D", and in the table of the object the [duration] of a
    row is the binary64 quotient of its [sequence_length_2d] by 450 and its
    [num_events] the binary64 product of its [sequence_length_2d] by 1.8,
    the binary64 number nearest to 9/5. *)
Theorem C1_schema_detection {srt : pandas_sort} file runid filter_zero_len v st raw :
  lookup_file file (fs st) = Some raw -> wf raw ->
  (incl cols_1D (columns raw) ->
     run_type (self (fst (__init__ srt file runid filter_zero_len v st)))
       = Some "1D"%string /\
     (exists st1, load file v st = (st1, inr tt) /\
                  df (self st1) = Some (dropna raw)) /\
     (forall st', __init__ srt file runid filter_zero_len v st = (st', inr tt) ->
        exists d mask,
          df (self st') = Some d /\
          forall c, c <> "read_id"%string ->
            lookup_col c (data d) =
            option_map (select mask) (lookup_col c (data raw)))) /\
  (~ incl cols_1D (columns raw) -> incl cols_2D (columns raw) ->
   (forall s, getitem raw "sequence_length_2d" = inr s -> Forall is_number s) ->
     run_type (self (fst (__init__ srt file runid filter_zero_len v st)))
       = Some "2D"%string /\
     (forall st', __init__ srt file runid filter_zero_len v st = (st', inr tt) ->
        let binary64 (x : cell) :=
          match x with
          | CInt z => binary_normalize 53 1024 z 0 false
          | CFloat f => f
          | CStr _ => S754_nan
          end in
        let b450 := binary_normalize 53 1024 450 0 false in
        let b1_8 := S754_finite false 8106479329266893 (-52) in
        b1_8 = SFdiv 53 1024 (binary_normalize 53 1024 9 0 false)
                     (binary_normalize 53 1024 5 0 false) /\
        exists d s q p,
          df (self st') = Some d /\
          getitem d "sequence_length_2d" = inr s /\
          getitem d "duration" = inr q /\
          getitem d "num_events" = inr p /\
          Forall2 (fun x y => y = CFloat (SFdiv 53 1024 (binary64 x) b450))
                  s q /\
          Forall2 (fun x y => y = CFloat (SFmul 53 1024 (binary64 x) b1_8))
                  s p)).
Proof.
  intros Hraw Hwf. split.
  - intros H1.
    assert (after_check (dropna raw) = inr (dropna raw, "1D"%string)) as Hc.
    { unfold after_check. rewrite assert_columns_dropna.
      rewrite (proj2 (assert_columns_None cols_1D raw) H1). reflexivity. }
    split; [apply (init_run_type _ _ _ _ _ _ _ _ Hraw Hc)|]. split.
    + destruct (load_runs file v st raw Hraw) as (st1 & Hl & _ & Hp & _).
      rewrite Hc in Hl, Hp. exists st1. split; [exact Hl|apply Hp].
    + intros st' Hrun.
      destruct (init_returns_rows _ _ _ _ _ _ _ Hrun Hraw Hwf)
        as (d1 & rt & m1 & m2 & s & ix & Hc' & _ & _ & _ & _ & _ & _ & _ & _
            & _ & _ & Hdf & _).
      rewrite Hc in Hc'. injection Hc' as <- <-.
      do 2 eexists. split; [exact Hdf|]. intros c Hc'. cbn [data].
      rewrite lookup_col_remove by exact Hc'.
      unfold dropna. rewrite !loc_loc. apply lookup_col_select.
  - intros H1 H2 Hnum.
    destruct (after_check_2D raw H1 H2 Hnum) as [d1 Hc].
    split; [apply (init_run_type _ _ _ _ _ _ _ _ Hraw Hc)|].
    intros st' Hrun. cbv zeta. split; [vm_compute; reflexivity|].
    destruct (init_returns_rows _ _ _ _ _ _ _ Hrun Hraw Hwf)
      as (d1' & rt & m1 & m2 & s & ix & Hc' & _ & _ & _ & _ & _ & _ & _ & _
          & _ & _ & Hdf & _).
    rewrite Hc in Hc'. injection Hc' as <- <-.
    apply after_check_inv in Hc
      as [(_ & Hrt & _)|(_ & _ & _ & s0 & q & p & m & Hs & Hq & Hp & Hm & ->)];
      [discriminate Hrt|].
    eexists. exists (select m2 (select m1 s0)), (select m2 (select m1 q)),
      (select m2 (select m1 p)).
    split; [exact Hdf|].
    rewrite !getitem_labelled by discriminate.
    rewrite !getitem_loc, !getitem_setitem.
    cbn [String.eqb Ascii.eqb Bool.eqb]. rewrite Hs.
    splits; try reflexivity.
    + apply Forall2_select, Forall2_select.
      eapply Forall2_impl; [|apply (mapM_Forall2 _ _ _ Hq)].
      intros x y E. destruct x; cbn in E; [| |discriminate E];
        injection E as <-; reflexivity.
    + apply Forall2_select, Forall2_select.
      eapply Forall2_impl; [|apply (mapM_Forall2 _ _ _ Hp)].
      intros x y E. destruct x; cbn in E; [| |discriminate E];
        injection E as <-; reflexivity.
Qed.

Lemma C1_schema_detection_witness :
  (lookup_file "summary_1D.txt" (fs start) = Some summary_1D /\
   wf summary_1D /\ incl cols_1D (columns summary_1D) /\
   run_type (self (fst (__init__ stable "summary_1D.txt" None false false start)))
     = Some "1D"%string) /\
  (lookup_file "summary_2D.txt" (fs start) = Some summary_2D /\
   wf summary_2D /\ ~ incl cols_1D (columns summary_2D) /\
   incl cols_2D (columns summary_2D) /\
   (forall s, getitem summary_2D "sequence_length_2d" = inr s ->
              Forall is_number s) /\
   run_type (self (fst (__init__ stable "summary_2D.txt" None false false start)))
     = Some "2D"%string).
Proof.
  assert (wf summary_1D) as W1 by (repeat constructor).
  assert (wf summary_2D) as W2 by (repeat constructor).
  assert (incl cols_1D (columns summary_1D)) as I1
    by (apply assert_columns_None; reflexivity).
  assert (~ incl cols_1D (columns summary_2D)) as N2
    by (intros H; apply assert_columns_None in H; vm_compute in H;
        discriminate H).
  assert (incl cols_2D (columns summary_2D)) as I2
    by (apply assert_columns_None; reflexivity).
  assert (forall s, getitem summary_2D "sequence_length_2d" = inr s ->
                    Forall is_number s) as Num
    by (intros s Hs; vm_compute in Hs; injection Hs as <-;
        repeat constructor).
  split.
  - splits; [reflexivity|exact W1|exact I1|].
    exact (proj1 (proj1 (C1_schema_detection (srt:=stable) "summary_1D.txt"
                           None false false start summary_1D eq_refl W1) I1)).
  - splits; [reflexivity|exact W2|exact N2|exact I2|exact Num|].
    exact (proj1 (proj2 (C1_schema_detection (srt:=stable) "summary_2D.txt"
                           None false false start summary_2D eq_refl W2)
                        N2 I2 Num)).
Defined.

(** The estimates of the spec's example: a length of 900 gives a duration of
    2.0 and 1620.0 events. *)
Example estimate_900 :
  cell_truediv (CInt 900) 450 = inr (num 2) /\
  cell_mul (CInt 900) float_1_8 = inr (num 1620) /\
  SFdiv 53 1024 (binary_normalize 53 1024 900 0 false)
        (binary_normalize 53 1024 450 0 false)
  = binary_normalize 53 1024 2 0 false /\
  SFmul 53 1024 (binary_normalize 53 1024 900 0 false)
        (S754_finite false 8106479329266893 (-52))
  = binary_normalize 53 1024 1620 0 false.
Proof. splits; vm_compute; reflexivity. Qed.

(** C2, as the spec states it, fails: with the zero-length filter off the
    constructor returns and leaves [zero_len_reads] unset; it is not 0. *)
Lemma C2_counterexample :
  snd (__init__ stable "summary_1D.txt" None false false start) = inr tt /\
  zero_len_reads (self (fst (__init__ stable "summary_1D.txt" None false false start)))
    = None /\
  zero_len_reads (self (fst (__init__ stable "summary_1D.txt" None false false start)))
    <> Some 0.
Proof. vm_compute. splits; [reflexivity|reflexivity|discriminate]. Qed.

(** C2 (as amended). The object keeps two counts: [total_reads], always, and
    [zero_len_reads], which is set only when the zero-length filter is on.
    The reads dropped as incomplete and those dropped for their run id are
    not stored.  Counted on the masks of the three steps (a filter that is
    off removes nothing), the reads add up: the total, the rows that
    [dropna] removed, the rows the zero-length mask removed and the rows the
    run-id mask removed are the rows of the parsed table. *)
Theorem C2_row_count {srt : pandas_sort} file runid filter_zero_len v st st' raw :
  __init__ srt file runid filter_zero_len v st = (st', inr tt) ->
  lookup_file file (fs st) = Some raw -> wf raw ->
  exists d1 rt m1 m2 total,
    after_check (dropna raw) = inr (d1, rt) /\
    (filter_zero_len = true ->
       exists sl, getitem d1 "sequence_length_template" = inr sl /\
                  series_gt sl 0 = inr m1) /\
    (filter_zero_len = false -> removed m1 = 0) /\
    (truthy runid = true ->
       exists r sr, runid = Some r /\
                    getitem (loc d1 m1) "run_id" = inr sr /\
                    m2 = series_eq sr r) /\
    (truthy runid = false -> removed m2 = 0) /\
    total_reads (self st') = Some total /\
    total = len (loc (loc d1 m1) m2) /\
    zero_len_reads (self st') =
      (if filter_zero_len then Some (removed m1)
       else zero_len_reads (self st)) /\
    total + removed (notna_rows raw) + removed m1 + removed m2 = len raw.
Proof.
  intros Hrun Hraw Hwf.
  destruct (init_returns_rows _ _ _ _ _ _ _ Hrun Hraw Hwf)
    as (d1 & rt & m1 & m2 & s & ix & Hc & Hwf1 & L1 & Hon1 & Hoff1 & L2 & Hon2
        & Hoff2 & _ & _ & _ & _ & _ & Hz & _ & Htot).
  exists d1, rt, m1, m2, (len (loc (loc d1 m1) m2)).
  pose proof (len_loc d1 m1 L1) as E1.
  pose proof (len_loc (loc d1 m1) m2 L2) as E2.
  pose proof (len_loc raw _ (notna_rows_length raw Hwf)) as E0.
  assert (len d1 = len (dropna raw)) as E
    by (unfold len; f_equal; apply (after_check_index _ _ _ Hc)).
  fold (dropna raw) in E0.
  splits; try assumption; try reflexivity.
  - intros Hf. rewrite (Hoff1 Hf) in E1. lia.
  - intros Hf. rewrite (Hoff2 Hf) in E2. lia.
  - lia.
Qed.

Lemma C2_row_count_witness :
  lookup_file "summary_2D.txt" (fs start) = Some summary_2D /\
  wf summary_2D /\
  exists st' d1 rt m1 m2 total,
    __init__ stable "summary_2D.txt" (Some "r1"%string) true false start
      = (st', inr tt) /\
    after_check (dropna summary_2D) = inr (d1, rt) /\
    total_reads (self st') = Some total /\
    total + removed (notna_rows summary_2D) + removed m1 + removed m2
      = len summary_2D.
Proof.
  assert (wf summary_2D) as W by (repeat constructor).
  assert (__init__ stable "summary_2D.txt" (Some "r1"%string) true false start
          = (fst (__init__ stable "summary_2D.txt" (Some "r1"%string) true false
                    start), inr tt)) as Hrun
    by (vm_compute; reflexivity).
  splits; [reflexivity|exact W|].
  destruct (C2_row_count "summary_2D.txt" (Some "r1"%string) true false start
              _ summary_2D Hrun eq_refl W)
    as (d1 & rt & m1 & m2 & total & Hc & _ & _ & _ & _ & Ht & _ & _ & Hsum).
  exists (fst (__init__ stable "summary_2D.txt" (Some "r1"%string) true false start)),
    d1, rt, m1, m2, total.
  splits; [exact Hrun|exact Hc|exact Ht|exact Hsum].
Defined.

(** C3, as the spec states it, fails: two reads that survive the filters
    carry the read id "A"; the constructor returns, and both rows of the
    table it leaves are labelled "A". *)
Lemma C3_counterexample :
  snd (__init__ stable "summary_dup.txt" None false false start) = inr tt /\
  exists d,
    df (self (fst (__init__ stable "summary_dup.txt" None false false start)))
      = Some d /\
    index d = [CStr "A"; CStr "A"] /\ ~ NoDup (index d).
Proof.
  split; [vm_compute; reflexivity|].
  eexists. split; [vm_compute; reflexivity|].
  cbn [index]. split; [reflexivity|].
  intros H. inversion H as [|x l Hx _]; subst. apply Hx. left; reflexivity.
Qed.

(** C3 (as amended). The constructor does not check that the read ids are
    unique and raises nothing for duplicates: on a table of one of the two
    layouts that has a [read_id] column and numbers as lengths it returns,
    whatever the read ids are.  When it returns, the labels of its table are
    the read ids of the file, in the order of the file, duplicates included,
    less the rows that the three steps remove: the incomplete rows, the rows
    that the zero-length mask removes when this filter is on, the rows that
    the run-id mask removes when that one is on.  The other columns are cut
    by the same masks, and [total_reads] counts the labels. *)
Theorem C3_read_id_labels {srt : pandas_sort} file runid filter_zero_len v st raw :
  lookup_file file (fs st) = Some raw -> wf raw ->
  ((incl cols_1D (columns raw) \/ incl cols_2D (columns raw)) ->
   In "read_id"%string (columns raw) ->
   (forall c s,
      (c = "sequence_length_template" \/ c = "sequence_length_2d")%string ->
      getitem raw c = inr s -> Forall is_number s) ->
   exists st', __init__ srt file runid filter_zero_len v st = (st', inr tt)) /\
  (forall st',
     __init__ srt file runid filter_zero_len v st = (st', inr tt) ->
     exists rid0 d1 rt m1 m2 d,
       getitem raw "read_id" = inr rid0 /\
       after_check (dropna raw) = inr (d1, rt) /\
       length m1 = len d1 /\
       (filter_zero_len = true ->
          exists sl, getitem d1 "sequence_length_template" = inr sl /\
                     series_gt sl 0 = inr m1) /\
       (filter_zero_len = false -> m1 = repeat true (len d1)) /\
       length m2 = len (loc d1 m1) /\
       (truthy runid = true ->
          exists r sr, runid = Some r /\
                       getitem (loc d1 m1) "run_id" = inr sr /\
                       m2 = series_eq sr r) /\
       (truthy runid = false -> m2 = repeat true (len (loc d1 m1))) /\
       df (self st') = Some d /\
       index d = select m2 (select m1 (select (notna_rows raw) rid0)) /\
       (forall c, c <> "read_id"%string ->
          getitem d c =
          match getitem d1 c with
          | inl e => inl e
          | inr s => inr (select m2 (select m1 s))
          end) /\
       total_reads (self st') = Some (length (index d))).
Proof.
  intros Hraw Hwf. split; [apply init_total, Hraw|].
  intros st' Hrun.
  destruct (init_returns_rows _ _ _ _ _ _ _ Hrun Hraw Hwf)
    as (d1 & rt & m1 & m2 & s & ix & Hc & Hwf1 & L1 & Hon1 & Hoff1 & L2 & Hon2
        & Hoff2 & _ & Hix & Lix & Hdf & _ & _ & _ & Htot).
  rewrite !getitem_loc in Hix.
  rewrite (checked_column raw d1 rt "read_id" Hc) in Hix
    by discriminate.
  destruct (getitem raw "read_id") as [|rid0] eqn:Hrid; [discriminate|].
  injection Hix as <-.
  exists rid0, d1, rt, m1, m2. eexists.
  splits; try eassumption.
  - reflexivity.
  - intros Hf. apply filter_off_mask; [exact L1|apply Hoff1, Hf].
  - intros Hf. apply filter_off_mask; [exact L2|apply Hoff2, Hf].
  - reflexivity.
  - intros c Hne. rewrite getitem_labelled by exact Hne.
    rewrite !getitem_loc. destruct (getitem d1 c); reflexivity.
  - cbn [index]. rewrite Htot, Lix. reflexivity.
Qed.

Lemma C3_read_id_labels_witness :
  lookup_file "summary_dup.txt" (fs start) = Some summary_dup /\
  wf summary_dup /\
  exists st' d,
    __init__ stable "summary_dup.txt" None false false start = (st', inr tt) /\
    df (self st') = Some d /\
    index d = [CStr "A"; CStr "A"] /\
    total_reads (self st') = Some 2.
Proof.
  assert (wf summary_dup) as W by (repeat constructor).
  assert (__init__ stable "summary_dup.txt" None false false start
          = (fst (__init__ stable "summary_dup.txt" None false false start), inr tt))
    as Hrun by (vm_compute; reflexivity).
  splits; [reflexivity|exact W|].
  destruct (proj2 (C3_read_id_labels (srt:=stable) "summary_dup.txt" None
                     false false start summary_dup eq_refl W) _ Hrun)
    as (rid0 & d1 & rt & m1 & m2 & d & Hrid & Hc & _ & _ & Hm1 & _ & _ & Hm2
        & Hdf & Hix & _ & Htot).
  exists (fst (__init__ stable "summary_dup.txt" None false false start)), d.
  splits; [exact Hrun|exact Hdf| |].
  - rewrite Hix, (Hm2 eq_refl), (Hm1 eq_refl).
    vm_compute in Hc. injection Hc as <- <-.
    vm_compute in Hrid. injection Hrid as <-. reflexivity.
  - rewrite Htot, Hix, (Hm2 eq_refl), (Hm1 eq_refl).
    vm_compute in Hc. injection Hc as <- <-.
    vm_compute in Hrid. injection Hrid as <-. reflexivity.
Defined.

(** C4. With [filter_zero_len] true, no record of the table that the
    constructor leaves has a sequence length equal to zero, and
    [zero_len_reads] is the number of rows that the mask of line 107 removes
    from the table it is applied to: the rows before the step less the rows
    after it. *)
Theorem C4_zero_length_filter {srt : pandas_sort} file runid v st st' raw :
  __init__ srt file runid true v st = (st', inr tt) ->
  lookup_file file (fs st) = Some raw -> wf raw ->
  (exists d s,
     df (self st') = Some d /\
     getitem d "sequence_length_template" = inr s /\
     Forall (fun c => cell_eq_int c 0 = false) s) /\
  (exists d1 rt sl mask,
     after_check (dropna raw) = inr (d1, rt) /\
     getitem d1 "sequence_length_template" = inr sl /\
     series_gt sl 0 = inr mask /\
     after_filter_zero true d1 = inr (loc d1 mask) /\
     zero_len_reads (self st') = Some (removed mask) /\
     removed mask = len d1 - len (loc d1 mask) /\
     len (loc d1 mask) <= len d1).
Proof.
  intros Hrun Hraw Hwf.
  destruct (init_returns_rows _ _ _ _ _ _ _ Hrun Hraw Hwf)
    as (d1 & rt & m1 & m2 & s & ix & Hc & Hwf1 & L1 & Hon1 & _ & _ & _ & _ & _
        & _ & _ & Hdf & _ & Hz & _).
  destruct (Hon1 eq_refl) as (sl & Hsl & Hm1).
  split.
  - eexists. exists (select m2 (select m1 sl)).
    split; [exact Hdf|].
    rewrite getitem_labelled by discriminate.
    rewrite !getitem_loc, Hsl. split; [reflexivity|].
    apply Forall_select.
    eapply Forall_impl; [|apply (mapM_select_true _ _ _ Hm1)].
    intros c. apply cell_gt_not_zero.
  - exists d1, rt, sl, m1.
    pose proof (len_loc d1 m1 L1) as E.
    splits; try assumption; try lia.
    unfold after_filter_zero. rewrite Hsl. unfold series_gt in Hm1 |- *.
    rewrite Hm1. reflexivity.
Qed.

Lemma C4_zero_length_filter_witness :
  lookup_file "summary_1D.txt" (fs start) = Some summary_1D /\
  wf summary_1D /\
  exists st' d s,
    __init__ stable "summary_1D.txt" None true false start = (st', inr tt) /\
    df (self st') = Some d /\
    getitem d "sequence_length_template" = inr s /\
    Forall (fun c => cell_eq_int c 0 = false) s.
Proof.
  assert (wf summary_1D) as W by (repeat constructor).
  assert (__init__ stable "summary_1D.txt" None true false start
          = (fst (__init__ stable "summary_1D.txt" None true false start), inr tt))
    as Hrun by (vm_compute; reflexivity).
  splits; [reflexivity|exact W|].
  destruct (proj1 (C4_zero_length_filter "summary_1D.txt" None false start _
                     summary_1D Hrun eq_refl W))
    as (d & s & Hdf & Hs & Hz).
  exists (fst (__init__ stable "summary_1D.txt" None true false start)), d, s.
  splits; [exact Hrun|exact Hdf|exact Hs|exact Hz].
Defined.

(** The spec's example: of the reads A, B and C, B has length zero; the
    filter leaves A and C, counts one discarded read and one read for each
    of the two runs (in the order of the stable sort, the two counts being
    equal). *)
Example filter_example :
  construct stable "summary_1D.txt" None true false disk [] =
  (disk, [],
   inr {| verbose := Some false;
          seq_summary_file := Some "summary_1D.txt"%string;
          df := Some
            {| index := [CStr "A"; CStr "C"];
               data := [("run_id"%string, [CStr "r1"; CStr "r2"]);
                        ("channel"%string, [CInt 5; CInt 10]);
                        ("start_time"%string, [num 0; num 2]);
                        ("duration"%string, [num 1; num 1]);
                        ("num_events"%string, [CInt 180; CInt 360]);
                        ("sequence_length_template"%string, [CInt 100; CInt 200]);
                        ("mean_qscore_template"%string, [num 9; num 10])] |};
          run_type := Some "1D"%string;
          zero_len_reads := Some 1;
          runid_counts := Some
            {| index := [CStr "r1"; CStr "r2"];
               data := [("Counts"%string, [CInt 1; CInt 1])] |};
          total_reads := Some 2 |}).
Proof. vm_compute. reflexivity. Qed.

(** C5, as the spec states it, fails: no read of the table belongs to run
    "r3"; with this run id the constructor returns a table without rows, and
    the table of counts has no entry where the claim wants one. *)
Lemma C5_counterexample :
  snd (__init__ stable "summary_1D.txt" (Some "r3"%string) false false start)
    = inr tt /\
  runid_counts
    (self (fst (__init__ stable "summary_1D.txt" (Some "r3"%string) false false start)))
    = Some (to_frame "Counts" []) /\
  ~ (exists n,
       runid_counts
         (self (fst (__init__ stable "summary_1D.txt" (Some "r3"%string) false false
                       start)))
       = Some (to_frame "Counts" [(CStr "r3", n)])).
Proof.
  split; [vm_compute; reflexivity|].
  split; [vm_compute; reflexivity|].
  intros [n H]. vm_compute in H. discriminate H.
Qed.

(** C5 (as amended). For a run id [x] that is not the empty string, take the
    reads that reach the run-id filter: the complete rows of the file, less
    those of length zero when that filter is on.  The table that the
    constructor leaves holds those of them whose run id is [x], and no
    other; [total_reads] is their number.  The table of counts has the one
    entry of [x], with [total_reads] as its count, when there is such a
    read, and is empty, with a total of 0, when there is none. *)
Theorem C5_runid_filter {srt : pandas_sort} file x filter_zero_len v st st' raw :
  x <> ""%string ->
  __init__ srt file (Some x) filter_zero_len v st = (st', inr tt) ->
  lookup_file file (fs st) = Some raw -> wf raw ->
  exists sr0 d1 rt m1 sr d,
    getitem raw "run_id" = inr sr0 /\
    after_check (dropna raw) = inr (d1, rt) /\
    length m1 = len d1 /\
    (filter_zero_len = true ->
       exists sl, getitem d1 "sequence_length_template" = inr sl /\
                  series_gt sl 0 = inr m1) /\
    (filter_zero_len = false -> m1 = repeat true (len d1)) /\
    sr = select m1 (select (notna_rows raw) sr0) /\
    df (self st') = Some d /\
    getitem d "run_id" = inr (select (series_eq sr x) sr) /\
    Forall (fun c => c = CStr x) (select (series_eq sr x) sr) /\
    (forall c, c <> "read_id"%string ->
       getitem d c =
       match getitem d1 c with
       | inl e => inl e
       | inr s => inr (select (series_eq sr x) (select m1 s))
       end) /\
    total_reads (self st') = Some (occurrences (CStr x) sr) /\
    runid_counts (self st') =
      Some (to_frame "Counts"
              (if occurrences (CStr x) sr =? 0 then []
               else [(CStr x, occurrences (CStr x) sr)])).
Proof.
  intros Hx Hrun Hraw Hwf.
  destruct (init_returns_rows _ _ _ _ _ _ _ Hrun Hraw Hwf)
    as (d1 & rt & m1 & m2 & s & ix & Hc & Hwf1 & L1 & Hon1 & Hoff1 & _ & Hon2
        & _ & Hs & _ & _ & Hdf & _ & _ & Hrc & Htot).
  assert (truthy (Some x) = true) as Ht.
  { cbn. destruct (String.eqb_spec x ""); [contradiction|reflexivity]. }
  destruct (Hon2 Ht) as (r & sr & Hr & Hsr & ->). injection Hr as <-.
  rewrite getitem_loc, Hsr in Hs. injection Hs as <-.
  assert (Forall (fun c => c = CStr x) (select (series_eq sr x) sr)) as Hall
    by apply series_eq_select.
  pose proof Hsr as Hsr'. rewrite getitem_loc in Hsr'.
  rewrite (checked_column raw d1 rt "run_id" Hc) in Hsr' by discriminate.
  destruct (getitem raw "run_id") as [|sr0] eqn:Hsr0; [discriminate|].
  injection Hsr' as Esr.
  exists sr0, d1, rt, m1, sr. eexists.
  splits; try eassumption.
  - reflexivity.
  - intros Hf. apply filter_off_mask; [exact L1|apply Hoff1, Hf].
  - symmetry; exact Esr.
  - rewrite getitem_labelled by discriminate. rewrite getitem_loc, Hsr.
    reflexivity.
  - intros c Hne. rewrite getitem_labelled by exact Hne.
    rewrite !getitem_loc. destruct (getitem d1 c); reflexivity.
  - rewrite Htot. f_equal. rewrite <- select_series_eq_length. symmetry.
    apply (wf_getitem _ "run_id"); [apply wf_loc, wf_loc, Hwf1|].
    rewrite getitem_loc, Hsr. reflexivity.
  - rewrite Hrc, (value_counts_constant x _ Hall).
    rewrite <- select_series_eq_length.
    destruct (select (series_eq sr x) sr); reflexivity.
Qed.

Lemma C5_runid_filter_witness :
  "r1"%string <> ""%string /\
  lookup_file "summary_1D.txt" (fs start) = Some summary_1D /\
  wf summary_1D /\
  exists st' d,
    __init__ stable "summary_1D.txt" (Some "r1"%string) false false start
      = (st', inr tt) /\
    df (self st') = Some d /\
    getitem d "run_id" = inr [CStr "r1"; CStr "r1"] /\
    total_reads (self st') = Some 2 /\
    runid_counts (self st') = Some (to_frame "Counts" [(CStr "r1", 2)]).
Proof.
  assert ("r1"%string <> ""%string) as N by discriminate.
  assert (wf summary_1D) as W by (repeat constructor).
  assert (__init__ stable "summary_1D.txt" (Some "r1"%string) false false start
          = (fst (__init__ stable "summary_1D.txt" (Some "r1"%string) false false
                    start), inr tt))
    as Hrun by (vm_compute; reflexivity).
  splits; [exact N|reflexivity|exact W|].
  destruct (C5_runid_filter (srt:=stable) "summary_1D.txt" "r1" false false
              start _ summary_1D N Hrun eq_refl W)
    as (sr0 & d1 & rt & m1 & sr & d & Hsr0 & Hc & _ & _ & Hm1 & Hsr & Hdf & Hs
        & _ & _ & Htot & Hrc).
  exists (fst (__init__ stable "summary_1D.txt" (Some "r1"%string) false false start)),
    d.
  rewrite (Hm1 eq_refl) in Hsr.
  vm_compute in Hc. injection Hc as <- <-.
  vm_compute in Hsr0. injection Hsr0 as <-.
  vm_compute in Hsr. subst sr.
  splits; [exact Hrun|exact Hdf|exact Hs|exact Htot|exact Hrc].
Defined.

(** A read of the run asked for does not make an entry: the one read of run
    "r1" has length zero; with the zero-length filter on it does not reach
    the run-id filter, the table of counts is empty and the total is 0. *)
Example runid_of_zero_length_reads :
  getitem summary_zero_r1 "run_id" = inr [CStr "r1"; CStr "r2"] /\
  __init__ stable "table.txt" (Some "r1"%string) true false
    (start_with summary_zero_r1)
  = ({| fs := [("table.txt"%string, summary_zero_r1)];
        stdout := [];
        self :=
          {| verbose := Some false;
             seq_summary_file := Some "table.txt"%string;
             df := Some
               {| index := [];
                  data := [("run_id"%string, []);
                           ("channel"%string, []);
                           ("start_time"%string, []);
                           ("duration"%string, []);
                           ("num_events"%string, []);
                           ("sequence_length_template"%string, []);
                           ("mean_qscore_template"%string, [])] |};
             run_type := Some "1D"%string;
             zero_len_reads := Some 1;
             runid_counts := Some (to_frame "Counts" []);
             total_reads := Some 0 |} |}, inr tt).
Proof. split; vm_compute; reflexivity. Qed.

(** C6 (as amended). On a table that has neither all the columns of the 1D
    layout nor all those of the 2D layout, the constructor raises an
    [AssertionError] whose message names the first missing column of the 2D
    check.  The first missing column of the 1D check is named on the
    console, in the message printed before the 2D check is tried; it is the
    column that the error names exactly when it is one of the three columns
    that the layouts share, [run_id], [channel] and [start_time].  No run
    type is set. *)
Theorem C6_schema_error {srt : pandas_sort} file runid filter_zero_len v st raw :
  lookup_file file (fs st) = Some raw ->
  ~ incl cols_1D (columns raw) ->
  ~ incl cols_2D (columns raw) ->
  exists st' msg c1 c2,
    __init__ srt file runid filter_zero_len v st = (st', inl (AssertionError msg)) /\
    first_missing cols_2D raw c2 /\ names msg c2 /\
    first_missing cols_1D raw c1 /\
    In ("Column " ++ c1 ++ " not found in the provided sequence_summary file, "
        ++ "trying 2D or 1D^2 column formats...")%string (stdout st') /\
    (names msg c1 <-> In c1 ["run_id"; "channel"; "start_time"]%string) /\
    run_type (self st') = run_type (self st).
Proof.
  intros Hraw H1 H2.
  destruct (assert_columns_missing _ _ H1) as [c1 Hc1].
  destruct (assert_columns_missing _ _ H2) as [c2 Hc2].
  destruct (load_runs file v st raw Hraw) as (st1 & Hl & _ & Hp & Hout).
  unfold after_check in Hl, Hp.
  rewrite !assert_columns_dropna, Hc1, Hc2 in *.
  exists st1, ("Column " ++ c2
               ++ " not found in the provided sequence_summary file")%string,
    c1, c2.
  splits.
  - rewrite init_unfold, Hl. reflexivity.
  - apply assert_columns_Some, Hc2.
  - reflexivity.
  - apply assert_columns_Some, Hc1.
  - apply Hout. reflexivity.
  - unfold names. clear - Hc1 Hc2. cbn in Hc1, Hc2.
    repeat match type of Hc1 with
           | context [contains ?l ?c] =>
               destruct (contains l c); cbn in Hc1, Hc2
           end;
      try discriminate Hc1;
      injection Hc1 as <-;
      repeat match type of Hc2 with
             | context [contains ?l ?c] =>
                 destruct (contains l c); cbn in Hc2
             end;
      try discriminate Hc2;
      injection Hc2 as <-;
      (split; [intros E; vm_compute in E; try discriminate E; vm_compute; tauto
              |intros E; vm_compute in E; try reflexivity; 
               repeat destruct E as [E|E]; try discriminate E; try contradiction]).
  - exact Hp.
Qed.

Lemma C6_schema_error_witness :
  lookup_file "summary_other.txt" (fs start) = Some summary_other /\
  ~ incl cols_1D (columns summary_other) /\
  ~ incl cols_2D (columns summary_other) /\
  exists st' msg c1 c2,
    __init__ stable "summary_other.txt" None false false start
      = (st', inl (AssertionError msg)) /\
    first_missing cols_2D summary_other c2 /\ names msg c2 /\
    first_missing cols_1D summary_other c1 /\
    In ("Column " ++ c1 ++ " not found in the provided sequence_summary file, "
        ++ "trying 2D or 1D^2 column formats...")%string (stdout st') /\
    (names msg c1 <-> In c1 ["run_id"; "channel"; "start_time"]%string) /\
    run_type (self st') = run_type (self start).
Proof.
  assert (~ incl cols_1D (columns summary_other)) as N1
    by (intros H; apply assert_columns_None in H; vm_compute in H;
        discriminate H).
  assert (~ incl cols_2D (columns summary_other)) as N2
    by (intros H; apply assert_columns_None in H; vm_compute in H;
        discriminate H).
  splits; [reflexivity|exact N1|exact N2|].
  exact (C6_schema_error (srt:=stable) "summary_other.txt" None false false start
           summary_other eq_refl N1 N2).
Defined.

(** C6, as the spec states it, fails: on a table that has only the columns
    common to the two layouts, the first column that the 1D check misses is
    [duration], and the message of the error names [sequence_length_2d]. *)
Lemma C6_counterexample :
  ~ (exists msg c1,
       snd (__init__ stable "summary_other.txt" None false false start)
         = inl (AssertionError msg) /\
       first_missing cols_1D summary_other c1 /\ names msg c1).
Proof.
  intros (msg & c1 & H & Hfm & Hn).
  vm_compute in H. injection H as <-.
  apply assert_columns_Some in Hfm. vm_compute in Hfm. injection Hfm as <-.
  unfold names in Hn. vm_compute in Hn. discriminate Hn.
Qed.

(** Where the claim of the spec holds: the table lacks [run_id], a column
    of both layouts; the console and the error name it. *)
Example missing_shared_column :
  __init__ stable "table.txt" None false false (start_with summary_no_run_id)
  = ({| fs := [("table.txt"%string, summary_no_run_id)];
        stdout := [("Column run_id not found in the provided "
                    ++ "sequence_summary file, "
                    ++ "trying 2D or 1D^2 column formats...")%string];
        self :=
          {| verbose := Some false;
             seq_summary_file := Some "table.txt"%string;
             df := Some summary_no_run_id;
             run_type := None;
             zero_len_reads := None;
             runid_counts := None;
             total_reads := None |} |},
     inl (AssertionError
            "Column run_id not found in the provided sequence_summary file")).
Proof. vm_compute. reflexivity. Qed.

(** C7. With both filters on, the zero-length filter runs first.  On the
    table that enters the filters, with [m_len] the mask of the positive
    lengths and [m_run] the mask of the matching run ids: [zero_len_reads]
    counts every row that [m_len] rejects, whatever its run id, and the
    number that the run-id step discards (the rows before it less the rows
    after it, what line 116 prints) counts the rows that [m_len] accepts and
    [m_run] rejects.  A row of length zero is rejected by [m_len]: with a
    run id that does not match it is in the first count and not in the
    second. *)
Theorem C7_filter_order {srt : pandas_sort} file x v st st' raw :
  x <> ""%string ->
  __init__ srt file (Some x) true v st = (st', inr tt) ->
  lookup_file file (fs st) = Some raw -> wf raw ->
  exists d1 rt sl sr m_len total,
    after_check (dropna raw) = inr (d1, rt) /\
    getitem d1 "sequence_length_template" = inr sl /\
    getitem d1 "run_id" = inr sr /\
    series_gt sl 0 = inr m_len /\
    Forall2 (fun c keep => cell_eq_int c 0 = true -> keep = false) sl m_len /\
    zero_len_reads (self st') = Some (removed m_len) /\
    total_reads (self st') = Some total /\
    len (loc d1 m_len) - total =
      length (filter (fun ab => fst ab && negb (snd ab))
                     (combine m_len (series_eq sr x))) /\
    total + removed m_len + (len (loc d1 m_len) - total) = len d1.
Proof.
  intros Hx Hrun Hraw Hwf.
  destruct (init_returns_rows _ _ _ _ _ _ _ Hrun Hraw Hwf)
    as (d1 & rt & m1 & m2 & s & ix & Hc & Hwf1 & L1 & Hon1 & _ & L2 & Hon2 & _
        & _ & _ & _ & _ & _ & Hz & _ & Htot).
  assert (truthy (Some x) = true) as Ht.
  { cbn. destruct (String.eqb_spec x ""); [contradiction|reflexivity]. }
  destruct (Hon1 eq_refl) as (sl & Hsl & Hm1).
  destruct (Hon2 Ht) as (r & sr' & Hr & Hsr' & ->). injection Hr as <-.
  rewrite getitem_loc in Hsr'.
  destruct (getitem d1 "run_id") as [|sr] eqn:Hsr; [discriminate|].
  injection Hsr' as <-.
  assert (series_eq (select m1 sr) x = select m1 (series_eq sr x)) as Em
    by (unfold series_eq; symmetry; apply select_map).
  rewrite Em in *.
  pose proof (len_loc d1 m1 L1) as E1.
  pose proof (len_loc (loc d1 m1) _ L2) as E2.
  rewrite removed_select in E2.
  exists d1, rt, sl, sr, m1,
    (len (loc (loc d1 m1) (select m1 (series_eq sr x)))).
  splits; try assumption; try reflexivity; try lia.
  eapply Forall2_impl; [|apply (mapM_Forall2 _ _ _ Hm1)].
  intros c b. apply cell_zero_not_gt.
Qed.

Lemma C7_filter_order_witness :
  "r1"%string <> ""%string /\
  lookup_file "summary_mixed.txt" (fs start) = Some summary_mixed /\
  wf summary_mixed /\
  exists st' m_len total,
    __init__ stable "summary_mixed.txt" (Some "r1"%string) true false start
      = (st', inr tt) /\
    zero_len_reads (self st') = Some (removed m_len) /\
    total_reads (self st') = Some total.
Proof.
  assert ("r1"%string <> ""%string) as N by discriminate.
  assert (wf summary_mixed) as W by (repeat constructor).
  assert (__init__ stable "summary_mixed.txt" (Some "r1"%string) true false start
          = (fst (__init__ stable "summary_mixed.txt" (Some "r1"%string) true false
                    start), inr tt))
    as Hrun by (vm_compute; reflexivity).
  splits; [exact N|reflexivity|exact W|].
  destruct (C7_filter_order "summary_mixed.txt" "r1" false start _
              summary_mixed N Hrun eq_refl W)
    as (d1 & rt & sl & sr & m_len & total & _ & _ & _ & _ & _ & Hz & Ht & _).
  exists (fst (__init__ stable "summary_mixed.txt" (Some "r1"%string) true false
                 start)), m_len, total.
  splits; [exact Hrun|exact Hz|exact Ht].
Defined.

(** Read B has length zero and belongs to run "r2", read C has a positive
    length and belongs to run "r2": with both filters on and run "r1" asked
    for, B is counted as a zero-length read, and the run-id step reports one
    discarded read, C. *)
Example filter_order_example :
  construct stable "summary_mixed.txt" (Some "r1"%string) true true disk [] =
  (disk,
   ["Importing data"%string;
    (tab ++ "3 reads found in initial file")%string;
    "Checking fields in dataframe"%string;
    (tab ++ "All valid for run type 1D")%string;
    "Filter out zero length reads"%string;
    (tab ++ "1 reads discarded")%string;
    "Selecting reads with Run_ID r1"%string;
    (tab ++ "1 reads discarded")%string;
    "Counting reads per runid"%string;
    (tab ++ "Found 1 runid")%string;
    "Final data cleanup"%string;
    (tab ++ "1 Total valid reads found")%string],
   inr {| verbose := Some true;
          seq_summary_file := Some "summary_mixed.txt"%string;
          df := Some
            {| index := [CStr "A"];
               data := [("run_id"%string, [CStr "r1"]);
                        ("channel"%string, [CInt 5]);
                        ("start_time"%string, [num 0]);
                        ("duration"%string, [num 1]);
                        ("num_events"%string, [CInt 180]);
                        ("sequence_length_template"%string, [CInt 100]);
                        ("mean_qscore_template"%string, [num 9])] |};
          run_type := Some "1D"%string;
          zero_len_reads := Some 1;
          runid_counts := Some
            {| index := [CStr "r1"];
               data := [("Counts"%string, [CInt 1])] |};
          total_reads := Some 1 |}).
Proof. vm_compute. reflexivity. Qed.

(** C8, as the spec states it, fails: the order of the run ids of equal
    count is that of the sort that pandas uses, and the code does not ask
    for a stable one.  With a sort that is not stable, runs "r1" and "r2",
    one read each and met in this order, come out in the other order. *)
Lemma C8_counterexample :
  exists st' d s t,
    __init__ ties_reversed "table.txt" None false false
      (start_with summary_runs) = (st', inr tt) /\
    df (self st') = Some d /\
    getitem d "run_id" = inr s /\
    runid_counts (self st') = Some (to_frame "Counts" t) /\
    s = [CStr "r1"; CStr "r2"; CStr "r3"; CStr "r3"] /\
    t = [(CStr "r3", 2); (CStr "r2", 1); (CStr "r1", 1)] /\
    ~ ForallOrdPairs
        (fun p q =>
           snd q < snd p \/
           (snd q = snd p /\ first_index (fst p) s < first_index (fst q) s)) t.
Proof.
  exists (fst (__init__ ties_reversed "table.txt" None false false
                 (start_with summary_runs))).
  eexists. exists [CStr "r1"; CStr "r2"; CStr "r3"; CStr "r3"],
    [(CStr "r3", 2); (CStr "r2", 1); (CStr "r1", 1)].
  splits; try (vm_compute; reflexivity).
  intros H. inversion H as [|? ? _ H1]; subst.
  inversion H1 as [|? ? H2 _]; subst.
  inversion H2 as [|? ? H3 _]; subst.
  cbn in H3. lia.
Qed.

(** C8 (as amended). The table of counts groups the records of the table
    that the constructor leaves by run id: every record has the entry of its
    run id, each entry holds the number of records of its run id, no run id
    has two entries, and the entries come by descending count.  The order
    of the entries of equal count is that of the sort of pandas: it is the
    order in which their run ids first occur in the table when that sort
    sorts as the stable one does. *)
Theorem C8_runid_counts {srt : pandas_sort} file runid filter_zero_len v st st' raw :
  __init__ srt file runid filter_zero_len v st = (st', inr tt) ->
  lookup_file file (fs st) = Some raw -> wf raw ->
  exists d s t,
    df (self st') = Some d /\
    getitem d "run_id" = inr s /\
    runid_counts (self st') = Some (to_frame "Counts" t) /\
    (forall c, In c s -> exists k n, In (k, n) t /\ cell_eqb k c = true) /\
    (forall k n, In (k, n) t -> n = occurrences k s /\ 0 < n) /\
    ForallOrdPairs (fun p q => cell_eqb (fst p) (fst q) = false) t /\
    StronglySorted (fun p q => snd q <= snd p) t /\
    ((forall l, sort_values srt l = sort_desc l) ->
     ForallOrdPairs
       (fun p q =>
          snd q < snd p \/
          (snd q = snd p /\ first_index (fst p) s < first_index (fst q) s)) t).
Proof.
  intros Hrun Hraw Hwf.
  destruct (init_returns_rows _ _ _ _ _ _ _ Hrun Hraw Hwf)
    as (d1 & rt & m1 & m2 & s & ix & Hc & _ & _ & _ & _ & _ & _ & _ & Hs & _
        & _ & Hdf & _ & _ & Hrc & _).
  assert (Forall (fun x => isna x = false) s) as Hna.
  { rewrite !getitem_loc in Hs.
    rewrite (after_check_getitem _ _ _ "run_id" Hc) in Hs by discriminate.
    destruct (getitem (dropna raw) "run_id") as [|s0] eqn:Hs0; [discriminate|].
    injection Hs as <-. apply Forall_select, Forall_select.
    apply (dropna_notna _ _ _ Hs0). }
  destruct (@value_counts_spec srt s) as (V1 & V2 & V3 & V4).
  eexists. exists s, (value_counts srt s).
  splits; [exact Hdf| |exact Hrc| |exact V1|exact V3|exact V4|].
  - rewrite getitem_labelled by discriminate. exact Hs.
  - intros c Hin. apply V2; [exact Hin|].
    rewrite Forall_forall in Hna. apply Hna, Hin.
  - intros E. unfold value_counts. rewrite E. apply (value_counts_stable s).
Qed.

Lemma C8_runid_counts_witness :
  lookup_file "table.txt" (fs (start_with summary_runs)) = Some summary_runs /\
  wf summary_runs /\
  exists st' d s t,
    __init__ stable "table.txt" None false false (start_with summary_runs)
      = (st', inr tt) /\
    df (self st') = Some d /\
    getitem d "run_id" = inr s /\
    runid_counts (self st') = Some (to_frame "Counts" t) /\
    StronglySorted (fun p q => snd q <= snd p) t /\
    ForallOrdPairs
      (fun p q =>
         snd q < snd p \/
         (snd q = snd p /\ first_index (fst p) s < first_index (fst q) s)) t.
Proof.
  assert (wf summary_runs) as W by (repeat constructor).
  assert (__init__ stable "table.txt" None false false (start_with summary_runs)
          = (fst (__init__ stable "table.txt" None false false
                    (start_with summary_runs)), inr tt))
    as Hrun by (vm_compute; reflexivity).
  splits; [reflexivity|exact W|].
  destruct (C8_runid_counts "table.txt" None false false
              (start_with summary_runs) _ summary_runs Hrun eq_refl W)
    as (d & s & t & Hdf & Hs & Hrc & _ & _ & _ & Hdesc & Hord).
  exists (fst (__init__ stable "table.txt" None false false
                 (start_with summary_runs))), d, s, t.
  splits; [exact Hrun|exact Hdf|exact Hs|exact Hrc|exact Hdesc|].
  apply Hord. intros l. reflexivity.
Defined.

(** Runs "r2" and "r1" have two reads each and "r3" has one: with the stable
    sort "r2", met first, comes first; with the other sort it comes
    second. *)
Example value_counts_ties :
  value_counts stable [CStr "r2"; CStr "r1"; CStr "r3"; CStr "r1"; CStr "r2"] =
  [(CStr "r2", 2); (CStr "r1", 2); (CStr "r3", 1)] /\
  value_counts ties_reversed
    [CStr "r2"; CStr "r1"; CStr "r3"; CStr "r1"; CStr "r2"] =
  [(CStr "r1", 2); (CStr "r2", 2); (CStr "r3", 1)].
Proof. split; reflexivity. Qed.

(** *** Two runs *)





(** C10. The run-id filter is applied only when [runid] is truthy.  With
    [None] or the empty string the selection step does nothing at all, and
    the constructor behaves as it does without a run id: the records are not
    restricted to those whose run id is the empty string. *)
Theorem C10_falsy_runid {srt : pandas_sort} runid :
  truthy runid = false ->
  (forall v st, select_runid runid v st = (st, inr tt)) /\
  (forall file filter_zero_len v st,
     __init__ srt file runid filter_zero_len v st =
     __init__ srt file None filter_zero_len v st).
Proof.
  intros H. destruct runid as [r|].
  - cbn in H. destruct (String.eqb_spec r ""); [subst r|discriminate].
    split; intros; reflexivity.
  - split; intros; reflexivity.
Qed.

Lemma C10_falsy_runid_witness :
  truthy (Some ""%string) = false /\
  __init__ stable "summary_1D.txt" (Some ""%string) false false start =
  __init__ stable "summary_1D.txt" None false false start.
Proof.
  split; [reflexivity|].
  exact (proj2 (C10_falsy_runid (srt:=stable) (Some ""%string) eq_refl)
               "summary_1D.txt"%string false false start).
Defined.

(** With the empty string as run id, the three reads of runs "r1" and "r2"
    are all kept. *)
Example empty_runid_example :
  exists st',
    __init__ stable "summary_1D.txt" (Some ""%string) false false start
      = (st', inr tt) /\
    total_reads (self st') = Some 3 /\
    option_map index (runid_counts (self st')) = Some [CStr "r1"; CStr "r2"].
Proof.
  exists (fst (__init__ stable "summary_1D.txt" (Some ""%string) false false start)).
  splits; vm_compute; reflexivity.
Qed.

(* ===================================================================== *)
(** ** More on the constructor *)
(* ===================================================================== *)

Lemma wf_labelled d ix :
  wf d -> length ix = len d ->
  wf {| index := ix; data := remove_col "read_id" (data d) |}.
Proof.
  unfold wf, len; cbn [index data]. intros H Hix. rewrite Hix.
  induction H as [|[c s] t Hs Ht IH]; cbn [remove_col]; [constructor|].
  destruct (String.eqb c "read_id"); [exact Ht|].
  constructor; assumption.
Qed.

(** How the constructor ends on a table that passes the check and the
    filters: it returns when the table has its read ids, and raises
    [KeyError] in [set_index] when it has not. *)
Lemma init_ends {srt : pandas_sort} file runid filter_zero_len v st raw d1 rt d2 d3 s :
  lookup_file file (fs st) = Some raw ->
  after_check (dropna raw) = inr (d1, rt) ->
  after_filter_zero filter_zero_len d1 = inr d2 ->
  after_select runid d2 = inr d3 ->
  getitem d3 "run_id" = inr s ->
  exists st',
    __init__ srt file runid filter_zero_len v st =
    (st', match lookup_col "read_id" (data d3) with
          | Some _ => inr tt
          | None => inl (KeyError "None of ['read_id'] are in the columns")
          end) /\
    runid_counts (self st') = Some (to_frame "Counts" (value_counts srt s)) /\
    (lookup_col "read_id" (data d3) = None ->
       df (self st') = Some (reset_index d3)).
Proof.
  intros Hraw Hc Hfz Hsel Hs.
  destruct (load_runs file v st raw Hraw) as (st1 & Hl & _ & Hp & _).
  rewrite Hc in Hl, Hp. destruct Hp as [Hd1 _].
  rewrite init_unfold, Hl.
  unfold after_filter_zero in Hfz. unfold after_select in Hsel.
  destruct (lookup_col "read_id" (data d3)) as [ix|] eqn:Hix.
  all: destruct filter_zero_len, v, runid as [r|]; unfold select_runid;
    try destruct (truthy (Some r));
    unfold_stmt; unfold set_index, reset_index; rewrite ?Hd1.
  all: follow_hyp Hfz; injection Hfz as <-.
  all: follow_hyp Hsel; injection Hsel as <-.
  all: run_known; cbn [data]; run_known.
  all: eexists; splits; try reflexivity; try discriminate.
Qed.

Lemma columns_setitem_inv d c s x :
  In x (columns (setitem d c s)) -> x = c \/ In x (columns d).
Proof.
  unfold columns, setitem; cbn [data].
  induction (data d) as [|[c1 s1] t IH]; cbn.
  - intros [<-|[]]. left; reflexivity.
  - destruct (String.eqb c1 c); cbn; tauto.
Qed.

Lemma lookup_col_None c l : ~ In c (map fst l) -> lookup_col c l = None.
Proof.
  induction l as [|[c1 s1] t IH]; cbn; [reflexivity|].
  intros H. destruct (String.eqb_spec c1 c) as [->|_]; [tauto|].
  apply IH. tauto.
Qed.

(** The check adds no column but the four that it estimates or renames. *)
Lemma after_check_columns_inv d d1 rt x :
  after_check d = inr (d1, rt) -> In x (columns d1) ->
  In x (columns d) \/
  In x ["duration"; "num_events"; "sequence_length_template";
        "mean_qscore_template"]%string.
Proof.
  intros H Hx. apply after_check_inv in H
    as [(_ & _ & ->)|(_ & _ & _ & s & q & p & m & _ & _ & _ & _ & ->)];
    [left; exact Hx|].
  repeat (apply columns_setitem_inv in Hx as [->|Hx]; [right; cbn; tauto|]).
  left; exact Hx.
Qed.

(** A table of one of the two layouts whose lengths are numbers passes the
    check and the filters, which leave the columns of the checked table. *)
Lemma filters_pass raw runid filter_zero_len :
  incl cols_1D (columns raw) \/ incl cols_2D (columns raw) ->
  (forall c s,
     (c = "sequence_length_template" \/ c = "sequence_length_2d")%string ->
     getitem raw c = inr s -> Forall is_number s) ->
  exists d1 rt d2 d3 s,
    after_check (dropna raw) = inr (d1, rt) /\
    after_filter_zero filter_zero_len d1 = inr d2 /\
    after_select runid d2 = inr d3 /\
    getitem d3 "run_id" = inr s /\
    columns d3 = columns d1.
Proof.
  intros Hcols Hnum.
  assert (exists d1 rt, after_check (dropna raw) = inr (d1, rt)) as (d1 & rt & Hc).
  { destruct (assert_columns cols_1D raw) as [c1|] eqn:H1.
    - destruct Hcols as [H|H2];
        [apply assert_columns_None in H; congruence|].
      destruct (after_check_2D raw) as [d1 Hd1].
      + intros H. apply assert_columns_None in H. congruence.
      + exact H2.
      + intros s. apply Hnum. right; reflexivity.
      + exists d1. eexists. exact Hd1.
    - unfold after_check. rewrite assert_columns_dropna, H1.
      do 2 eexists; reflexivity. }
  destruct (after_check_lengths _ _ _ Hc) as (c & s & Hcs & Hs & Hs1 & Hrun).
  assert (Forall is_number s) as Hs_num.
  { unfold dropna in Hs. rewrite getitem_loc in Hs.
    destruct (getitem raw c) as [|s0] eqn:Hs0; [discriminate|].
    injection Hs as <-. apply Forall_select, (Hnum c s0 Hcs Hs0). }
  destruct (mapM_total (fun x => cell_gt x 0) is_number s (number_gt 0) Hs_num)
    as [mask Hmask].
  assert (exists d2, after_filter_zero filter_zero_len d1 = inr d2
                     /\ columns d2 = columns d1) as (d2 & Hfz & Hc2).
  { unfold after_filter_zero, series_gt. destruct filter_zero_len.
    - rewrite Hs1, Hmask. eexists. split; [reflexivity|apply columns_loc].
    - eexists. split; reflexivity. }
  assert (exists d3, after_select runid d2 = inr d3
                     /\ columns d3 = columns d2) as (d3 & Hsel & Hc3).
  { unfold after_select. destruct runid as [r|].
    - destruct (truthy (Some r)).
      + destruct (getitem_In d2 "run_id") as [sr ->]; [congruence|].
        eexists. split; [reflexivity|apply columns_loc].
      + eexists. split; reflexivity.
    - eexists. split; reflexivity. }
  destruct (getitem_In d3 "run_id") as [sr Hsr]; [congruence|].
  exists d1, rt, d2, d3, sr. splits; try assumption. congruence.
Qed.

(** X1. On every well-formed table that has the columns of the 1D layout or
    those of the 2D layout, a column [read_id] and numbers as lengths, the
    constructor returns, whatever the run id, the filter and verbosity
    asked for: it leaves a table, a run type, the counts per run id and the
    total of the reads, and the total is the number of rows of the table,
    every column of which has one cell per row. *)
Theorem X1_init_returns {srt : pandas_sort} file runid filter_zero_len v st raw :
  lookup_file file (fs st) = Some raw -> wf raw ->
  incl cols_1D (columns raw) \/ incl cols_2D (columns raw) ->
  In "read_id"%string (columns raw) ->
  (forall c s,
     (c = "sequence_length_template" \/ c = "sequence_length_2d")%string ->
     getitem raw c = inr s -> Forall is_number s) ->
  exists st' d rt counts,
    __init__ srt file runid filter_zero_len v st = (st', inr tt) /\
    df (self st') = Some d /\ wf d /\
    run_type (self st') = Some rt /\ (rt = "1D" \/ rt = "2D")%string /\
    runid_counts (self st') = Some counts /\
    total_reads (self st') = Some (len d).
Proof.
  intros Hraw Hwf Hcols Hrid Hnum.
  destruct (init_total (srt:=srt) file runid filter_zero_len v st raw Hraw Hcols
              Hrid Hnum)
    as [st' Hrun].
  destruct (init_returns_rows _ _ _ _ _ _ _ Hrun Hraw Hwf)
    as (d1 & rt & m1 & m2 & s & ix & Hc & Hwf1 & _ & _ & _ & _ & _ & _ & _ & _
        & Lix & Hdf & Hrt & _ & Hrc & Htot).
  exists st'. do 3 eexists.
  splits; [exact Hrun|exact Hdf| |exact Hrt| |exact Hrc|].
  - apply wf_labelled; [apply wf_loc, wf_loc, Hwf1|exact Lix].
  - apply after_check_inv in Hc as [(_ & -> & _)|(_ & _ & -> & _)]; tauto.
  - rewrite Htot. unfold len at 2; cbn [index]. rewrite Lix. reflexivity.
Qed.

Lemma X1_init_returns_witness :
  lookup_file "summary_2D.txt" (fs start) = Some summary_2D /\
  wf summary_2D /\
  (incl cols_1D (columns summary_2D) \/ incl cols_2D (columns summary_2D)) /\
  In "read_id"%string (columns summary_2D) /\
  exists st',
    __init__ stable "summary_2D.txt" (Some "r1"%string) true true start
      = (st', inr tt).
Proof.
  assert (wf summary_2D) as W by (repeat constructor).
  assert (incl cols_1D (columns summary_2D) \/ incl cols_2D (columns summary_2D))
    as L by (right; apply assert_columns_None; reflexivity).
  assert (In "read_id"%string (columns summary_2D)) as R by (left; reflexivity).
  assert (forall c s,
            (c = "sequence_length_template" \/ c = "sequence_length_2d")%string ->
            getitem summary_2D c = inr s -> Forall is_number s) as Num
    by (intros c s [->| ->] Hs; vm_compute in Hs;
        [discriminate Hs|injection Hs as <-; repeat constructor]).
  splits; [reflexivity|exact W|exact L|exact R|].
  destruct (X1_init_returns (srt:=stable) "summary_2D.txt" (Some "r1"%string) true true start
              summary_2D eq_refl W L R Num) as (st' & _ & _ & _ & Hrun & _).
  exists st'. exact Hrun.
Defined.

(** X2. Neither check of the columns asks for [read_id], and the last step
    needs it: on a table of one of the two layouts, with numbers as lengths
    and no column [read_id], the constructor goes through the check, the
    filters and the count of the reads per run id, and then raises the
    [KeyError] of [set_index], "None of ['read_id'] are in the columns". *)
Theorem X2_missing_read_id {srt : pandas_sort} file runid filter_zero_len v st raw :
  lookup_file file (fs st) = Some raw ->
  incl cols_1D (columns raw) \/ incl cols_2D (columns raw) ->
  (forall c s,
     (c = "sequence_length_template" \/ c = "sequence_length_2d")%string ->
     getitem raw c = inr s -> Forall is_number s) ->
  ~ In "read_id"%string (columns raw) ->
  exists st' rt counts,
    __init__ srt file runid filter_zero_len v st
      = (st', inl (KeyError "None of ['read_id'] are in the columns")) /\
    run_type (self st') = Some rt /\
    runid_counts (self st') = Some counts.
Proof.
  intros Hraw Hcols Hnum Hno.
  destruct (filters_pass raw runid filter_zero_len Hcols Hnum)
    as (d1 & rt & d2 & d3 & s & Hc & Hfz & Hsel & Hs & Hcol).
  assert (lookup_col "read_id" (data d3) = None) as Hnone.
  { apply lookup_col_None. fold (columns d3). rewrite Hcol. intros Hin.
    apply (after_check_columns_inv _ _ _ _ Hc) in Hin as [Hin|Hin].
    - rewrite columns_dropna in Hin. exact (Hno Hin).
    - cbn in Hin. repeat destruct Hin as [Hin|Hin]; try discriminate Hin.
      exact Hin. }
  destruct (init_ends (srt:=srt) file runid filter_zero_len v st raw d1 rt d2 d3 s
              Hraw Hc Hfz Hsel Hs) as (st' & Hrun & Hrc & _).
  rewrite Hnone in Hrun.
  exists st', rt. eexists. splits; [exact Hrun| |exact Hrc].
  pose proof (init_run_type (srt:=srt) file runid filter_zero_len v st raw d1
                rt Hraw Hc) as Hrt.
  rewrite Hrun in Hrt. exact Hrt.
Qed.

Lemma X2_missing_read_id_witness :
  lookup_file "table.txt" (fs (start_with summary_no_id)) = Some summary_no_id /\
  ~ In "read_id"%string (columns summary_no_id) /\
  exists st' rt counts,
    __init__ stable "table.txt" None false false (start_with summary_no_id)
      = (st', inl (KeyError "None of ['read_id'] are in the columns")) /\
    run_type (self st') = Some rt /\
    runid_counts (self st') = Some counts.
Proof.
  assert (incl cols_1D (columns summary_no_id)
          \/ incl cols_2D (columns summary_no_id))
    as L by (left; apply assert_columns_None; reflexivity).
  assert (forall c s,
            (c = "sequence_length_template" \/ c = "sequence_length_2d")%string ->
            getitem summary_no_id c = inr s -> Forall is_number s) as Num
    by (intros c s [->| ->] Hs; vm_compute in Hs;
        [injection Hs as <-; repeat constructor|discriminate Hs]).
  assert (~ In "read_id"%string (columns summary_no_id)) as N
    by (vm_compute; intros H;
        repeat destruct H as [H|H]; try discriminate H; exact H).
  splits; [reflexivity|exact N|].
  exact (X2_missing_read_id (srt:=stable) "table.txt" None false false
           (start_with summary_no_id) summary_no_id eq_refl L Num N).
Defined.

(** *** Estimates are numbers *)

Lemma shr_1_nonneg mrs : (0 <= shr_m mrs)%Z -> (0 <= shr_m (shr_1 mrs))%Z.
Proof.
  destruct mrs as [m r s]; cbn [shr_m].
  destruct m as [|[p|p|]|[p|p|]]; cbn; lia.
Qed.

Lemma iter_pos_invariant {A : Type} (P : A -> Prop) (f : A -> A) :
  (forall x, P x -> P (f x)) -> forall n x, P x -> P (iter_pos f n x).
Proof.
  intros Hf n; induction n as [n IH|n IH|]; intros x Hx; cbn.
  - apply IH, IH, Hf, Hx.
  - apply IH, IH, Hx.
  - apply Hf, Hx.
Qed.

Lemma shr_fexp_nonneg m e l :
  (0 <= m)%Z -> (0 <= shr_m (fst (shr_fexp prec emax m e l)))%Z.
Proof.
  intros Hm. unfold shr_fexp, shr.
  assert (0 <= shr_m (shr_record_of_loc m l))%Z as H0
    by (destruct l as [|[]]; exact Hm).
  destruct (fexp prec emax (Zdigits2 m + e) - e)%Z; cbn [fst]; try exact H0.
  apply (iter_pos_invariant (fun r => 0 <= shr_m r)%Z); [apply shr_1_nonneg|].
  exact H0.
Qed.

Lemma round_nearest_even_nonneg m l :
  (0 <= m)%Z -> (0 <= round_nearest_even m l)%Z.
Proof.
  intros Hm. destruct l as [|[]]; cbn; try lia. destruct (Z.even m); lia.
Qed.

(** Rounding a non-negative significand never gives NaN. *)
Lemma binary_round_aux_number sx mx ex lx :
  (0 <= mx)%Z -> binary_round_aux prec emax sx mx ex lx <> S754_nan.
Proof.
  intros Hm. unfold binary_round_aux.
  pose proof (shr_fexp_nonneg mx ex lx Hm) as H1.
  destruct (shr_fexp prec emax mx ex lx) as [mrs' e']; cbn [fst] in H1.
  pose proof (shr_fexp_nonneg _ e' loc_Exact
                (round_nearest_even_nonneg _ (loc_of_shr_record mrs') H1)) as H2.
  destruct (shr_fexp prec emax
              (round_nearest_even (shr_m mrs') (loc_of_shr_record mrs')) e'
              loc_Exact) as [mrs'' e'']; cbn [fst] in H2.
  destruct (shr_m mrs'') as [|m|m]; [discriminate| |lia].
  destruct (e'' <=? emax - prec)%Z; discriminate.
Qed.

Lemma float_of_int_number z : float_of_int z <> S754_nan.
Proof.
  unfold float_of_int, binary_normalize, binary_round.
  destruct z as [|m|m]; [discriminate| |];
    destruct (shl_align m 0 _) as [mz ez];
    apply binary_round_aux_number; lia.
Qed.

Lemma SFdiv_number x m e :
  x <> S754_nan ->
  SFdiv prec emax x (S754_finite false m e) <> S754_nan.
Proof.
  intros Hx. destruct x as [sx|sx| |sx mx ex]; cbn [SFdiv];
    try discriminate; [congruence|].
  unfold SFdiv_core_binary.
  set (m' := match (ex - e - _)%Z with
             | Zpos _ => _ | Z0 => _ | Zneg _ => _ end).
  assert (0 <= m')%Z as Hm'.
  { subst m'. destruct (ex - e - _)%Z; try lia. apply Z.shiftl_nonneg. lia. }
  pose proof (Z.div_pos m' (Zpos m) Hm' eq_refl) as Hq.
  unfold Z.div in Hq. destruct (Z.div_eucl m' (Zpos m)) as [q r]; cbn [fst] in Hq.
  apply binary_round_aux_number, Hq.
Qed.

Lemma SFmul_number x m e :
  x <> S754_nan ->
  SFmul prec emax x (S754_finite false m e) <> S754_nan.
Proof.
  intros Hx. destruct x as [sx|sx| |sx mx ex]; cbn [SFmul];
    try discriminate; [congruence|].
  apply binary_round_aux_number. lia.
Qed.

Lemma notna_float f : f <> S754_nan -> isna (CFloat f) = false.
Proof. destruct f; cbn; congruence. Qed.

Lemma float_450 :
  float_of_int 450 = S754_finite false 7916483719987200 (-44).
Proof. vm_compute. reflexivity. Qed.

(** The two estimates of a value that is not missing are not missing. *)
Lemma cell_truediv_notna c y :
  cell_truediv c 450 = inr y -> isna c = false -> isna y = false.
Proof.
  destruct c as [z|f|s]; cbn [cell_truediv]; [| |discriminate];
    intros H Hc; injection H as <-.
  all: change (binary_round prec emax false 450 0) with (float_of_int 450);
    rewrite float_450; apply notna_float, SFdiv_number.
  - apply float_of_int_number.
  - intros ->. discriminate.
Qed.

Lemma cell_mul_notna c y :
  cell_mul c float_1_8 = inr y -> isna c = false -> isna y = false.
Proof.
  destruct c as [z|f|s]; cbn [cell_mul]; [| |discriminate];
    intros H Hc; injection H as <-; unfold float_1_8;
    apply notna_float, SFmul_number.
  - apply float_of_int_number.
  - intros ->. discriminate.
Qed.

(** *** No missing value is left *)

Lemma dropna_clean d :
  Forall (fun cs => Forall (fun x => isna x = false) (snd cs))
         (data (dropna d)).
Proof.
  unfold dropna, loc, notna_rows; cbn [data].
  induction (data d) as [|[c1 s1] t IH]; cbn [map fold_right fst snd];
    constructor.
  - cbn [snd]. eapply Forall_impl; [|apply (select_test notna)].
    intros x; unfold notna; destruct (isna x); [discriminate|reflexivity].
  - rewrite Forall_map in IH |- *. eapply Forall_impl; [|exact IH].
    intros [c s]; cbn [fst snd]. apply select_zip_and.
Qed.

Lemma setitem_clean d c s :
  Forall (fun cs => Forall (fun x => isna x = false) (snd cs)) (data d) ->
  Forall (fun x => isna x = false) s ->
  Forall (fun cs => Forall (fun x => isna x = false) (snd cs))
         (data (setitem d c s)).
Proof.
  unfold setitem; cbn [data]. intros H Hs.
  induction H as [|[c1 s1] t H1 Ht IH]; cbn [assign_col].
  - constructor; [exact Hs|constructor].
  - destruct (String.eqb c1 c); constructor; assumption.
Qed.

Lemma loc_clean d m :
  Forall (fun cs => Forall (fun x => isna x = false) (snd cs)) (data d) ->
  Forall (fun cs => Forall (fun x => isna x = false) (snd cs))
         (data (loc d m)).
Proof.
  unfold loc; cbn [data]. intros H. rewrite Forall_map.
  eapply Forall_impl; [|exact H]. intros [c s]; cbn [fst snd].
  apply Forall_select.
Qed.

Lemma remove_col_incl c l x : In x (remove_col c l) -> In x l.
Proof.
  induction l as [|[c1 s1] t IH]; cbn; [tauto|].
  destruct (String.eqb c1 c); cbn; tauto.
Qed.

Lemma Forall2_Forall {A B : Type} (R : A -> B -> Prop) (P : A -> Prop)
    (Q : B -> Prop) l l' :
  (forall x y, R x y -> P x -> Q y) ->
  Forall2 R l l' -> Forall P l -> Forall Q l'.
Proof.
  intros HR H. induction H as [|x y l l' Hxy _ IH]; intros HP; constructor;
    inversion HP; subst; eauto.
Qed.

Lemma after_check_clean raw d1 rt :
  after_check (dropna raw) = inr (d1, rt) ->
  Forall (fun cs => Forall (fun x => isna x = false) (snd cs)) (data d1).
Proof.
  intros H. pose proof (dropna_clean raw) as Hd.
  apply after_check_inv in H
    as [(_ & _ & ->)|(_ & _ & _ & s & q & p & m & Hs & Hq & Hp & Hm & ->)];
    [exact Hd|].
  pose proof (dropna_notna _ _ _ Hs) as Cs.
  pose proof (dropna_notna _ _ _ Hm) as Cm.
  repeat apply setitem_clean; try assumption.
  - eapply Forall2_Forall; [|apply (mapM_Forall2 _ _ _ Hq)|exact Cs].
    intros x y. apply cell_truediv_notna.
  - eapply Forall2_Forall; [|apply (mapM_Forall2 _ _ _ Hp)|exact Cs].
    intros x y. apply cell_mul_notna.
Qed.

(** X3. No missing value survives the constructor: in the table it leaves,
    no label and no cell of any column is NaN, the two columns that the 2D
    layout estimates included. *)
Theorem X3_no_missing_value {srt : pandas_sort} file runid filter_zero_len v st st' raw :
  __init__ srt file runid filter_zero_len v st = (st', inr tt) ->
  lookup_file file (fs st) = Some raw -> wf raw ->
  exists d,
    df (self st') = Some d /\
    Forall (fun x => isna x = false) (index d) /\
    forall c s, In (c, s) (data d) -> Forall (fun x => isna x = false) s.
Proof.
  intros Hrun Hraw Hwf.
  destruct (init_returns_rows _ _ _ _ _ _ _ Hrun Hraw Hwf)
    as (d1 & rt & m1 & m2 & s & ix & Hc & _ & _ & _ & _ & _ & _ & _ & _ & Hix
        & _ & Hdf & _).
  pose proof (loc_clean _ m2 (loc_clean _ m1 (after_check_clean _ _ _ Hc)))
    as Hclean.
  rewrite Forall_forall in Hclean.
  eexists. splits; [exact Hdf| |]; cbn [index data].
  - unfold getitem in Hix.
    destruct (lookup_col "read_id" (data (loc (loc d1 m1) m2))) as [ix'|] eqn:E;
      [|discriminate].
    injection Hix as <-. apply lookup_col_Some in E. apply (Hclean _ E).
  - intros c s0 Hin. apply remove_col_incl in Hin. apply (Hclean _ Hin).
Qed.

Lemma X3_no_missing_value_witness :
  lookup_file "summary_2D.txt" (fs start) = Some summary_2D /\
  wf summary_2D /\
  exists st' d,
    __init__ stable "summary_2D.txt" None false false start = (st', inr tt) /\
    df (self st') = Some d /\
    Forall (fun x => isna x = false) (index d) /\
    forall c s, In (c, s) (data d) -> Forall (fun x => isna x = false) s.
Proof.
  assert (wf summary_2D) as W by (repeat constructor).
  assert (__init__ stable "summary_2D.txt" None false false start
          = (fst (__init__ stable "summary_2D.txt" None false false start), inr tt))
    as Hrun by (vm_compute; reflexivity).
  splits; [reflexivity|exact W|].
  destruct (X3_no_missing_value "summary_2D.txt" None false false start _
              summary_2D Hrun eq_refl W) as (d & Hdf & Hix & Hcols).
  exists (fst (__init__ stable "summary_2D.txt" None false false start)), d.
  splits; [exact Hrun|exact Hdf|exact Hix|exact Hcols].
Defined.

(** *** The counts add up *)

Lemma list_sum_cons n l : list_sum (n :: l) = n + list_sum l.
Proof. reflexivity. Qed.

Lemma count_key_sum k t :
  list_sum (map snd (count_key k t)) = S (list_sum (map snd t)).
Proof.
  induction t as [|[k' n] t IH]; cbn [count_key map snd]; [reflexivity|].
  destruct (cell_eqb k' k); cbn [map snd]; rewrite !list_sum_cons;
    [reflexivity|].
  rewrite IH. lia.
Qed.

Lemma tally_sum s :
  Forall (fun x => isna x = false) s ->
  list_sum (map snd (tally s)) = length s.
Proof.
  unfold tally. intros H.
  assert (forall acc,
    list_sum (map snd
      (fold_left (fun t c => if isna c then t else count_key c t) s acc))
    = list_sum (map snd acc) + length s) as G.
  { induction H as [|c s Hc _ IH]; intros acc; cbn [fold_left length];
      [lia|].
    rewrite Hc, IH, count_key_sum. lia. }
  apply (G []).
Qed.

Lemma sort_values_sum (srt : pandas_sort) l :
  list_sum (map snd (sort_values srt l)) = list_sum (map snd l).
Proof.
  apply Permutation_list_sum, Permutation_map, sort_values_perm.
Qed.

(** X4. The counts per run id add up to the number of valid reads: the sum
    of the column [Counts] of [runid_counts] is [total_reads], so no read
    of the table that the constructor leaves goes uncounted. *)
Theorem X4_counts_add_up {srt : pandas_sort} file runid filter_zero_len v st st' raw :
  __init__ srt file runid filter_zero_len v st = (st', inr tt) ->
  lookup_file file (fs st) = Some raw -> wf raw ->
  exists t,
    runid_counts (self st') = Some (to_frame "Counts" t) /\
    total_reads (self st') = Some (list_sum (map snd t)).
Proof.
  intros Hrun Hraw Hwf.
  destruct (init_returns_rows _ _ _ _ _ _ _ Hrun Hraw Hwf)
    as (d1 & rt & m1 & m2 & s & ix & Hc & Hwf1 & _ & _ & _ & _ & _ & _ & Hs
        & _ & _ & _ & _ & _ & Hrc & Htot).
  exists (value_counts srt s). split; [exact Hrc|].
  rewrite Htot. f_equal. unfold value_counts.
  rewrite sort_values_sum, tally_sum.
  - symmetry. eapply wf_getitem; [|exact Hs]. apply wf_loc, wf_loc, Hwf1.
  - pose proof (loc_clean _ m2 (loc_clean _ m1 (after_check_clean _ _ _ Hc)))
      as Hclean.
    rewrite Forall_forall in Hclean. unfold getitem in Hs.
    destruct (lookup_col "run_id" (data (loc (loc d1 m1) m2))) as [s'|] eqn:E;
      [|discriminate].
    injection Hs as <-. apply lookup_col_Some in E. apply (Hclean _ E).
Qed.

Lemma X4_counts_add_up_witness :
  lookup_file "summary_1D.txt" (fs start) = Some summary_1D /\
  wf summary_1D /\
  exists st' t,
    __init__ stable "summary_1D.txt" None true false start = (st', inr tt) /\
    runid_counts (self st') = Some (to_frame "Counts" t) /\
    total_reads (self st') = Some (list_sum (map snd t)).
Proof.
  assert (wf summary_1D) as W by (repeat constructor).
  assert (__init__ stable "summary_1D.txt" None true false start
          = (fst (__init__ stable "summary_1D.txt" None true false start), inr tt))
    as Hrun by (vm_compute; reflexivity).
  splits; [reflexivity|exact W|].
  destruct (X4_counts_add_up "summary_1D.txt" None true false start _
              summary_1D Hrun eq_refl W) as (t & Hrc & Htot).
  exists (fst (__init__ stable "summary_1D.txt" None true false start)), t.
  splits; [exact Hrun|exact Hrc|exact Htot].
Defined.

(** *** The columns copied for the 2D layout *)

(** X6. On a table of the 2D layout the columns that the rest of the code
    reads are copies: in the table that the constructor leaves,
    [sequence_length_template] is [sequence_length_2d] and
    [mean_qscore_template] is [mean_qscore_2d], row by row, and the two 2D
    columns are still there. *)
Theorem X6_template_copies {srt : pandas_sort} file runid filter_zero_len v st st' raw :
  __init__ srt file runid filter_zero_len v st = (st', inr tt) ->
  lookup_file file (fs st) = Some raw -> wf raw ->
  run_type (self st') = Some "2D"%string ->
  exists d sl q,
    df (self st') = Some d /\
    getitem d "sequence_length_2d" = inr sl /\
    getitem d "sequence_length_template" = inr sl /\
    getitem d "mean_qscore_2d" = inr q /\
    getitem d "mean_qscore_template" = inr q.
Proof.
  intros Hrun Hraw Hwf H2D.
  destruct (init_returns_rows _ _ _ _ _ _ _ Hrun Hraw Hwf)
    as (d1 & rt & m1 & m2 & s & ix & Hc & _ & _ & _ & _ & _ & _ & _ & _
        & _ & _ & Hdf & Hrt & _).
  rewrite Hrt in H2D. injection H2D as ->.
  apply after_check_inv in Hc
    as [(_ & Hrt' & _)|(_ & _ & _ & s0 & q & p & m & Hs & Hq & Hp & Hm & ->)];
    [discriminate Hrt'|].
  eexists. exists (select m2 (select m1 s0)), (select m2 (select m1 m)).
  split; [exact Hdf|].
  rewrite !getitem_labelled by discriminate.
  rewrite !getitem_loc, !getitem_setitem.
  cbn [String.eqb Ascii.eqb Bool.eqb]. rewrite Hs, Hm.
  splits; reflexivity.
Qed.

Lemma X6_template_copies_witness :
  lookup_file "summary_2D.txt" (fs start) = Some summary_2D /\
  wf summary_2D /\
  exists st' d sl q,
    __init__ stable "summary_2D.txt" None true false start = (st', inr tt) /\
    run_type (self st') = Some "2D"%string /\
    df (self st') = Some d /\
    getitem d "sequence_length_2d" = inr sl /\
    getitem d "sequence_length_template" = inr sl /\
    getitem d "mean_qscore_2d" = inr q /\
    getitem d "mean_qscore_template" = inr q.
Proof.
  assert (wf summary_2D) as W by (repeat constructor).
  assert (__init__ stable "summary_2D.txt" None true false start
          = (fst (__init__ stable "summary_2D.txt" None true false start), inr tt))
    as Hrun by (vm_compute; reflexivity).
  assert (run_type (self (fst (__init__ stable "summary_2D.txt" None true false start)))
          = Some "2D"%string) as Hrt by (vm_compute; reflexivity).
  splits; [reflexivity|exact W|].
  destruct (X6_template_copies "summary_2D.txt" None true false start _
              summary_2D Hrun eq_refl W Hrt) as (d & sl & q & H).
  exists (fst (__init__ stable "summary_2D.txt" None true false start)), d, sl, q.
  split; [exact Hrun|]. split; [exact Hrt|exact H].
Defined.

(** *** The console of a quiet run *)

Lemma silent_ret {A : Type} (a : A) : silent (ret a).
Proof. intros st. reflexivity. Qed.

Lemma silent_raise {A : Type} (e : exn) : silent (@raise A e).
Proof. intros st. reflexivity. Qed.

Lemma silent_lift {A : Type} (r : exn + A) : silent (lift r).
Proof. intros st. reflexivity. Qed.

Lemma silent_update_self f : silent (update_self f).
Proof. intros st. reflexivity. Qed.

Lemma silent_getattr {A : Type} name (field : pycoQC -> option A) :
  silent (getattr name field).
Proof. intros st. unfold getattr. destruct (field (self st)); reflexivity. Qed.

Lemma silent_read_csv path : silent (read_csv path).
Proof.
  intros st. unfold read_csv. destruct (lookup_file path (fs st)); reflexivity.
Qed.

Lemma silent_bind {A B : Type} (m : M A) (k : A -> M B) :
  silent m -> (forall a, silent (k a)) -> silent (bind m k).
Proof.
  intros Hm Hk st. unfold bind. specialize (Hm st).
  destruct (m st) as [st1 [e|a]]; cbn [fst] in *; [exact Hm|].
  rewrite Hk. exact Hm.
Qed.

Ltac silent_steps :=
  repeat first
    [ apply silent_bind; [|intro]
    | apply silent_ret
    | apply silent_raise
    | apply silent_lift
    | apply silent_getattr
    | apply silent_read_csv
    | apply silent_update_self
    | match goal with
      | |- silent (match ?x with _ => _ end) => destruct x
      end ].

Lemma silent_filters {srt : pandas_sort} runid filter_zero_len :
  silent (filter_zero_length filter_zero_len false ;;
          select_runid runid false ;;
          count_runid srt false ;;
          final_cleanup false).
Proof.
  unfold filter_zero_length, select_runid, count_runid, final_cleanup,
    setattr_df, setattr_zero_len_reads, setattr_runid_counts,
    setattr_total_reads, when.
  silent_steps.
Qed.

Lemma load_console file st :
  stdout (fst (load file false st)) =
  stdout st ++
  match lookup_file file (fs st) with
  | None => []
  | Some raw =>
      match assert_columns cols_1D raw with
      | None => []
      | Some c =>
          [("Column " ++ c
            ++ " not found in the provided sequence_summary file, "
            ++ "trying 2D or 1D^2 column formats...")%string]
      end
  end.
Proof.
  destruct (lookup_file file (fs st)) as [raw|] eqn:Hraw.
  - rewrite <- (assert_columns_dropna cols_1D raw).
    destruct (assert_columns cols_1D (dropna raw)) as [c|] eqn:H1.
    + unfold load. unfold_stmt. rewrite Hraw. cbn [fs stdout self df fst snd].
      rewrite H1. follow_goal; reflexivity.
    + unfold load. unfold_stmt. rewrite Hraw. cbn [fs stdout self df fst snd].
      rewrite H1. cbn [fs stdout self df run_type fst snd].
      rewrite app_nil_r. reflexivity.
  - unfold load. unfold_stmt. rewrite Hraw. cbn [fst stdout].
    rewrite app_nil_r. reflexivity.
Qed.

(** X5. What a quiet run shows.  With [verbose=False] the constructor
    writes nothing to the console on a table of the 1D layout, and on a file
    that is not there; on any other table it writes one line, the notice
    that a column of the 1D layout is missing and that the 2D layout is
    tried, whether it then returns or raises. *)
Theorem X5_quiet_console {srt : pandas_sort} file runid filter_zero_len st :
  stdout (fst (__init__ srt file runid filter_zero_len false st)) =
  stdout st ++
  match lookup_file file (fs st) with
  | None => []
  | Some raw =>
      match assert_columns cols_1D raw with
      | None => []
      | Some c =>
          [("Column " ++ c
            ++ " not found in the provided sequence_summary file, "
            ++ "trying 2D or 1D^2 column formats...")%string]
      end
  end.
Proof.
  rewrite <- load_console. unfold __init__, bind at 1.
  destruct (load file false st) as [st1 [e|[]]]; [reflexivity|].
  cbn [fst]. apply silent_filters.
Qed.

(* ===================================================================== *)
(** ** The reads per interval *)
(* ===================================================================== *)

(** *** The order of the edges *)

Lemma SFltb_trans a b c :
  SFltb a b = true -> SFltb b c = true -> SFltb a c = true.
Proof.
  unfold SFltb, SFcompare.
  destruct a as [sa|sa| |sa ma ea], b as [sb|sb| |sb mb eb],
    c as [sc|sc| |sc mc ec];
    repeat match goal with b : bool |- _ => destruct b end;
    try discriminate; try reflexivity.
  all: change (Pos.compare_cont Eq) with Pos.compare.
  all: destruct (Z.compare_spec ea eb), (Z.compare_spec eb ec),
         (Z.compare_spec ea ec); try lia; try discriminate; try reflexivity.
  all: destruct (Pos.compare_spec ma mb), (Pos.compare_spec mb mc),
         (Pos.compare_spec ma mc); try lia; try discriminate; try reflexivity.
Qed.

Lemma edge_below_trans a b c :
  edge_below a b -> edge_below b c -> edge_below a c.
Proof.
  intros [H1 F1] [H2 F2]. split; [lia|apply (SFltb_trans _ _ _ F1 F2)].
Qed.

Lemma ascending_strongly bins :
  ascending bins -> StronglySorted edge_below bins.
Proof.
  apply Sorted_StronglySorted. intros a b c. apply edge_below_trans.
Qed.

Lemma edge_lt_number b x : is_number x -> exists r, edge_lt b x = inr r.
Proof. destruct x; cbn; [eexists; reflexivity..|tauto]. Qed.

Lemma edge_lt_below a b x :
  edge_below a b -> edge_lt b x = inr true -> edge_lt a x = inr true.
Proof.
  intros [H F]. destruct x as [z|f|]; cbn; [| |discriminate]; intros E;
    injection E as E; f_equal.
  - apply Z.ltb_lt in E. apply Z.ltb_lt. lia.
  - apply (SFltb_trans _ _ _ F E).
Qed.

(** *** The categories *)

Lemma length_breaks bins : length (breaks bins) = length bins - 1.
Proof.
  induction bins as [|a [|b t] IH]; [reflexivity..|].
  change (breaks (a :: b :: t)) with ((a, b) :: breaks (b :: t)).
  cbn [length] in *. lia.
Qed.

Lemma ascending_monotonic bins : ascending bins -> monotonic bins = true.
Proof.
  induction 1 as [|a t Ht IH Ha]; [reflexivity|].
  cbn [monotonic]. rewrite IH, andb_true_r.
  destruct Ha as [|b t [Hab _]]; [reflexivity|]. apply Z.leb_le. lia.
Qed.

Lemma ascending_unique bins : ascending bins -> unique_edges bins = true.
Proof.
  intros H. apply ascending_strongly in H. unfold unique_edges.
  rewrite nodup_fixed_point; [apply Nat.eqb_refl|].
  induction H as [|a t Ht IH Ha]; constructor; [|exact IH].
  intros Hin. rewrite Forall_forall in Ha. destruct (Ha _ Hin) as [Hlt _]. lia.
Qed.

(** The scan stops after the lower edge of the one interval that holds the
    value. *)
Lemma insertion_point_range bins x :
  StronglySorted edge_below bins -> is_number x ->
  exists id,
    insertion_point bins x = inr id /\ id <= length bins /\
    forall i a b, nth_error (breaks bins) i = Some (a, b) ->
      (id = S i <-> edge_lt a x = inr true /\ edge_lt b x = inr false).
Proof.
  intros H Hx. induction H as [|a t Ht IH Ha]; cbn [insertion_point].
  - exists 0. splits; [reflexivity|cbn; lia|]. intros i ? ? E. cbn [breaks] in E.
    destruct i; discriminate E.
  - destruct IH as (id & Hid & Hle & IH).
    destruct (edge_lt_number a x Hx) as [[|] Ea]; rewrite Ea.
    + rewrite Hid. exists (S id). splits; [reflexivity|cbn; lia|].
      intros i lo hi E. destruct t as [|b t];
        [cbn [breaks] in E; destruct i; discriminate E|].
      change (breaks (a :: b :: t)) with ((a, b) :: breaks (b :: t)) in E.
      destruct i as [|i]; cbn [nth_error] in E.
      * injection E as <- <-. cbn [insertion_point] in Hid.
        destruct (edge_lt_number b x Hx) as [[|] Eb]; rewrite Eb in *.
        -- destruct (insertion_point t x); [discriminate|].
           injection Hid as <-. split; [discriminate|].
           intros [_ Hf]; discriminate Hf.
        -- injection Hid as <-. split; [intros _; split|]; solve [assumption|reflexivity].
      * rewrite <- (IH _ _ _ E). split; [intros G; injection G as ->|intros ->];
          reflexivity.
    + exists 0. splits; [reflexivity|lia|].
      intros i lo hi E. split; [discriminate|]. intros [Hlo _].
      assert (a = lo \/ In lo t) as Hin.
      { clear -E. revert i E. generalize a.
        induction t as [|b t IHt]; intros a0 i E;
          [cbn [breaks] in E; destruct i; discriminate E|].
        change (breaks (a0 :: b :: t)) with ((a0, b) :: breaks (b :: t)) in E.
        destruct i as [|i]; cbn [nth_error] in E.
        - injection E as <- _. left; reflexivity.
        - right. destruct (IHt _ _ E) as [<-|Hin]; [left|right]; auto. }
      destruct Hin as [<-|Hin]; [congruence|].
      rewrite Forall_forall in Ha.
      rewrite (edge_lt_below a lo x (Ha _ Hin) Hlo) in Ea. discriminate Ea.
Qed.

Lemma bin_code_range bins x :
  StronglySorted edge_below bins -> is_number x ->
  exists c,
    bin_code bins x = inr c /\
    forall i a b, nth_error (breaks bins) i = Some (a, b) ->
      notna x && code_is i c = in_range a b x.
Proof.
  intros H Hx. unfold bin_code, searchsorted, in_range, notna.
  destruct (isna x) eqn:Hna.
  - eexists. split; [reflexivity|]. intros i a b _. cbn.
    destruct (edge_lt a x) as [|[|]], (edge_lt b x) as [|[|]]; reflexivity.
  - destruct (insertion_point_range bins x H Hx) as (id & -> & Hle & Hid).
    eexists. split; [reflexivity|]. intros i a b E.
    specialize (Hid i a b E).
    assert (i < length (breaks bins)) as Hi
      by (apply nth_error_Some; rewrite E; discriminate).
    rewrite length_breaks in Hi. cbn [orb negb andb].
    destruct (edge_lt_number a x Hx) as [ra Ea], (edge_lt_number b x Hx) as [rb Eb].
    rewrite Ea, Eb in *.
    destruct (Nat.eqb_spec id (length bins)) as [->|Hn]; cbn [orb].
    + destruct ra, rb; try reflexivity.
      destruct Hid as [_ Hid]. specialize (Hid (conj eq_refl eq_refl)). lia.
    + destruct (Nat.eqb_spec id 0) as [->|H0]; cbn [code_is].
      * destruct ra, rb; try reflexivity.
        destruct Hid as [_ Hid]. specialize (Hid (conj eq_refl eq_refl)). lia.
      * destruct (Nat.eqb_spec (id - 1) i) as [Heq|Hne].
        -- assert (id = S i) as G by lia. apply Hid in G as [G1 G2].
           injection G1 as ->. injection G2 as ->. reflexivity.
        -- destruct ra, rb; try reflexivity.
           destruct Hid as [_ Hid]. specialize (Hid (conj eq_refl eq_refl)). lia.
Qed.

Lemma cut_ascending s bins :
  ascending bins -> Forall is_number s ->
  exists codes,
    cut s bins = inr codes /\
    Forall2 (fun x c => bin_code bins x = inr c) s codes.
Proof.
  intros H Hs. unfold cut.
  rewrite (ascending_monotonic _ H), (ascending_unique _ H). cbn [negb andb].
  destruct (mapM_total (bin_code bins) is_number s) as [codes Hc];
    [|exact Hs|].
  - intros x Hx.
    destruct (bin_code_range bins x (ascending_strongly _ H) Hx) as (c & Hc & _).
    exists c. exact Hc.
  - rewrite Hc. exists codes. split; [reflexivity|apply mapM_Forall2, Hc].
Qed.

Lemma group_count_range bins s codes i a b :
  StronglySorted edge_below bins -> Forall is_number s ->
  Forall2 (fun x c => bin_code bins x = inr c) s codes ->
  nth_error (breaks bins) i = Some (a, b) ->
  group_count s codes i = length (filter (in_range a b) s).
Proof.
  intros H Hs Hc E. unfold group_count.
  induction Hc as [|x c s codes Hx _ IH]; [reflexivity|].
  inversion Hs as [|? ? Nx Ns]; subst. cbn [combine filter fst snd].
  destruct (bin_code_range bins x H Nx) as (c' & Hc' & Hr).
  rewrite Hx in Hc'. injection Hc' as <-.
  rewrite (Hr _ _ _ E). destruct (in_range a b x); cbn [length];
    rewrite (IH Ns); reflexivity.
Qed.

Lemma map_seq_nth {A B : Type} (f : nat -> B) (g : A -> B) (l : list A) :
  (forall i x, nth_error l i = Some x -> f i = g x) ->
  map f (seq 0 (length l)) = map g l.
Proof.
  intros H.
  assert (forall k, (forall i x, nth_error l i = Some x -> f (k + i) = g x) ->
            map f (seq k (length l)) = map g l) as G.
  { clear H. induction l as [|x l IH]; intros k H; [reflexivity|].
    cbn [length seq map]. f_equal.
    - rewrite <- (H 0 x eq_refl). f_equal. lia.
    - apply IH. intros i y E. rewrite <- (H (S i) y E). f_equal. lia. }
  apply (G 0). exact H.
Qed.

Lemma combine_map {A B : Type} (g : A -> B) (l : list A) :
  combine l (map g l) = map (fun x => (x, g x)) l.
Proof.
  induction l as [|x l IH]; [reflexivity|]. cbn [map combine]. rewrite IH.
  reflexivity.
Qed.

Lemma count_per_range_ascending observed name s bins :
  ascending bins -> Forall is_number s ->
  count_per_range observed name s bins =
  inr {| index_name := name;
         ranges := map fst (range_rows observed s bins);
         Count := map snd (range_rows observed s bins) |}.
Proof.
  intros H Hs. unfold count_per_range.
  destruct (cut_ascending s bins H Hs) as (codes & -> & Hc).
  replace (group_rows observed s bins codes)
    with (range_rows observed s bins); [reflexivity|].
  unfold group_rows, range_rows.
  rewrite (map_seq_nth (group_count s codes)
             (fun r => length (filter (in_range (fst r) (snd r)) s))).
  - rewrite combine_map. reflexivity.
  - intros i [a b] E. apply (group_count_range bins); try assumption.
    apply ascending_strongly, H.
Qed.

(** X7. What the two tables count.  For edges in ascending order and a
    column of numbers, the rows of [reads_len_bins] and [reads_qual_bins]
    are pairs of consecutive edges [(a, b]], in order, and the [Count] of a
    row is the number of reads whose length, or mean quality, is above [a]
    and not above [b].  Every such pair has its row when [groupby] keeps the
    categories that hold no value (pandas before version 3); otherwise the
    pairs that hold no read have none. *)
Theorem X7_reads_per_range observed o d bins s q :
  df o = Some d -> ascending bins ->
  getitem d "sequence_length_template" = inr s -> Forall is_number s ->
  getitem d "mean_qscore_template" = inr q -> Forall is_number q ->
  reads_len_bins observed o bins =
    inr {| index_name := "Sequence lenght ranges";
           ranges := map fst (range_rows observed s bins);
           Count := map snd (range_rows observed s bins) |} /\
  reads_qual_bins observed o bins =
    inr {| index_name := "Sequence quality ranges";
           ranges := map fst (range_rows observed q bins);
           Count := map snd (range_rows observed q bins) |}.
Proof.
  intros Hd Hb Hs Ns Hq Nq.
  unfold reads_len_bins, reads_qual_bins, attribute, column.
  rewrite Hd, Hs, Hq. split; apply count_per_range_ascending; assumption.
Qed.

Lemma ascending_len_bins : ascending len_bins.
Proof. repeat constructor; vm_compute; reflexivity. Qed.

Lemma ascending_qual_bins : ascending qual_bins.
Proof. repeat constructor; vm_compute; reflexivity. Qed.

Lemma X7_reads_per_range_witness :
  df (object_of summary_1D) = Some summary_1D /\
  ascending len_bins /\
  (exists s q,
     getitem summary_1D "sequence_length_template" = inr s /\
     Forall is_number s /\
     getitem summary_1D "mean_qscore_template" = inr q /\
     Forall is_number q /\
     reads_len_bins true (object_of summary_1D) len_bins =
       inr {| index_name := "Sequence lenght ranges";
              ranges := [(-1, 0); (50, 100); (100, 500)]%Z;
              Count := [1; 1; 1] |} /\
     reads_len_bins false (object_of summary_1D) len_bins =
       inr {| index_name := "Sequence lenght ranges";
              ranges := breaks len_bins;
              Count := [1; 0; 0; 1; 1; 0; 0; 0; 0; 0] |}).
Proof.
  splits; [reflexivity|exact ascending_len_bins|].
  assert (exists s, getitem summary_1D "sequence_length_template" = inr s /\
                    Forall is_number s) as (s & Hs & Ns)
    by (eexists; split; [reflexivity|repeat constructor]).
  assert (exists q, getitem summary_1D "mean_qscore_template" = inr q /\
                    Forall is_number q) as (q & Hq & Nq)
    by (eexists; split; [reflexivity|repeat constructor]).
  exists s, q. splits; [exact Hs|exact Ns|exact Hq|exact Nq| |].
  - rewrite (proj1 (X7_reads_per_range true (object_of summary_1D) summary_1D
                      len_bins s q eq_refl ascending_len_bins Hs Ns Hq Nq)).
    injection Hs as <-. vm_compute. reflexivity.
  - rewrite (proj1 (X7_reads_per_range false (object_of summary_1D) summary_1D
                      len_bins s q eq_refl ascending_len_bins Hs Ns Hq Nq)).
    injection Hs as <-. vm_compute. reflexivity.
Defined.

(** *** The reads that no row counts *)

Lemma in_range_split a b c x :
  is_number x -> edge_below a b -> edge_below b c ->
  (if in_range a b x then 1 else 0) + (if in_range b c x then 1 else 0)
  = if in_range a c x then 1 else 0.
Proof.
  intros Hx Hab Hbc. unfold in_range.
  destruct (edge_lt_number a x Hx) as [ra Ea],
    (edge_lt_number b x Hx) as [rb Eb], (edge_lt_number c x Hx) as [rc Ec].
  pose proof (edge_lt_below a b x Hab) as Tab.
  pose proof (edge_lt_below b c x Hbc) as Tbc.
  rewrite Ea, Eb, Ec in *.
  destruct ra, rb, rc; try reflexivity;
    try (specialize (Tab eq_refl); discriminate Tab);
    try (specialize (Tbc eq_refl); discriminate Tbc);
    destruct (notna x); reflexivity.
Qed.

Lemma filter_length_sum {A : Type} (p : A -> bool) (l : list A) :
  length (filter p l) = list_sum (map (fun x => if p x then 1 else 0) l).
Proof.
  induction l as [|x l IH]; [reflexivity|].
  cbn [filter map]. rewrite list_sum_cons.
  destruct (p x); cbn [length]; rewrite IH; reflexivity.
Qed.

Lemma in_range_join a b c s :
  Forall is_number s -> edge_below a b -> edge_below b c ->
  length (filter (in_range a b) s) + length (filter (in_range b c) s)
  = length (filter (in_range a c) s).
Proof.
  intros Hs Hab Hbc. rewrite !filter_length_sum.
  induction Hs as [|x s Hx _ IH]; [reflexivity|].
  cbn [map]. rewrite !list_sum_cons.
  rewrite <- (in_range_split a b c x Hx Hab Hbc). lia.
Qed.

Lemma in_range_empty a x : in_range a a x = false.
Proof.
  unfold in_range. destruct (edge_lt a x) as [|[|]]; reflexivity.
Qed.

Lemma filter_none {A : Type} (p : A -> bool) (l : list A) :
  (forall x, p x = false) -> filter p l = [].
Proof.
  intros H. induction l as [|x l IH]; [reflexivity|].
  cbn [filter]. rewrite H. exact IH.
Qed.

Lemma filter_none_on {A : Type} (p : A -> bool) (l : list A) :
  Forall (fun x => p x = false) l -> filter p l = [].
Proof.
  induction 1 as [|x l Hx _ IH]; [reflexivity|].
  cbn [filter]. rewrite Hx. exact IH.
Qed.

Lemma counts_sum_range bins s :
  StronglySorted edge_below bins -> Forall is_number s ->
  list_sum (map (fun r => length (filter (in_range (fst r) (snd r)) s))
                (breaks bins))
  = length (filter (in_range (hd 0%Z bins) (last bins 0%Z)) s).
Proof.
  intros H Hs. induction H as [|a t Ht IH Ha].
  - cbn. rewrite filter_none; [reflexivity|apply in_range_empty].
  - destruct t as [|b t].
    + cbn. rewrite filter_none; [reflexivity|apply in_range_empty].
    + change (breaks (a :: b :: t)) with ((a, b) :: breaks (b :: t)).
      cbn [map fst snd]. rewrite list_sum_cons, IH.
      change (hd 0%Z (a :: b :: t)) with a.
      change (hd 0%Z (b :: t)) with b.
      change (last (a :: b :: t) 0%Z) with (last (b :: t) 0%Z).
      inversion Ha as [|? ? Hab Hat]; subst.
      destruct t as [|c t].
      * cbn [last]. rewrite (filter_none (in_range b b));
          [cbn; lia|apply in_range_empty].
      * apply in_range_join; [exact Hs|exact Hab|].
        inversion Ht as [|? ? _ Hbt]; subst.
        rewrite Forall_forall in Hbt. apply Hbt.
        change (last (b :: c :: t) 0%Z) with (last (c :: t) 0%Z).
        clear. generalize c. induction t as [|y t IHt]; intros c0;
          [left; reflexivity|].
        change (last (c0 :: y :: t) 0%Z) with (last (y :: t) 0%Z).
        right. apply IHt.
Qed.

(** Rows without a read add nothing to the sum. *)
Lemma range_rows_sum observed s bins :
  list_sum (map snd (range_rows observed s bins))
  = list_sum (map (fun r => length (filter (in_range (fst r) (snd r)) s))
                  (breaks bins)).
Proof.
  unfold range_rows. destruct observed.
  - induction (breaks bins) as [|r l IH]; [reflexivity|].
    cbn [map filter snd].
    destruct (Nat.ltb_spec 0 (length (filter (in_range (fst r) (snd r)) s)))
      as [Hpos|Hzero]; cbn [map snd]; rewrite !list_sum_cons, IH; lia.
  - rewrite map_map. reflexivity.
Qed.

(** X8. The rows leave out the reads beyond the edges.  For edges in
    ascending order and a column of numbers, the counts of the rows add up
    to the number of reads whose value is above the first edge and not
    above the last: a read beyond the last edge, or at or below the first,
    is in no row, so with the default edges a read longer than 10,000,000
    bases, or of mean quality above 40, is not counted. *)
Theorem X8_reads_counted observed o d bins s q :
  df o = Some d -> ascending bins ->
  getitem d "sequence_length_template" = inr s -> Forall is_number s ->
  getitem d "mean_qscore_template" = inr q -> Forall is_number q ->
  exists f g,
    reads_len_bins observed o bins = inr f /\
    list_sum (Count f)
      = length (filter (in_range (hd 0%Z bins) (last bins 0%Z)) s) /\
    reads_qual_bins observed o bins = inr g /\
    list_sum (Count g)
      = length (filter (in_range (hd 0%Z bins) (last bins 0%Z)) q).
Proof.
  intros Hd Hb Hs Ns Hq Nq.
  unfold reads_len_bins, reads_qual_bins, attribute, column.
  rewrite Hd, Hs, Hq.
  rewrite !count_per_range_ascending by assumption.
  do 2 eexists. cbn [Count].
  splits; [reflexivity| |reflexivity|];
    cbn [Count]; rewrite range_rows_sum;
    apply counts_sum_range; try assumption; apply ascending_strongly, Hb.
Qed.

Lemma X8_reads_counted_witness :
  df (object_of summary_1D) = Some summary_1D /\
  ascending qual_bins /\
  (exists s q f g,
     getitem summary_1D "sequence_length_template" = inr s /\
     Forall is_number s /\
     getitem summary_1D "mean_qscore_template" = inr q /\
     Forall is_number q /\
     reads_len_bins true (object_of summary_1D) qual_bins = inr f /\
     list_sum (Count f)
       = length (filter (in_range (hd 0%Z qual_bins) (last qual_bins 0%Z)) s)
     /\
     reads_qual_bins true (object_of summary_1D) qual_bins = inr g /\
     list_sum (Count g)
       = length (filter (in_range (hd 0%Z qual_bins) (last qual_bins 0%Z)) q)).
Proof.
  splits; [reflexivity|exact ascending_qual_bins|].
  assert (exists s, getitem summary_1D "sequence_length_template" = inr s /\
                    Forall is_number s) as (s & Hs & Ns)
    by (eexists; split; [reflexivity|repeat constructor]).
  assert (exists q, getitem summary_1D "mean_qscore_template" = inr q /\
                    Forall is_number q) as (q & Hq & Nq)
    by (eexists; split; [reflexivity|repeat constructor]).
  destruct (X8_reads_counted true (object_of summary_1D) summary_1D qual_bins s q
              eq_refl ascending_qual_bins Hs Ns Hq Nq) as (f & g & H).
  exists s, q, f, g. splits; try assumption; apply H.
Defined.

(** *** After the constructor *)

Lemma cell_gt_edge_lt c n b : cell_gt c n = inr b -> edge_lt n c = inr b.
Proof. destruct c; cbn; [auto..|discriminate]. Qed.

Lemma cell_gt_number c n b : cell_gt c n = inr b -> is_number c.
Proof. destruct c; cbn; [auto..|discriminate]. Qed.

Lemma range_rows_In observed s bins r n :
  In (r, n) (range_rows observed s bins) ->
  In r (breaks bins) /\ n = length (filter (in_range (fst r) (snd r)) s) /\
  (observed = true -> 0 < n).
Proof.
  unfold range_rows. intros H.
  assert (In (r, n)
            (map (fun r => (r, length (filter (in_range (fst r) (snd r)) s)))
                 (breaks bins)) /\ (observed = true -> 0 < n)) as [Hin Hpos].
  { destruct observed.
    - apply filter_In in H as [H Hn]. split; [exact H|].
      intros _. apply Nat.ltb_lt in Hn. exact Hn.
    - split; [exact H|discriminate]. }
  apply in_map_iff in Hin as (r' & E & Hr). injection E as -> <-.
  splits; [exact Hr|reflexivity|exact Hpos].
Qed.

Lemma combine_fst_snd {A B : Type} (l : list (A * B)) :
  combine (map fst l) (map snd l) = l.
Proof.
  induction l as [|[a b] l IH]; [reflexivity|]. cbn [map combine fst snd].
  rewrite IH. reflexivity.
Qed.

(** X9. The two steps compose: on the object of a constructor that was
    told to drop the reads of length zero, [reads_len_bins] with its default
    edges returns a table that counts no read in the interval [(-1, 0]]:
    the row of that interval is the first one and its [Count] is 0 when
    [groupby] keeps the categories that hold no value (pandas before
    version 3), and the table has no such row otherwise. *)
Theorem X9_no_read_of_length_zero {srt : pandas_sort} observed file runid v st st' raw :
  __init__ srt file runid true v st = (st', inr tt) ->
  lookup_file file (fs st) = Some raw -> wf raw ->
  exists f,
    reads_len_bins observed (self st') len_bins = inr f /\
    (forall n, In ((-1, 0)%Z, n) (combine (ranges f) (Count f)) -> n = 0) /\
    (observed = true -> ~ In (-1, 0)%Z (ranges f)) /\
    (observed = false ->
     hd_error (ranges f) = Some (-1, 0)%Z /\ hd_error (Count f) = Some 0).
Proof.
  intros Hrun Hraw Hwf.
  destruct (init_returns_rows _ _ _ _ _ _ _ Hrun Hraw Hwf)
    as (d1 & rt & m1 & m2 & s & ix & Hc & Hwf1 & L1 & Hon1 & _ & _ & _ & _ & _
        & _ & _ & Hdf & _).
  destruct (Hon1 eq_refl) as (sl & Hsl & Hm1).
  pose proof (mapM_select_true _ _ _ Hm1) as Hpos.
  apply (Forall_select _ m2) in Hpos.
  assert (Forall is_number (select m2 (select m1 sl))) as Hnum.
  { eapply Forall_impl; [|exact Hpos]. intros c. apply cell_gt_number. }
  assert (length (filter (in_range (-1) 0) (select m2 (select m1 sl))) = 0)
    as Hzero.
  { rewrite filter_none_on; [reflexivity|].
    eapply Forall_impl; [|exact Hpos]. intros c Hc0.
    unfold in_range. rewrite (cell_gt_edge_lt _ _ _ Hc0).
    destruct (edge_lt (-1) c) as [|[|]]; reflexivity. }
  unfold reads_len_bins, attribute, column. rewrite Hdf.
  rewrite getitem_labelled by discriminate.
  rewrite !getitem_loc, Hsl.
  rewrite count_per_range_ascending by (exact ascending_len_bins || exact Hnum).
  eexists. split; [reflexivity|]. cbn [ranges Count].
  rewrite combine_fst_snd. splits.
  - intros n Hin. apply range_rows_In in Hin as (_ & -> & _). exact Hzero.
  - intros -> Hin. apply in_map_iff in Hin as ([r n] & E & Hin).
    cbn [fst] in E. subst r.
    apply range_rows_In in Hin as (_ & -> & Hn). specialize (Hn eq_refl).
    cbn [fst snd] in Hn. lia.
  - intros ->. unfold range_rows.
    change (breaks len_bins) with ((-1, 0)%Z :: breaks (tl len_bins)).
    cbn [map hd_error fst snd]. rewrite Hzero. split; reflexivity.
Qed.

Lemma X9_no_read_of_length_zero_witness :
  lookup_file "summary_1D.txt" (fs start) = Some summary_1D /\
  wf summary_1D /\
  exists st' f,
    __init__ stable "summary_1D.txt" None true false start = (st', inr tt) /\
    reads_len_bins true (self st') len_bins = inr f /\
    (forall n, In ((-1, 0)%Z, n) (combine (ranges f) (Count f)) -> n = 0) /\
    ~ In (-1, 0)%Z (ranges f).
Proof.
  assert (wf summary_1D) as W by (repeat constructor).
  assert (__init__ stable "summary_1D.txt" None true false start
          = (fst (__init__ stable "summary_1D.txt" None true false start), inr tt))
    as Hrun by (vm_compute; reflexivity).
  splits; [reflexivity|exact W|].
  destruct (X9_no_read_of_length_zero true "summary_1D.txt" None false start _
              summary_1D Hrun eq_refl W) as (f & Hf & Hn & Habs & _).
  exists (fst (__init__ stable "summary_1D.txt" None true false start)), f.
  splits; [exact Hrun|exact Hf|exact Hn|exact (Habs eq_refl)].
Defined.

(* ===================================================================== *)
(** ** The reads per channel *)
(* ===================================================================== *)

(** *** The channels of [range] *)

Lemma range_In a b z : In z (range a b) <-> (a <= z < b)%Z.
Proof.
  unfold range. rewrite in_map_iff. split.
  - intros (k & <- & Hk). apply in_seq in Hk. lia.
  - intros H. exists (Z.to_nat (z - a)). split; [lia|].
    apply in_seq. lia.
Qed.

Lemma range_sorted a b : StronglySorted Z.lt (range a b).
Proof.
  unfold range. generalize (Z.to_nat (b - a)) as n. intros n.
  assert (forall k, StronglySorted Z.lt
            (map (fun i => (a + Z.of_nat i)%Z) (seq k n))) as G.
  { induction n as [|n IH]; intros k; cbn [seq map]; constructor.
    - apply IH.
    - apply Forall_forall. intros z Hz. apply in_map_iff in Hz
        as (i & <- & Hi). apply in_seq in Hi. lia. }
  apply G.
Qed.

Lemma range_length a b : length (range a b) = Z.to_nat (b - a).
Proof. unfold range. rewrite length_map, length_seq. reflexivity. Qed.

Lemma range_nth a b k :
  k < Z.to_nat (b - a) -> nth k (range a b) 0%Z = (a + Z.of_nat k)%Z.
Proof.
  intros H. unfold range.
  rewrite (nth_indep _ 0%Z (a + Z.of_nat 0)%Z)
    by (rewrite length_map, length_seq; exact H).
  rewrite (map_nth (fun i => (a + Z.of_nat i)%Z) _ 0 k).
  rewrite seq_nth by exact H. reflexivity.
Qed.

Lemma sorted_NoDup l : StronglySorted Z.lt l -> NoDup l.
Proof.
  induction 1 as [|a t Ht IH Ha]; constructor; [|exact IH].
  intros Hin. rewrite Forall_forall in Ha. specialize (Ha _ Hin). lia.
Qed.

(** Two lists in strictly ascending order that hold the same numbers are
    equal. *)
Lemma sorted_ext l1 l2 :
  StronglySorted Z.lt l1 -> StronglySorted Z.lt l2 ->
  (forall z, In z l1 <-> In z l2) -> l1 = l2.
Proof.
  intros H1. revert l2. induction H1 as [|a t Ht IH Ha]; intros l2 H2 E.
  - destruct l2 as [|b u]; [reflexivity|].
    destruct (proj2 (E b) (or_introl eq_refl)).
  - destruct H2 as [|b u Hu Hb].
    + destruct (proj1 (E a) (or_introl eq_refl)).
    + rewrite Forall_forall in Ha, Hb.
      assert (a = b) as ->.
      { destruct (proj1 (E a) (or_introl eq_refl)) as [Hab|Hab];
          [symmetry; exact Hab|].
        destruct (proj2 (E b) (or_introl eq_refl)) as [Hba|Hba];
          [exact Hba|].
        specialize (Ha _ Hba). specialize (Hb _ Hab). lia. }
      f_equal. apply IH; [exact Hu|]. intros z. split; intros Hz.
      * destruct (proj1 (E z) (or_intror Hz)) as [<-|G]; [|exact G].
        specialize (Ha _ Hz). lia.
      * destruct (proj2 (E z) (or_intror Hz)) as [<-|G]; [|exact G].
        specialize (Hb _ Hz). lia.
Qed.

(** *** The channels that have a read *)

Lemma cell_eqb_int k z : cell_eqb k (CInt z) = true -> k = CInt z.
Proof.
  destruct k as [x|f|t]; cbn; try discriminate.
  intros H. apply Z.eqb_eq in H. subst. reflexivity.
Qed.

Lemma occurrences_In k s :
  0 < occurrences k s -> exists c, In c s /\ cell_eqb k c = true.
Proof.
  unfold occurrences. intros H.
  destruct (filter (cell_eqb k) s) as [|c l] eqn:E; [cbn in H; lia|].
  assert (In c (filter (cell_eqb k) s)) as Hin by (rewrite E; left; reflexivity).
  apply filter_In in Hin. exists c. exact Hin.
Qed.

Lemma is_int_notna c : is_int c -> isna c = false.
Proof. destruct c; cbn; [reflexivity|tauto..]. Qed.

Lemma FOP_NoDup {A : Type} (R : A -> A -> Prop) (l : list A) :
  (forall x, ~ R x x) -> ForallOrdPairs R l -> NoDup l.
Proof.
  intros Hirr. induction 1 as [|a t Ha _ IH]; constructor; [|exact IH].
  intros Hin. rewrite Forall_forall in Ha. apply (Hirr a), Ha, Hin.
Qed.

(** The channels with a read, each once. *)
Lemma tally_int chan :
  Forall is_int chan ->
  exists ks,
    map fst (tally chan) = map CInt ks /\ NoDup ks /\
    (forall z, In z ks <-> In (CInt z) chan) /\
    (forall z n, In (CInt z, n) (tally chan) -> n = occurrences (CInt z) chan).
Proof.
  intros Hint. destruct (tally_counts chan) as (H1 & H2 & H3).
  rewrite Forall_forall in Hint.
  assert (forall k n, In (k, n) (tally chan) ->
            exists z, k = CInt z /\ In (CInt z) chan) as Hk.
  { intros k n Hin. destruct (H1 _ _ Hin) as [-> Hpos].
    apply occurrences_In in Hpos as (c & Hc & E).
    pose proof (Hint _ Hc) as Hi. destruct c as [z| |]; cbn in Hi; try tauto.
    exists z. apply cell_eqb_int in E. subst. split; [reflexivity|exact Hc]. }
  assert (NoDup (map fst (tally chan))) as Hnd.
  { apply (FOP_NoDup (fun a b => first_index a chan < first_index b chan));
      [intros x; lia|].
    clear -H3. induction H3 as [|p t Hp _ IH]; cbn [map]; constructor;
      [|exact IH].
    rewrite Forall_map. exact Hp. }
  clear H3. remember (tally chan) as t eqn:Et. clear Et.
  assert (exists ks, map fst t = map CInt ks) as [ks Hks].
  { clear Hnd H2 H1. induction t as [|[k n] t IH].
    - exists []. reflexivity.
    - destruct IH as [ks IH];
        [intros k' n' Hin; apply (Hk k' n'); right; exact Hin|].
      destruct (Hk k n (or_introl eq_refl)) as (z & -> & _).
      exists (z :: ks). cbn [map fst]. rewrite IH. reflexivity. }
  exists ks. splits; [exact Hks| | |].
  - rewrite Hks in Hnd. apply NoDup_map_inv in Hnd. exact Hnd.
  - intros z. split.
    + intros Hz. apply (in_map CInt) in Hz. rewrite <- Hks in Hz.
      apply in_map_iff in Hz as ([k n] & E & Hin). cbn [fst] in E. subst k.
      destruct (Hk _ _ Hin) as (z' & E & Hc). injection E as ->. exact Hc.
    + intros Hz.
      destruct (H2 _ Hz (is_int_notna _ (Hint _ Hz))) as (k & n & Hin & E).
      apply cell_eqb_int in E. subst k.
      apply (in_map fst) in Hin. cbn [fst] in Hin. rewrite Hks in Hin.
      apply in_map_iff in Hin as (z' & E & Hin). injection E as ->. exact Hin.
  - intros z n Hin. apply (H1 _ _ Hin).
Qed.

(** *** The channels that are filled in *)

Lemma has_label_int s ks i :
  map fst s = map CInt ks ->
  has_label s i = existsb (fun k => Z.eqb k i) ks.
Proof.
  unfold has_label. revert ks. induction s as [|[k v] s IH]; intros ks E.
  - destruct ks; [reflexivity|discriminate E].
  - destruct ks as [|z ks]; [discriminate E|].
    cbn [map fst] in E. injection E as -> E.
    cbn [existsb fst cell_eq_int]. rewrite (IH _ E). reflexivity.
Qed.

Lemma new_label_int s ks i : map fst s = map CInt ks -> new_label s i = CInt i.
Proof.
  unfold new_label. destruct s as [|[k v] s]; [reflexivity|].
  destruct ks as [|z ks]; [discriminate|]. cbn [map fst].
  intros E. injection E as -> _. reflexivity.
Qed.

Lemma zero_like_app s l : zero_like (s ++ [(l, zero_like s)]) = zero_like s.
Proof.
  unfold zero_like. rewrite existsb_app. cbn [existsb snd].
  destruct (existsb (fun kv => is_float (snd kv)) s); reflexivity.
Qed.

Lemma fill_fold chans s ks :
  map fst s = map CInt ks -> NoDup chans ->
  fold_left
    (fun s i =>
       if has_label s i then s else s ++ [(new_label s i, zero_like s)])
    chans s
  = s ++ map (fun i => (CInt i, zero_like s))
             (filter (fun i => negb (existsb (fun k => Z.eqb k i) ks)) chans).
Proof.
  intros E H. revert s ks E.
  induction H as [|i chans Hi _ IH]; intros s ks E; cbn [fold_left filter].
  - cbn [map]. rewrite app_nil_r. reflexivity.
  - rewrite (has_label_int s ks i E).
    destruct (existsb (fun k => Z.eqb k i) ks) eqn:M; cbn [negb].
    + apply IH, E.
    + rewrite (new_label_int s ks i E).
      rewrite (IH _ (ks ++ [i])).
      * rewrite zero_like_app, <- app_assoc. cbn [map app]. do 3 f_equal.
        apply filter_ext_in. intros j Hj. rewrite existsb_app.
        cbn [existsb]. rewrite orb_false_r.
        destruct (Z.eqb_spec i j) as [->|_]; [contradiction|].
        rewrite orb_false_r. reflexivity.
      * rewrite !map_app, E. reflexivity.
Qed.

Lemma fill_missing_int s ks :
  map fst s = map CInt ks ->
  fill_missing s
  = s ++ map (fun i => (CInt i, zero_like s))
             (filter (fun i => negb (existsb (fun k => Z.eqb k i) ks))
                     (range 1 512)).
Proof.
  intros E. apply fill_fold; [exact E|].
  apply sorted_NoDup, range_sorted.
Qed.

Lemma filter_or_length {A : Type} (p q : A -> bool) (l : list A) :
  (forall x, In x l -> p x = true -> q x = false) ->
  length (filter (fun x => p x || q x) l)
  = length (filter p l) + length (filter q l).
Proof.
  induction l as [|x l IH]; intros H; [reflexivity|].
  cbn [filter]. specialize (IH (fun y Hy => H y (or_intror Hy))).
  pose proof (H x (or_introl eq_refl)) as Hx.
  destruct (p x), (q x); cbn [orb length]; try lia;
    specialize (Hx eq_refl); discriminate Hx.
Qed.

Lemma filter_eq_length k l :
  NoDup l ->
  length (filter (fun i => Z.eqb k i) l)
  = if existsb (fun i => Z.eqb k i) l then 1 else 0.
Proof.
  induction 1 as [|i l Hi _ IH]; [reflexivity|].
  cbn [filter existsb]. destruct (Z.eqb_spec k i) as [->|Hne]; cbn [orb length].
  - rewrite IH.
    destruct (existsb (fun j => Z.eqb i j) l) eqn:M; [|reflexivity].
    apply existsb_exists in M as (j & Hj & Ej). apply Z.eqb_eq in Ej.
    subst. contradiction.
  - exact IH.
Qed.

(** As many channels of [chans] have a read as reads' channels are in
    [chans]. *)
Lemma filter_mem_length ks chans :
  NoDup ks -> NoDup chans ->
  length (filter (fun i => existsb (fun k => Z.eqb k i) ks) chans)
  = length (filter (fun k => existsb (fun i => Z.eqb k i) chans) ks).
Proof.
  intros Hks Hc. induction Hks as [|k ks Hk _ IH].
  - cbn [existsb filter]. rewrite filter_none; [reflexivity|reflexivity].
  - cbn [existsb filter].
    rewrite (filter_or_length (fun i => Z.eqb k i)).
    + rewrite IH, (filter_eq_length k chans Hc).
      destruct (existsb (fun i => Z.eqb k i) chans); reflexivity.
    + intros i _ E. apply Z.eqb_eq in E. subst i.
      destruct (existsb (fun k0 => Z.eqb k0 k) ks) eqn:M; [|reflexivity].
      apply existsb_exists in M as (j & Hj & Ej). apply Z.eqb_eq in Ej.
      subst. contradiction.
Qed.

Lemma existsb_range k :
  existsb (fun i => Z.eqb k i) (range 1 512) = ((1 <=? k) && (k <=? 511))%Z.
Proof.
  destruct ((1 <=? k) && (k <=? 511))%Z eqn:E.
  - apply existsb_exists. exists k. split; [|apply Z.eqb_refl].
    apply range_In. lia.
  - destruct (existsb (fun i => Z.eqb k i) (range 1 512)) eqn:M;
      [|reflexivity].
    apply existsb_exists in M as (j & Hj & Ej). apply Z.eqb_eq in Ej. subst j.
    apply range_In in Hj. lia.
Qed.

(** The filled series has the 511 channels of [range(1, 512)] and the other
    channels that have a read. *)
Lemma fill_missing_length s ks :
  map fst s = map CInt ks -> NoDup ks ->
  length (fill_missing s)
  = 511 + length (filter (fun k => negb ((1 <=? k) && (k <=? 511))%Z) ks).
Proof.
  intros E Hks. rewrite (fill_missing_int s ks E).
  rewrite length_app, length_map.
  assert (length s = length ks) as ->
    by (rewrite <- (length_map fst s), E; apply length_map).
  pose proof (filter_length (fun i => existsb (fun k => Z.eqb k i) ks)
                (range 1 512)) as F1.
  rewrite range_length in F1.
  rewrite (filter_mem_length ks _ Hks (sorted_NoDup _ (range_sorted 1 512)))
    in F1.
  rewrite (filter_ext _ _ existsb_range) in F1.
  pose proof (filter_length (fun k => ((1 <=? k) && (k <=? 511))%Z) ks) as F2.
  change (Z.to_nat (512 - 1)) with 511 in F1. lia.
Qed.

(** *** The sort by channel *)

Lemma insert_label_length x l r :
  insert_label x l = inr r -> length r = S (length l).
Proof.
  revert r. induction l as [|y l IH]; cbn [insert_label]; intros r H.
  - injection H as <-. reflexivity.
  - destruct (label_lt (fst y) (fst x)) as [|[|]]; [discriminate| |].
    + destruct (insert_label x l) as [|r0]; [discriminate|].
      injection H as <-. cbn [length]. rewrite (IH r0 eq_refl). reflexivity.
    + injection H as <-. reflexivity.
Qed.

Lemma sort_index_length s r : sort_index s = inr r -> length r = length s.
Proof.
  revert r. induction s as [|x s IH]; cbn [sort_index]; intros r H.
  - injection H as <-. reflexivity.
  - destruct (sort_index s) as [|r0]; [discriminate|].
    rewrite (insert_label_length _ _ _ H), (IH r0 eq_refl). reflexivity.
Qed.

Lemma insert_label_int x v l ks :
  map fst l = map CInt ks -> StronglySorted Z.lt ks -> ~ In x ks ->
  exists r ks',
    insert_label (CInt x, v) l = inr r /\
    map fst r = map CInt ks' /\ StronglySorted Z.lt ks' /\
    (forall z, In z ks' <-> z = x \/ In z ks) /\
    (forall p, In p r <-> p = (CInt x, v) \/ In p l).
Proof.
  revert ks. induction l as [|[k w] l IH]; intros ks E Hs Hx.
  - destruct ks; [|discriminate E].
    exists [(CInt x, v)], [x]. splits; try reflexivity.
    + repeat constructor.
    + intros z. cbn. intuition.
    + intros p. cbn. intuition.
  - destruct ks as [|z ks]; [discriminate E|].
    cbn [map fst] in E. injection E as -> E.
    inversion Hs as [|? ? Hs' Hz]; subst.
    cbn [insert_label fst label_lt].
    destruct (Z.ltb_spec z x) as [Hlt|Hge].
    + destruct (IH ks E Hs') as (r & ks' & -> & Er & Sr & Hin & Hp);
        [intros G; apply Hx; right; exact G|].
      exists ((CInt z, w) :: r), (z :: ks'). splits.
      * reflexivity.
      * cbn [map fst]. rewrite Er. reflexivity.
      * constructor; [exact Sr|]. apply Forall_forall. intros y Hy.
        apply Hin in Hy as [->|Hy]; [exact Hlt|].
        rewrite Forall_forall in Hz. apply Hz, Hy.
      * intros y. cbn [In]. rewrite Hin. intuition.
      * intros p. cbn [In]. rewrite Hp. intuition.
    + assert (x < z)%Z as Hlt by (cbn [In] in Hx; lia).
      exists ((CInt x, v) :: (CInt z, w) :: l), (x :: z :: ks). splits.
      * reflexivity.
      * cbn [map fst]. rewrite E. reflexivity.
      * constructor; [exact Hs|]. constructor; [exact Hlt|].
        eapply Forall_impl; [|exact Hz]. intros y Hy. lia.
      * intros y. cbn [In]. intuition.
      * intros p. cbn [In]. intuition.
Qed.

(** On channels that are integers, each once, the sort returns the rows by
    ascending channel. *)
Lemma sort_index_int s ks :
  map fst s = map CInt ks -> NoDup ks ->
  exists r ks',
    sort_index s = inr r /\
    map fst r = map CInt ks' /\ StronglySorted Z.lt ks' /\
    (forall z, In z ks' <-> In z ks) /\
    (forall p, In p r <-> In p s).
Proof.
  revert ks. induction s as [|[k v] s IH]; intros ks E Hnd.
  - destruct ks; [|discriminate E].
    exists [], []. splits; try reflexivity. constructor.
  - destruct ks as [|z ks]; [discriminate E|].
    cbn [map fst] in E. injection E as -> E.
    inversion Hnd as [|? ? Hz Hnd']; subst.
    destruct (IH ks E Hnd') as (r0 & ks0 & Hr0 & E0 & S0 & In0 & P0).
    destruct (insert_label_int z v r0 ks0 E0 S0) as (r & ks' & Hr & Er & Sr & Inr & Pr);
      [rewrite In0; exact Hz|].
    exists r, ks'. cbn [sort_index]. rewrite Hr0.
    splits; [exact Hr|exact Er|exact Sr| |].
    + intros y. rewrite Inr, In0. cbn [In]. intuition.
    + intros p. rewrite Pr, P0. cbn [In]. intuition.
Qed.

Lemma labelled_map (f : Z -> cell) r ks :
  map fst r = map CInt ks ->
  (forall i v, In (CInt i, v) r -> v = f i) ->
  r = map (fun i => (CInt i, f i)) ks.
Proof.
  revert ks. induction r as [|[k v] r IH]; intros ks E H.
  - destruct ks; [reflexivity|discriminate E].
  - destruct ks as [|z ks]; [discriminate E|].
    cbn [map fst] in E. injection E as -> E. cbn [map].
    rewrite (H z v (or_introl eq_refl)). f_equal.
    apply IH; [exact E|]. intros i w Hin. apply H. right. exact Hin.
Qed.

(** *** The array *)

Lemma reshape_nth rows cols v g r c d :
  reshape rows cols v = inr g -> r < rows -> c < cols ->
  length g = rows /\ nth c (nth r g []) d = nth (r * cols + c) v d.
Proof.
  unfold reshape. destruct (length v =? rows * cols); [|discriminate].
  intros H Hr Hc. injection H as <-.
  rewrite length_map, length_seq. split; [reflexivity|].
  rewrite (nth_indep _ [] (firstn cols (skipn (0 * cols) v)))
    by (rewrite length_map, length_seq; exact Hr).
  rewrite (map_nth (fun r => firstn cols (skipn (r * cols) v)) _ 0 r).
  rewrite seq_nth by exact Hr. cbn [plus].
  rewrite nth_firstn. destruct (Nat.ltb_spec c cols); [|lia].
  apply nth_skipn.
Qed.

(** *** What is drawn *)

(** The array has its 512 cells only when one channel with a read is not
    one of [range(1, 512)]. *)
Lemma grid_size s ks t h :
  map fst s = map CInt ks -> NoDup ks ->
  match sort_index (fill_missing s) with
  | inl e => inl (Raised e)
  | inr sorted =>
      match reshape 16 32 (map snd sorted) with
      | inl e => inl e
      | inr a => inr {| title := t; grid := a |}
      end
  end = inr h ->
  length (filter (fun k => negb ((1 <=? k) && (k <=? 511))%Z) ks) = 1.
Proof.
  intros E Hnd H.
  destruct (sort_index (fill_missing s)) as [|sorted] eqn:Hs; [discriminate|].
  apply sort_index_length in Hs.
  rewrite (fill_missing_length s ks E Hnd) in Hs.
  unfold reshape in H. rewrite length_map in H.
  destruct (Nat.eqb_spec (length sorted) (16 * 32)) as [L|]; [|discriminate].
  cbn in L. lia.
Qed.

Lemma filter_one (p : Z -> bool) ks :
  length (filter p ks) = 1 ->
  exists z, In z ks /\ p z = true /\
            forall z', In z' ks -> p z' = true -> z' = z.
Proof.
  intros H. destruct (filter p ks) as [|z [|z2 l]] eqn:E; try discriminate.
  assert (In z (filter p ks)) as Hz by (rewrite E; left; reflexivity).
  apply filter_In in Hz as [Hz Hp]. exists z. splits; [exact Hz|exact Hp|].
  intros z' Hz' Hp'.
  assert (In z' (filter p ks)) as G by (apply filter_In; split; assumption).
  rewrite E in G. destruct G as [G|[]]. symmetry. exact G.
Qed.

Lemma sums_per_channel_labels d c chan s :
  getitem d "channel" = inr chan ->
  sums_per_channel d c = inr s -> map fst s = map fst (tally chan).
Proof.
  unfold sums_per_channel, column. intros ->.
  destruct (lookup_col c (data d)) as [col|]; [|discriminate].
  destruct (existsb is_str col); [discriminate|].
  intros H. injection H as <-. rewrite map_map. cbn [fst]. apply map_id.
Qed.

Lemma counts_per_channel_labels chan :
  map fst (counts_per_channel chan) = map fst (tally chan).
Proof.
  unfold counts_per_channel. rewrite map_map. reflexivity.
Qed.

(** X10. The array needs a channel beyond 511.  Whatever the level, on a
    table whose channels are integers [channels_activity] gets to the
    drawing only if exactly one of the channels that have a read is not in
    [range(1, 512)], which stops at 511: for the 512 channels of a flow
    cell, only if channel 512 has a read. *)
Theorem X10_one_channel_beyond o d chan level h :
  df o = Some d -> getitem d "channel" = inr chan -> Forall is_int chan ->
  channels_activity o level = inr h ->
  exists z,
    In (CInt z) chan /\ beyond z /\
    forall z', In (CInt z') chan -> beyond z' -> z' = z.
Proof.
  intros Hd Hchan Hint H.
  destruct (tally_int chan Hint) as (ks & Hks & Hnd & Hin & _).
  assert (exists s t,
            map fst s = map CInt ks /\
            match sort_index (fill_missing s) with
            | inl e => inl (Raised e)
            | inr sorted =>
                match reshape 16 32 (map snd sorted) with
                | inl e => inl e
                | inr a => inr {| title := t; grid := a |}
                end
            end = inr h) as (s & t & Es & Hs).
  { unfold channels_activity, assign_if, reads_per_channel, sum_per_channel,
      attribute, column in H.
    rewrite Hd, Hchan in H.
    destruct (String.eqb level "reads"), (String.eqb level "bases"),
      (String.eqb level "events");
      repeat match type of H with
             | context [sums_per_channel d ?c] =>
                 let S := fresh "S" in
                 destruct (sums_per_channel d c) eqn:S; [discriminate H|]
             end;
      try discriminate H;
      (do 2 eexists; split; [|exact H]);
      first [ rewrite counts_per_channel_labels; exact Hks
            | match goal with
              | S : sums_per_channel d _ = inr ?s |- map fst ?s = _ =>
                  rewrite (sums_per_channel_labels _ _ _ _ Hchan S); exact Hks
              end ]. }
  apply (grid_size s ks t h Es Hnd) in Hs.
  apply filter_one in Hs as (z & Hz & Hp & Huniq).
  exists z. unfold beyond. splits.
  - apply Hin, Hz.
  - lia.
  - intros z' Hz' Hb. apply Huniq; [apply Hin, Hz'|]. lia.
Qed.

Lemma X10_one_channel_beyond_witness :
  df (object_of (one_read_each 512)) = Some (one_read_each 512) /\
  (exists chan h,
     getitem (one_read_each 512) "channel" = inr chan /\
     Forall is_int chan /\
     channels_activity (object_of (one_read_each 512)) "reads" = inr h /\
     exists z,
       In (CInt z) chan /\ beyond z /\
       forall z', In (CInt z') chan -> beyond z' -> z' = z).
Proof.
  split; [reflexivity|].
  assert (getitem (one_read_each 512) "channel"
          = inr (map (fun k => CInt (Z.of_nat k)) (seq 1 512))) as Hc
    by reflexivity.
  assert (Forall is_int (map (fun k => CInt (Z.of_nat k)) (seq 1 512))) as Hi.
  { apply Forall_forall. intros x Hx.
    apply in_map_iff in Hx as (k & <- & _). exact I. }
  assert (channels_activity (object_of (one_read_each 512)) "reads"
          = inr {| title := "Reads per channels";
                   grid := repeat (repeat (CInt 1) 32) 16 |}) as Hrun
    by (vm_compute; reflexivity).
  do 2 eexists. splits; [exact Hc|exact Hi|exact Hrun|].
  exact (X10_one_channel_beyond (object_of (one_read_each 512))
           (one_read_each 512) _ "reads" _ eq_refl Hc Hi Hrun).
Defined.

Lemma select_none {A : Type} (m : list bool) (l : list A) :
  Forall (fun b => b = false) m -> select m l = [].
Proof.
  intros H. revert l. induction H as [|b m Hb _ IH]; intros l.
  - destruct l; reflexivity.
  - subst b. destruct l as [|x l]; [reflexivity|]. cbn [select]. apply IH.
Qed.

(** The array of a series that has a row for channel 512 and none beyond:
    the cell of row [r] and column [c] is the value of channel
    [32 r + c + 1]. *)
Lemma grid_cells (f : Z -> cell) s ks t :
  map fst s = map CInt ks -> NoDup ks ->
  (forall z, In z ks -> (1 <= z <= 512)%Z) -> In 512%Z ks ->
  (forall i v, In (CInt i, v) s -> v = f i) ->
  (forall i, ~ In i ks -> zero_like s = f i) ->
  exists a,
    match sort_index (fill_missing s) with
    | inl e => inl (Raised e)
    | inr sorted =>
        match reshape 16 32 (map snd sorted) with
        | inl e => inl e
        | inr a => inr {| title := t; grid := a |}
        end
    end = inr {| title := t; grid := a |} /\
    length a = 16 /\
    forall r c, r < 16 -> c < 32 ->
      nth c (nth r a []) (CInt 0) = f (Z.of_nat (32 * r + c + 1)).
Proof.
  intros E Hnd Hrange H512 Hs Hzero.
  pose proof (fill_missing_int s ks E) as Hfill.
  set (rest := filter (fun i => negb (existsb (fun k => Z.eqb k i) ks))
                 (range 1 512)) in Hfill.
  assert (forall i, In i rest <-> (1 <= i < 512)%Z /\ ~ In i ks) as Hrest.
  { intros i. unfold rest. rewrite filter_In, range_In, negb_true_iff.
    split; intros [H1 H2]; (split; [exact H1|]).
    - intros Hin. apply not_true_iff_false in H2. apply H2.
      apply existsb_exists. exists i. split; [exact Hin|apply Z.eqb_refl].
    - apply not_true_iff_false. intros M.
      apply existsb_exists in M as (k & Hk & Ek). apply Z.eqb_eq in Ek.
      subst k. contradiction. }
  assert (map fst (fill_missing s) = map CInt (ks ++ rest)) as Efill.
  { rewrite Hfill, !map_app, E, map_map. reflexivity. }
  assert (NoDup (ks ++ rest)) as Hnd'.
  { apply NoDup_app; [exact Hnd| |].
    - apply NoDup_filter, sorted_NoDup, range_sorted.
    - intros i Hi Hr. apply Hrest in Hr as [_ Hr]. contradiction. }
  destruct (sort_index_int _ _ Efill Hnd')
    as (sorted & ks' & Hsort & Es & Ss & Hin & Hp).
  assert (ks' = range 1 513) as ->.
  { apply sorted_ext; [exact Ss|apply range_sorted|].
    intros z. rewrite Hin, in_app_iff, Hrest, range_In. split.
    - intros [Hz|[Hz _]]; [specialize (Hrange _ Hz)|]; lia.
    - intros Hz. destruct (in_dec Z.eq_dec z ks) as [Hk|Hk]; [left; exact Hk|].
      right. split; [|exact Hk].
      assert (z <> 512%Z) by (intros ->; contradiction). lia. }
  assert (sorted = map (fun i => (CInt i, f i)) (range 1 513)) as ->.
  { apply labelled_map; [exact Es|]. intros i v Hiv.
    apply Hp in Hiv. rewrite Hfill in Hiv.
    apply in_app_iff in Hiv as [Hiv|Hiv]; [apply Hs, Hiv|].
    apply in_map_iff in Hiv as (j & Ej & Hj). injection Ej as -> <-.
    apply Hzero. apply Hrest in Hj as [_ Hj]. exact Hj. }
  rewrite Hsort, map_map. cbn [snd].
  destruct (reshape 16 32 (map f (range 1 513))) as [e|a] eqn:Hr.
  { unfold reshape in Hr. rewrite length_map, range_length in Hr.
    discriminate Hr. }
  exists a. split; [reflexivity|].
  split; [apply (reshape_nth _ _ _ _ 0 0 (CInt 0) Hr); lia|].
  intros r c Lr Lc.
  destruct (reshape_nth _ _ _ _ r c (CInt 0) Hr Lr Lc) as [_ ->].
  rewrite (nth_indep _ (CInt 0) (f 0%Z))
    by (rewrite length_map, range_length; cbn; lia).
  rewrite map_nth, range_nth by (cbn; lia). f_equal. lia.
Qed.

(** Without a read from channel 512 the array has 511 cells. *)
Lemma grid_short s ks t :
  map fst s = map CInt ks -> NoDup ks ->
  (forall z, In z ks -> (1 <= z <= 511)%Z) ->
  match sort_index (fill_missing s) with
  | inl e => inl (Raised e)
  | inr sorted =>
      match reshape 16 32 (map snd sorted) with
      | inl e => inl e
      | inr a => inr {| title := t; grid := a |}
      end
  end = inl ValueError.
Proof.
  intros E Hnd Hrange.
  pose proof (fill_missing_int s ks E) as Hfill.
  assert (map fst (fill_missing s)
          = map CInt (ks ++ filter (fun i =>
                        negb (existsb (fun k => Z.eqb k i) ks)) (range 1 512)))
    as Efill by (rewrite Hfill, !map_app, E, map_map; reflexivity).
  assert (NoDup (ks ++ filter (fun i =>
                   negb (existsb (fun k => Z.eqb k i) ks)) (range 1 512)))
    as Hnd'.
  { apply NoDup_app; [exact Hnd| |].
    - apply NoDup_filter, sorted_NoDup, range_sorted.
    - intros i Hi Hr. apply filter_In in Hr as [_ Hr].
      apply negb_true_iff, not_true_iff_false in Hr. apply Hr.
      apply existsb_exists. exists i. split; [exact Hi|apply Z.eqb_refl]. }
  destruct (sort_index_int _ _ Efill Hnd') as (sorted & ks' & Hsort & _).
  rewrite Hsort. apply sort_index_length in Hsort.
  rewrite (fill_missing_length s ks E Hnd) in Hsort.
  rewrite filter_none_on in Hsort.
  - unfold reshape. rewrite length_map, Hsort. reflexivity.
  - apply Forall_forall. intros z Hz. specialize (Hrange _ Hz).
    apply negb_false_iff. lia.
Qed.

Lemma occurrences_absent z chan :
  Forall is_int chan -> ~ In (CInt z) chan -> occurrences (CInt z) chan = 0.
Proof.
  intros Hint Hz. unfold occurrences. rewrite filter_none_on; [reflexivity|].
  rewrite Forall_forall in Hint |- *. intros c Hc.
  pose proof (Hint _ Hc) as Hi. destruct c as [x| |]; cbn in Hi; try tauto.
  cbn. apply Z.eqb_neq. intros ->. contradiction.
Qed.

Lemma zero_like_counts chan : zero_like (counts_per_channel chan) = CInt 0.
Proof.
  unfold zero_like, counts_per_channel.
  replace (existsb _ _) with false; [reflexivity|].
  symmetry. induction (tally chan) as [|kn t IH]; [reflexivity|].
  cbn [map existsb snd is_float]. exact IH.
Qed.

(** X11. The reads per channel, and the flow cell whose last channel is
    silent.  On a table whose channels are integers from 1 to 512,
    [channels_activity] at the level of the reads draws, when channel 512
    has a read, an array of 16 rows of 32 cells under the title
    "Reads per channels", whose cell of row [r] and column [c] is the
    number of reads of channel [32 r + c + 1]; when channel 512 has no read
    it raises [ValueError] in [reshape]. *)
Theorem X11_reads_per_channel o d chan :
  df o = Some d -> getitem d "channel" = inr chan ->
  Forall (fun c => exists z, c = CInt z /\ (1 <= z <= 512)%Z) chan ->
  (In (CInt 512) chan ->
     exists h,
       channels_activity o "reads" = inr h /\
       title h = "Reads per channels" /\
       length (grid h) = 16 /\
       forall r c, r < 16 -> c < 32 ->
         nth c (nth r (grid h) []) (CInt 0)
         = CInt (Z.of_nat
                   (occurrences (CInt (Z.of_nat (32 * r + c + 1))) chan))) /\
  (~ In (CInt 512) chan -> channels_activity o "reads" = inl ValueError).
Proof.
  intros Hd Hchan Hall.
  assert (Forall is_int chan) as Hint.
  { eapply Forall_impl; [|exact Hall]. intros c (z & -> & _). exact I. }
  destruct (tally_int chan Hint) as (ks & Hks & Hnd & Hin & Hcount).
  assert (forall z, In z ks -> (1 <= z <= 512)%Z) as Hrange.
  { intros z Hz. apply Hin in Hz. rewrite Forall_forall in Hall.
    destruct (Hall _ Hz) as (z' & E & Hz'). injection E as ->. exact Hz'. }
  assert (channels_activity o "reads" =
          match sort_index (fill_missing (counts_per_channel chan)) with
          | inl e => inl (Raised e)
          | inr sorted =>
              match reshape 16 32 (map snd sorted) with
              | inl e => inl e
              | inr a => inr {| title := "Reads per channels"; grid := a |}
              end
          end) as ->.
  { unfold channels_activity, assign_if, reads_per_channel, attribute, column.
    rewrite Hd, Hchan. reflexivity. }
  pose proof (counts_per_channel_labels chan) as El. rewrite Hks in El.
  split.
  - intros H512.
    destruct (grid_cells
                (fun i => CInt (Z.of_nat (occurrences (CInt i) chan)))
                _ ks "Reads per channels" El Hnd Hrange)
      as (a & -> & La & Ha).
    + apply Hin, H512.
    + intros i v Hiv. unfold counts_per_channel in Hiv.
      apply in_map_iff in Hiv as ([k n] & Ekn & Hkn). cbn [fst snd] in Ekn.
      injection Ekn as -> <-. rewrite (Hcount _ _ Hkn). reflexivity.
    + intros i Hi. rewrite zero_like_counts, occurrences_absent;
        [reflexivity|exact Hint|]. intros G. apply Hi, Hin, G.
    + eexists. splits; [reflexivity|reflexivity|exact La|exact Ha].
  - intros H512. apply (grid_short _ ks); [exact El|exact Hnd|].
    intros z Hz. specialize (Hrange _ Hz).
    assert (z <> 512%Z) by (intros ->; apply H512, Hin, Hz). lia.
Qed.

Lemma X11_reads_per_channel_witness :
  df (object_of (one_read_each 512)) = Some (one_read_each 512) /\
  exists chan,
    getitem (one_read_each 512) "channel" = inr chan /\
    Forall (fun c => exists z, c = CInt z /\ (1 <= z <= 512)%Z) chan /\
    (In (CInt 512) chan ->
       exists h,
         channels_activity (object_of (one_read_each 512)) "reads" = inr h /\
         title h = "Reads per channels" /\
         length (grid h) = 16 /\
         forall r c, r < 16 -> c < 32 ->
           nth c (nth r (grid h) []) (CInt 0)
           = CInt (Z.of_nat
                     (occurrences (CInt (Z.of_nat (32 * r + c + 1))) chan))) /\
    (~ In (CInt 512) chan ->
       channels_activity (object_of (one_read_each 512)) "reads"
       = inl ValueError).
Proof.
  split; [reflexivity|].
  assert (getitem (one_read_each 512) "channel"
          = inr (map (fun k => CInt (Z.of_nat k)) (seq 1 512))) as Hc
    by reflexivity.
  assert (Forall (fun c => exists z, c = CInt z /\ (1 <= z <= 512)%Z)
            (map (fun k => CInt (Z.of_nat k)) (seq 1 512))) as Hi.
  { apply Forall_forall. intros x Hx.
    apply in_map_iff in Hx as (k & <- & Hk). apply in_seq in Hk.
    exists (Z.of_nat k). split; [reflexivity|lia]. }
  eexists. split; [exact Hc|]. split; [exact Hi|].
  exact (X11_reads_per_channel (object_of (one_read_each 512))
           (one_read_each 512) _ eq_refl Hc Hi).
Defined.

(** X12. A level that is none of "reads", "bases" and "events" leaves [s]
    without a value: [channels_activity] raises [UnboundLocalError] at the
    first use of [s], whatever the object, before it reads the table. *)
Theorem X12_unknown_level o level :
  level <> "reads" -> level <> "bases" -> level <> "events" ->
  channels_activity o level = inl (UnboundLocalError "s").
Proof.
  intros H1 H2 H3. unfold channels_activity, assign_if.
  apply String.eqb_neq in H1, H2, H3. rewrite H1, H2, H3. reflexivity.
Qed.

Lemma X12_unknown_level_witness :
  channels_activity new_object "read" = inl (UnboundLocalError "s").
Proof.
  apply X12_unknown_level; discriminate.
Defined.

(** *** The sums per channel *)

Lemma wrap64_add_l a b : wrap64 (wrap64 a + b) = wrap64 (a + b).
Proof.
  unfold wrap64. f_equal.
  replace ((a + 2 ^ 63) mod 2 ^ 64 - 2 ^ 63 + b + 2 ^ 63)%Z
    with ((a + 2 ^ 63) mod 2 ^ 64 + b)%Z by lia.
  rewrite Zplus_mod_idemp_l. f_equal. lia.
Qed.

Lemma wrap64_idem a : wrap64 (wrap64 a) = wrap64 a.
Proof.
  pose proof (wrap64_add_l a 0) as H. rewrite !Z.add_0_r in H. exact H.
Qed.

(** The sum of a group of integers is their sum, brought to [int64]. *)
Lemma np_sum_int g : Forall is_int g -> np_sum false g = CInt (wrap64 (total g)).
Proof.
  intros H. unfold np_sum, total. f_equal.
  assert (forall a, wrap64 a = a ->
            fold_left (fun acc x => match x with
                                    | CInt z => wrap64 (acc + z)
                                    | _ => acc
                                    end) g a
            = wrap64 (a + fold_right Z.add 0%Z (map int_value g))) as G.
  { induction H as [|x g Hx _ IH]; intros a Ha; cbn [fold_left map fold_right].
    - rewrite Z.add_0_r. symmetry. exact Ha.
    - destruct x as [z| |]; cbn in Hx; try tauto. cbn [int_value].
      rewrite IH by apply wrap64_idem.
      rewrite wrap64_add_l. f_equal. lia. }
  apply (G 0%Z). reflexivity.
Qed.

Lemma existsb_none {A : Type} (p : A -> bool) (l : list A) :
  Forall (fun x => p x = false) l -> existsb p l = false.
Proof.
  induction 1 as [|x l Hx _ IH]; [reflexivity|].
  cbn [existsb]. rewrite Hx, IH. reflexivity.
Qed.

(** X13. The bases and the events per channel.  On a table whose channels
    are integers from 1 to 512, channel 512 among them, and whose summed
    column holds integers, [channels_activity] at the level of the bases,
    or of the events, draws an array of 16 rows of 32 cells whose cell of
    row [r] and column [c] is the sum of [sequence_length_template], or of
    [num_events], over the reads of channel [32 r + c + 1], brought to
    [int64]; a channel with no read has the sum 0. *)
Theorem X13_sums_per_channel o d chan level c t col :
  df o = Some d -> getitem d "channel" = inr chan ->
  Forall (fun x => exists z, x = CInt z /\ (1 <= z <= 512)%Z) chan ->
  In (CInt 512) chan ->
  (level = "bases" /\ c = "sequence_length_template" /\
   t = "Bases per channels") \/
  (level = "events" /\ c = "num_events" /\ t = "Events per channels") ->
  getitem d c = inr col -> Forall is_int col ->
  exists h,
    channels_activity o level = inr h /\
    title h = t /\
    length (grid h) = 16 /\
    forall r k, r < 16 -> k < 32 ->
      nth k (nth r (grid h) []) (CInt 0)
      = CInt (wrap64 (total
          (select (map (cell_eqb (CInt (Z.of_nat (32 * r + k + 1)))) chan)
                  col))).
Proof.
  intros Hd Hchan Hall H512 Hlevel Hcol Hic.
  assert (Forall is_int chan) as Hint.
  { eapply Forall_impl; [|exact Hall]. intros x (z & -> & _). exact I. }
  destruct (tally_int chan Hint) as (ks & Hks & Hnd & Hin & _).
  assert (forall z, In z ks -> (1 <= z <= 512)%Z) as Hrange.
  { intros z Hz. apply Hin in Hz. rewrite Forall_forall in Hall.
    destruct (Hall _ Hz) as (z' & E & Hz'). injection E as ->. exact Hz'. }
  set (s := map (fun k => (k, np_sum false (select (map (cell_eqb k) chan) col)))
                (map fst (tally chan))).
  assert (sums_per_channel d c = inr s) as Hsum.
  { unfold sums_per_channel, column. rewrite Hchan.
    unfold getitem in Hcol.
    destruct (lookup_col c (data d)) as [col'|]; [|discriminate].
    injection Hcol as ->.
    rewrite !existsb_none; [reflexivity| |];
      (eapply Forall_impl; [|exact Hic]); intros [| |]; cbn; tauto. }
  assert (channels_activity o level =
          match sort_index (fill_missing s) with
          | inl e => inl (Raised e)
          | inr sorted =>
              match reshape 16 32 (map snd sorted) with
              | inl e => inl e
              | inr a => inr {| title := t; grid := a |}
              end
          end) as ->.
  { unfold channels_activity, assign_if, sum_per_channel, attribute.
    rewrite Hd.
    destruct Hlevel as [(-> & -> & ->)|(-> & -> & ->)];
      cbn [String.eqb Ascii.eqb Bool.eqb]; rewrite Hsum; reflexivity. }
  assert (map fst s = map CInt ks) as El.
  { unfold s. rewrite map_map. cbn [fst]. rewrite map_id. exact Hks. }
  destruct (grid_cells
              (fun i => CInt (wrap64 (total
                 (select (map (cell_eqb (CInt i)) chan) col))))
              s ks t El Hnd Hrange) as (a & -> & La & Ha).
  - apply Hin, H512.
  - intros i v Hiv. unfold s in Hiv.
    apply in_map_iff in Hiv as (k & Ek & _). injection Ek as -> <-.
    apply np_sum_int, Forall_select, Hic.
  - intros i Hi.
    assert (zero_like s = CInt 0) as ->.
    { unfold zero_like, s. rewrite existsb_none; [reflexivity|].
      apply Forall_forall. intros kv Hkv.
      apply in_map_iff in Hkv as (k & <- & _). reflexivity. }
    rewrite select_none; [reflexivity|].
    rewrite Forall_map. rewrite Forall_forall in Hint |- *. intros x Hx.
    pose proof (Hint _ Hx) as Hxi. destruct x as [z| |]; cbn in Hxi; try tauto.
    cbn. apply Z.eqb_neq. intros ->. apply Hi, Hin, Hx.
  - eexists. splits; [reflexivity|reflexivity|exact La|exact Ha].
Qed.

Lemma X13_sums_per_channel_witness :
  df (object_of (one_read_each 512)) = Some (one_read_each 512) /\
  exists chan col,
    getitem (one_read_each 512) "channel" = inr chan /\
    Forall (fun x => exists z, x = CInt z /\ (1 <= z <= 512)%Z) chan /\
    In (CInt 512) chan /\
    getitem (one_read_each 512) "sequence_length_template" = inr col /\
    Forall is_int col /\
    exists h,
      channels_activity (object_of (one_read_each 512)) "bases" = inr h /\
      title h = "Bases per channels" /\
      length (grid h) = 16 /\
      forall r k, r < 16 -> k < 32 ->
        nth k (nth r (grid h) []) (CInt 0)
        = CInt (wrap64 (total
            (select (map (cell_eqb (CInt (Z.of_nat (32 * r + k + 1)))) chan)
                    col))).
Proof.
  split; [reflexivity|].
  assert (getitem (one_read_each 512) "channel"
          = inr (map (fun k => CInt (Z.of_nat k)) (seq 1 512))) as Hc
    by reflexivity.
  assert (Forall (fun c => exists z, c = CInt z /\ (1 <= z <= 512)%Z)
            (map (fun k => CInt (Z.of_nat k)) (seq 1 512))) as Hi.
  { apply Forall_forall. intros x Hx.
    apply in_map_iff in Hx as (k & <- & Hk). apply in_seq in Hk.
    exists (Z.of_nat k). split; [reflexivity|lia]. }
  assert (In (CInt 512) (map (fun k => CInt (Z.of_nat k)) (seq 1 512))) as H512.
  { apply in_map_iff. exists 512. split; [reflexivity|]. apply in_seq. lia. }
  assert (getitem (one_read_each 512) "sequence_length_template"
          = inr (repeat (CInt 10) 512)) as Hl by reflexivity.
  assert (Forall is_int (repeat (CInt 10) 512)) as Hn.
  { apply Forall_forall. intros x Hx. apply repeat_spec in Hx. subst.
    exact I. }
  do 2 eexists. splits; [exact Hc|exact Hi|exact H512|exact Hl|exact Hn|].
  exact (X13_sums_per_channel (object_of (one_read_each 512))
           (one_read_each 512) _ "bases" "sequence_length_template"
           "Bases per channels" _ eq_refl Hc Hi H512
           (or_introl (conj eq_refl (conj eq_refl eq_refl))) Hl Hn).
Defined.
